(** * Project data integrity core of agroecologia-desenhada

    A shallow embedding of the validator (src/unnamed/part_001, the
    canvas validation module), the persistence store
    (src/frontend/src/utils/dataPersistence.ts) and the export/import
    codec (src/frontend/src/utils/exportUtils.ts), with the properties
    the specification states about them.

    Modelling conventions.
    - A value of TypeScript type [any] is a [value]: the JavaScript
      primitives, arrays and plain objects (ordered property lists).
    - A JavaScript number is a [number]: a finite value (a rational; every
      finite double is one), NaN or one of the infinities.  Comparisons,
      [typeof] and [isFinite] are exact; arithmetic is not rounded.
    - A string is a [string] whose characters stand for its code units.
    - A [throw] is a [Throw] result; [try]/[catch] is [try_catch].
    - [localStorage] is a finite map from keys to texts; a text is
      represented by the JSON value it denotes, or as raw characters.
    - An options object is a record of [optional] properties: each is
      absent, present as [undefined] or [null], or present with a value
      of its declared type.
    - Notifications ([toast], [console]) have no effect on any value the
      properties mention and are left out. *)

From Stdlib Require Import Bool Arith ZArith QArith Qabs Lia List Ascii String Permutation.
From Stdlib Require DecimalString.
Import ListNotations.

Set Warnings "-register-all".
Local Open Scope string_scope.

(** ** JavaScript numbers *)

Inductive number : Type :=
| Fin (q : Q)
| NaN
| PInf
| NInf.

Definition of_Z (z : Z) : number := Fin (inject_Z z).
Definition of_nat (n : nat) : number := of_Z (Z.of_nat n).

Definition Qlt_bool (a b : Q) : bool := negb (Qle_bool b a).

(** [a < b] of JavaScript on numbers: false as soon as one side is NaN. *)
Definition num_lt (a b : number) : bool :=
  match a, b with
  | NaN, _ | _, NaN => false
  | Fin x, Fin y => Qlt_bool x y
  | NInf, NInf => false
  | NInf, _ => true
  | _, PInf => match a with PInf => false | _ => true end
  | _, _ => false
  end.

Definition num_gt (a b : number) : bool := num_lt b a.

(** [a <= b]: false with NaN, otherwise the negation of [b < a]. *)
Definition num_le (a b : number) : bool :=
  match a, b with
  | NaN, _ | _, NaN => false
  | _, _ => negb (num_lt b a)
  end.

Definition isFinite (n : number) : bool :=
  match n with Fin _ => true | _ => false end.

Definition Math_abs (n : number) : number :=
  match n with
  | Fin q => Fin (Qabs q)
  | NaN => NaN
  | PInf | NInf => PInf
  end.

(** ToBoolean on a number: 0 and NaN are falsy. *)
Definition num_truthy (n : number) : bool :=
  match n with
  | Fin q => negb (Qeq_bool q 0)
  | NaN => false
  | PInf | NInf => true
  end.

Definition num_sign (n : number) : comparison :=
  match n with
  | Fin q => (0 ?= q)%Q
  | PInf => Lt
  | NInf => Gt
  | NaN => Eq
  end.

Definition num_mul (a b : number) : number :=
  match a, b with
  | NaN, _ | _, NaN => NaN
  | Fin x, Fin y => Fin (x * y)
  | _, _ =>
      match num_sign a, num_sign b with
      | Eq, _ | _, Eq => NaN
      | Lt, Lt | Gt, Gt => PInf
      | _, _ => NInf
      end
  end.

Definition num_add (a b : number) : number :=
  match a, b with
  | NaN, _ | _, NaN => NaN
  | Fin x, Fin y => Fin (x + y)
  | PInf, NInf | NInf, PInf => NaN
  | PInf, _ | _, PInf => PInf
  | NInf, _ | _, NInf => NInf
  end.

Definition num_div (a b : number) : number :=
  match a, b with
  | NaN, _ | _, NaN => NaN
  | Fin x, Fin y =>
      if Qeq_bool y 0
      then match (0 ?= x)%Q with Eq => NaN | Lt => PInf | Gt => NInf end
      else Fin (x / y)
  | Fin _, _ => Fin 0
  | _, Fin y =>
      match num_sign a, (0 ?= y)%Q with
      | Lt, Gt | Gt, Lt | Gt, Eq => NInf
      | _, _ => PInf
      end
  | _, _ => NaN
  end.

(** ** JavaScript values *)

Inductive value : Type :=
| VUndefined
| VNull
| VBool (b : bool)
| VNum (n : number)
| VStr (s : string)
| VArr (items : list value)
| VObj (props : list (string * value)).

Definition object := list (string * value).

(** ToBoolean. *)
Definition truthy (v : value) : bool :=
  match v with
  | VUndefined | VNull => false
  | VBool b => b
  | VNum n => num_truthy n
  | VStr s => negb (s =? EmptyString)
  | VArr _ | VObj _ => true
  end.

Definition typeof (v : value) : string :=
  match v with
  | VUndefined => "undefined"
  | VNull | VArr _ | VObj _ => "object"
  | VBool _ => "boolean"
  | VNum _ => "number"
  | VStr _ => "string"
  end.

Definition Array_isArray (v : value) : bool :=
  match v with VArr _ => true | _ => false end.

Definition is_undefined (v : value) : bool :=
  match v with VUndefined => true | _ => false end.

(** [v === s] and [arr.includes(v)] against string constants. *)
Definition is_string (v : value) (s : string) : bool :=
  match v with VStr t => t =? s | _ => false end.

Definition includes (l : list string) (v : value) : bool :=
  existsb (is_string v) l.

Fixpoint lookup (k : string) (o : object) : option value :=
  match o with
  | [] => None
  | (k', v) :: rest => if k' =? k then Some v else lookup k rest
  end.

(** [o.k = v] on a plain object: the property keeps its place, a new one
    goes last. *)
Fixpoint assign (k : string) (v : value) (o : object) : object :=
  match o with
  | [] => [(k, v)]
  | (k', v') :: rest =>
      if k' =? k then (k', v) :: rest else (k', v') :: assign k v rest
  end.

(** ** Exceptions *)

Inductive exn : Type :=
| TypeError
| SyntaxError
| QuotaExceededError.

Inductive result (A : Type) : Type :=
| Ok (a : A)
| Throw (e : exn).
Arguments Ok {A} a.
Arguments Throw {A} e.

Definition rbind {A B} (m : result A) (f : A -> result B) : result B :=
  match m with
  | Ok a => f a
  | Throw e => Throw e
  end.

Declare Scope js_scope.
Delimit Scope js_scope with js.
Notation "x <- m ;; k" := (rbind m (fun x => k))
  (at level 61, m at next level, right associativity) : js_scope.

(** Property read [v.k].  Reading from [undefined] or [null] throws; the
    names the program reads are never inherited ones, so a plain object
    answers from its own properties; arrays and strings have [length]. *)
Definition get (v : value) (k : string) : result value :=
  match v with
  | VUndefined | VNull => Throw TypeError
  | VObj o => Ok (match lookup k o with Some x => x | None => VUndefined end)
  | VArr l => Ok (if k =? "length" then VNum (of_nat (List.length l)) else VUndefined)
  | VStr s => Ok (if k =? "length" then VNum (of_nat (String.length s)) else VUndefined)
  | VBool _ | VNum _ => Ok VUndefined
  end.

(** [k in v]: throws unless [v] is an object. *)
Definition has_property (k : string) (v : value) : result bool :=
  match v with
  | VObj o => Ok (match lookup k o with Some _ => true | None => false end)
  | VArr _ => Ok (k =? "length")
  | _ => Throw TypeError
  end.

(** ** Regular expressions

    The patterns of the program use sequencing, alternation, optional
    groups, [\d+], a counted class and capture groups.  [rmatch] is the
    backtracking matcher in continuation style: greedy choices first. *)

Inductive regex : Type :=
| Chr (c : ascii)
| Seq (r1 r2 : regex)
| Alt (r1 r2 : regex)
| Opt (r : regex)
| Plus (p : ascii -> bool)
| Rep (n : nat) (p : ascii -> bool)
| Grp (i : nat) (r : regex).

Definition captures := list (nat * list ascii).
Definition cont := list ascii -> captures -> option captures.

Definition or_else {A} (a b : option A) : option A :=
  match a with Some x => Some x | None => b end.

Fixpoint plus_class (p : ascii -> bool) (s : list ascii) (c : captures) (k : cont)
  : option captures :=
  match s with
  | [] => None
  | a :: s' => if p a then or_else (plus_class p s' c k) (k s' c) else None
  end.

Fixpoint rep_class (n : nat) (p : ascii -> bool) (s : list ascii) (c : captures)
  (k : cont) : option captures :=
  match n with
  | O => k s c
  | S n' =>
      match s with
      | [] => None
      | a :: s' => if p a then rep_class n' p s' c k else None
      end
  end.

Fixpoint rmatch (r : regex) (s : list ascii) (c : captures) (k : cont)
  : option captures :=
  match r with
  | Chr a =>
      match s with
      | [] => None
      | b :: s' => if Ascii.eqb a b then k s' c else None
      end
  | Seq r1 r2 => rmatch r1 s c (fun s' c' => rmatch r2 s' c' k)
  | Alt r1 r2 => or_else (rmatch r1 s c k) (rmatch r2 s c k)
  | Opt r1 => or_else (rmatch r1 s c k) (k s c)
  | Plus p => plus_class p s c k
  | Rep n p => rep_class n p s c k
  | Grp i r1 =>
      rmatch r1 s c
        (fun s' c' => k s' ((i, firstn (List.length s - List.length s') s) :: c'))
  end.

Definition at_end : cont :=
  fun rest c => match rest with [] => Some c | _ => None end.

(** [/^r$/.test(s)] *)
Definition test (r : regex) (s : string) : bool :=
  match rmatch r (list_ascii_of_string s) [] at_end with
  | Some _ => true
  | None => false
  end.

(** [s.match(/r/)]: the leftmost position where [r] matches. *)
Fixpoint search (r : regex) (s : list ascii) : option captures :=
  match rmatch r s [] (fun _ c => Some c) with
  | Some c => Some c
  | None =>
      match s with
      | [] => None
      | _ :: s' => search r s'
      end
  end.

Fixpoint group (i : nat) (c : captures) : option (list ascii) :=
  match c with
  | [] => None
  | (j, g) :: rest => if Nat.eqb i j then Some g else group i rest
  end.

Definition in_range (lo hi a : ascii) : bool :=
  Nat.leb (nat_of_ascii lo) (nat_of_ascii a) && Nat.leb (nat_of_ascii a) (nat_of_ascii hi).

(** [\d] *)
Definition digit (a : ascii) : bool := in_range "0" "9" a.

(** [[0-9A-Fa-f]] *)
Definition hex_digit (a : ascii) : bool :=
  in_range "0" "9" a || in_range "A" "F" a || in_range "a" "f" a.

(** [\d+(?:\.\d+)?] *)
Definition re_decimal : regex := Seq (Plus digit) (Opt (Seq (Chr ".") (Plus digit))).

(** [(cm|m)] *)
Definition re_unit : regex := Alt (Seq (Chr "c") (Chr "m")) (Chr "m").

(** [/^(\d+(?:\.\d+)?)(?:x(\d+(?:\.\d+)?))?(cm|m)$/] *)
Definition spacingPattern : regex :=
  Seq (Grp 1 re_decimal)
    (Seq (Opt (Seq (Chr "x") (Grp 2 re_decimal))) (Grp 3 re_unit)).

(** [/^#[0-9A-Fa-f]{6}$/] *)
Definition colorPattern : regex := Seq (Chr "#") (Rep 6 hex_digit).

(** ** Validator (src/unnamed/part_001) *)

Record ValidationResult : Type := {
  isValid : bool;
  error : option string
}.

Definition valid : ValidationResult := {| isValid := true; error := None |}.
Definition invalid (msg : string) : ValidationResult :=
  {| isValid := false; error := Some msg |}.

(** [if (c) return { isValid: false, error: msg }; k] *)
Notation "'reject' c 'saying' msg ;; k" :=
  (if c then Ok (invalid msg) else k)
  (at level 61, c at next level, msg at next level, right associativity) : js_scope.

Definition not_a (ty : string) (v : value) : bool := negb (typeof v =? ty).

(** [!v || typeof v !== ty] *)
Definition missing (ty : string) (v : value) : bool :=
  negb (truthy v) || not_a ty v.

(** Relational operators against a number.  The program applies them only
    behind a [typeof v === 'number'] guard or to a [length]; no coercion of
    another kind of operand is modelled. *)
Definition lt_num (v : value) (n : number) : bool :=
  match v with VNum m => num_lt m n | _ => false end.
Definition gt_num (v : value) (n : number) : bool :=
  match v with VNum m => num_gt m n | _ => false end.
Definition le_num (v : value) (n : number) : bool :=
  match v with VNum m => num_le m n | _ => false end.

(** [isFinite(v)] behind the same guard. *)
Definition is_finite (v : value) : bool :=
  match v with VNum m => isFinite m | _ => false end.

(** [pattern.test(v)] on a string. *)
Definition test_value (r : regex) (v : value) : bool :=
  match v with VStr s => test r s | _ => false end.

Definition quoted (s : string) : string :=
  String (ascii_of_nat 34) s ++ String (ascii_of_nat 34) EmptyString.

Definition spacing_format_error : string :=
  "Invalid spacing format. Use formats like " ++ quoted "1x1m" ++ ", "
  ++ quoted "30x30cm" ++ ", " ++ quoted "50cm" ++ ", or " ++ quoted "2m".

Local Open Scope js_scope.

Definition validatePlant (plant : value) : result ValidationResult :=
  reject missing "object" plant saying "Invalid plant data" ;;
  id <- get plant "id" ;;
  reject missing "string" id saying "Plant ID is required and must be a string" ;;
  name <- get plant "name" ;;
  reject missing "string" name saying "Plant name is required and must be a string" ;;
  len <- get name "length" ;;
  reject gt_num len (of_Z 100) saying "Plant name must be less than 100 characters" ;;
  spacing <- get plant "spacing" ;;
  reject missing "string" spacing saying "Plant spacing is required" ;;
  reject negb (test_value spacingPattern spacing)
    saying spacing_format_error ;;
  category <- get plant "category" ;;
  reject missing "string" category saying "Plant category is required" ;;
  color <- get plant "color" ;;
  reject missing "string" color saying "Plant color is required" ;;
  reject negb (test_value colorPattern color)
    saying "Plant color must be a valid hex color (e.g., #FF6B6B)" ;;
  Ok valid.

Definition validateTerrain (terrain : value) : result ValidationResult :=
  reject missing "object" terrain saying "Invalid terrain data" ;;
  id <- get terrain "id" ;;
  reject missing "string" id saying "Terrain ID is required and must be a string" ;;
  name <- get terrain "name" ;;
  reject missing "string" name saying "Terrain name is required and must be a string" ;;
  len <- get name "length" ;;
  reject gt_num len (of_Z 100) saying "Terrain name must be less than 100 characters" ;;
  category <- get terrain "category" ;;
  reject missing "string" category saying "Terrain category is required" ;;
  color <- get terrain "color" ;;
  reject missing "string" color saying "Terrain color is required" ;;
  reject negb (test_value colorPattern color)
    saying "Terrain color must be a valid hex color (e.g., #8B4513)" ;;
  brushThickness <- get terrain "brushThickness" ;;
  reject negb (is_undefined brushThickness)
         && (not_a "number" brushThickness
             || lt_num brushThickness (of_Z 1) || gt_num brushThickness (of_Z 100))
    saying "Brush thickness must be between 1 and 100 pixels" ;;
  Ok valid.

Definition validateStructure (structure : value) : result ValidationResult :=
  reject missing "object" structure saying "Invalid structure data" ;;
  id <- get structure "id" ;;
  reject missing "string" id saying "Structure ID is required and must be a string" ;;
  name <- get structure "name" ;;
  reject missing "string" name saying "Structure name is required and must be a string" ;;
  len <- get name "length" ;;
  reject gt_num len (of_Z 100) saying "Structure name must be less than 100 characters" ;;
  category <- get structure "category" ;;
  reject missing "string" category saying "Structure category is required" ;;
  size <- get structure "size" ;;
  reject missing "object" size saying "Structure size is required" ;;
  width <- get size "width" ;;
  reject not_a "number" width || lt_num width (Fin (1 # 10)) || gt_num width (of_Z 100)
    saying "Structure width must be between 0.1 and 100 meters" ;;
  height <- get size "height" ;;
  reject not_a "number" height || lt_num height (Fin (1 # 10)) || gt_num height (of_Z 100)
    saying "Structure height must be between 0.1 and 100 meters" ;;
  color <- get structure "color" ;;
  reject missing "string" color saying "Structure color is required" ;;
  reject negb (test_value colorPattern color)
    saying "Structure color must be a valid hex color (e.g., #696969)" ;;
  Ok valid.

(** [arr.join(sep)] on strings. *)
Fixpoint join (sep : string) (l : list string) : string :=
  match l with
  | [] => EmptyString
  | [s] => s
  | s :: rest => s ++ sep ++ join sep rest
  end.

Definition validTypes : list string := ["plant"; "terrain"; "rectangle"; "circle"].

(** [Math.abs(v) > bound] behind the number guard. *)
Definition abs_gt (v : value) (bound : number) : bool :=
  match v with VNum m => num_gt (Math_abs m) bound | _ => false end.

(** The check shared by [width], [height] and [radius]. *)
Definition bad_dimension (v : value) : bool :=
  negb (is_undefined v)
  && (not_a "number" v || lt_num v (of_Z 0) || negb (is_finite v)).

Definition validateDrawingElement (element : value) : result ValidationResult :=
  reject missing "object" element saying "Invalid element data" ;;
  id <- get element "id" ;;
  reject missing "number" id saying "Element ID is required and must be a number" ;;
  type <- get element "type" ;;
  reject missing "string" type saying "Element type is required" ;;
  reject negb (includes validTypes type)
    saying ("Element type must be one of: " ++ join ", " validTypes) ;;
  x <- get element "x" ;;
  reject not_a "number" x || negb (is_finite x)
    saying "Element x position must be a valid number" ;;
  y <- get element "y" ;;
  reject not_a "number" y || negb (is_finite y)
    saying "Element y position must be a valid number" ;;
  reject abs_gt x (of_Z 100000) || abs_gt y (of_Z 100000)
    saying "Element coordinates are out of reasonable bounds" ;;
  plant <- get element "plant" ;;
  plantValidation <-
    (if is_string type "plant" && truthy plant then validatePlant plant else Ok valid) ;;
  if negb (isValid plantValidation) then Ok plantValidation else
  terrain <- get element "terrain" ;;
  terrainValidation <-
    (if is_string type "terrain" && truthy terrain then validateTerrain terrain
     else Ok valid) ;;
  if negb (isValid terrainValidation) then Ok terrainValidation else
  width <- get element "width" ;;
  height <- get element "height" ;;
  radius <- get element "radius" ;;
  let shaped :=
    is_string type "rectangle" || is_string type "circle" || is_string type "terrain" in
  reject shaped && bad_dimension width
    saying "Element width must be a valid positive number" ;;
  reject shaped && bad_dimension height
    saying "Element height must be a valid positive number" ;;
  reject shaped && bad_dimension radius
    saying "Element radius must be a valid positive number" ;;
  rotation <- get element "rotation" ;;
  reject negb (is_undefined rotation)
         && (not_a "number" rotation || negb (is_finite rotation))
    saying "Element rotation must be a valid number" ;;
  Ok valid.

(** ** Platform services

    What the program obtains from its host: the clock, number and date
    formatting, the characters of a JSON text, and whether the storage
    takes one more write.  A [text] is a string in storage or in a file: it
    is represented by the JSON value it denotes, or by its characters when
    it denotes none. *)

Inductive text : Type :=
| JsonText (v : value)
| RawText (s : string).

Definition items := string -> option text.

Record Platform : Type := {
  Date_now : number;                          (* Date.now() *)
  Date_toISOString : string;                  (* new Date().toISOString() *)
  today_ptBR : string;                        (* new Date().toLocaleDateString('pt-BR') *)
  toLocaleDateString : value -> string;       (* new Date(v).toLocaleDateString('pt-BR') *)
  toLocaleTimeString : value -> string;       (* new Date(v).toLocaleTimeString('pt-BR', ...) *)
  Number_toString : number -> string;         (* a number inside a template literal *)
  JSON_code_units : value -> list Z;          (* the code units of JSON.stringify(v) *)
  storage_accepts : items -> string -> text -> bool   (* no QuotaExceededError *)
}.

Record Size : Type := { sz_width : number; sz_height : number }.

(** An optional property of an options object.  The property can be
    absent, or present with the value [undefined] or [null], or present
    with a value of its declared type; a spread copies a present property
    whatever its value. *)
Inductive optional (A : Type) : Type :=
| Absent
| Undefined
| Null
| Given (a : A).
Arguments Absent {A}.
Arguments Undefined {A}.
Arguments Null {A}.
Arguments Given {A} a.

(** [CanvasValidationOptions]: every field is optional. *)
Record CanvasValidationOptions : Type := {
  maxElements : optional number;
  maxCanvasSize : optional Size;
  minCanvasSize : optional Size;
  allowedFileTypes : optional (list string);
  maxFileSize : optional number
}.

Definition DEFAULT_VALIDATION_OPTIONS : CanvasValidationOptions := {|
  maxElements := Given (of_Z 1000);
  maxCanvasSize := Given {| sz_width := of_Z 200; sz_height := of_Z 200 |};
  minCanvasSize := Given {| sz_width := of_Z 1; sz_height := of_Z 1 |};
  allowedFileTypes := Given ["image/png"; "image/jpeg"; "image/webp"];
  maxFileSize := Given (of_Z (10 * 1024 * 1024))
|}.

(** The default argument [options = {}]. *)
Definition no_options : CanvasValidationOptions := {|
  maxElements := Absent; maxCanvasSize := Absent; minCanvasSize := Absent;
  allowedFileTypes := Absent; maxFileSize := Absent
|}.

(** One property of [{ ...a, ...b }]: a property present in [b] wins, also
    when its value is [undefined] or [null]. *)
Definition over {A} (a b : optional A) : optional A :=
  match b with
  | Absent => a
  | _ => b
  end.

(** [{ ...a, ...b }] *)
Definition spread (a b : CanvasValidationOptions) : CanvasValidationOptions := {|
  maxElements := over (maxElements a) (maxElements b);
  maxCanvasSize := over (maxCanvasSize a) (maxCanvasSize b);
  minCanvasSize := over (minCanvasSize a) (minCanvasSize b);
  allowedFileTypes := over (allowedFileTypes a) (allowedFileTypes b);
  maxFileSize := over (maxFileSize a) (maxFileSize b)
|}.

(** [o!.field]: the assertion [!] does nothing at run time, and reading a
    field of [undefined] or [null] throws. *)
Definition non_null {A} (o : optional A) : result A :=
  match o with
  | Given a => Ok a
  | _ => Throw TypeError
  end.

(** The number an optional number is compared as: [undefined] converts to
    NaN, [null] to 0. *)
Definition to_number (o : optional number) : number :=
  match o with
  | Given m => m
  | Null => of_Z 0
  | _ => NaN
  end.

Section Validator.

Variable env : Platform.

Definition between_error (what : string) (lo hi : number) : string :=
  "Canvas " ++ what ++ " must be between " ++ Number_toString env lo ++ " and "
  ++ Number_toString env hi ++ " meters".

(** The two range tests read [opts.minCanvasSize!] first and then, in the
    second operand or in the message, [opts.maxCanvasSize!]: whichever
    way the first comparison goes, both are read before the test returns. *)
Definition validateCanvasSize (size : value) (options : CanvasValidationOptions)
  : result ValidationResult :=
  let opts := spread DEFAULT_VALIDATION_OPTIONS options in
  reject missing "object" size saying "Invalid canvas size data" ;;
  width <- get size "width" ;;
  reject not_a "number" width || negb (is_finite width)
    saying "Canvas width must be a valid number" ;;
  height <- get size "height" ;;
  reject not_a "number" height || negb (is_finite height)
    saying "Canvas height must be a valid number" ;;
  lo <- non_null (minCanvasSize opts) ;;
  hi <- non_null (maxCanvasSize opts) ;;
  reject lt_num width (sz_width lo) || gt_num width (sz_width hi)
    saying between_error "width" (sz_width lo) (sz_width hi) ;;
  reject lt_num height (sz_height lo) || gt_num height (sz_height hi)
    saying between_error "height" (sz_height lo) (sz_height hi) ;;
  Ok valid.

(** The text of [error] inside a template literal. *)
Definition error_text (r : ValidationResult) : string :=
  match error r with Some s => s | None => "undefined" end.

(** The loop [for (let i = 0; i < elements.length; i++)], from index [i]. *)
Fixpoint validate_each (i : nat) (elements : list value) : result ValidationResult :=
  match elements with
  | [] => Ok valid
  | element :: rest =>
      elementValidation <- validateDrawingElement element ;;
      reject negb (isValid elementValidation)
        saying ("Element at index " ++ Number_toString env (of_nat i) ++ ": "
                ++ error_text elementValidation) ;;
      validate_each (S i) rest
  end.

(** [opts.maxElements] inside a template literal. *)
Definition limit_text (o : optional number) : string :=
  match o with
  | Given m => Number_toString env m
  | Null => "null"
  | _ => "undefined"
  end.

Definition validateElementsArray (elements : value) (options : CanvasValidationOptions)
  : result ValidationResult :=
  let opts := spread DEFAULT_VALIDATION_OPTIONS options in
  match elements with
  | VArr l =>
      reject num_gt (of_nat (List.length l)) (to_number (maxElements opts))
        saying ("Maximum " ++ limit_text (maxElements opts) ++ " elements allowed") ;;
      validate_each 0 l
  | _ => Ok (invalid "Elements must be an array")
  end.

Definition validateCanvasState (elements canvasSize : value)
  (options : CanvasValidationOptions) : result ValidationResult :=
  sizeValidation <- validateCanvasSize canvasSize options ;;
  if negb (isValid sizeValidation) then Ok sizeValidation else
  elementsValidation <- validateElementsArray elements options ;;
  if negb (isValid elementsValidation) then Ok elementsValidation else
  Ok valid.

End Validator.

(** ** Domain types

    Modelled from the spec: the declarations of [@/types/canvasTypes]
    (Plant, Terrain, Structure, DrawingElement) are not among the sources;
    the records follow section 3 of the specification and the fields the
    codec reads ([ExportElement] mirrors them). *)

Record Plant : Type := {
  plant_id : string;
  plant_name : string;
  plant_spacing : string;
  plant_category : string;
  plant_color : string
}.

Record Terrain : Type := {
  terrain_id : string;
  terrain_name : string;
  terrain_category : string;
  terrain_color : string;
  terrain_brushThickness : option number
}.

Record Structure : Type := {
  structure_id : string;
  structure_name : string;
  structure_category : string;
  structure_color : string;
  structure_size : Size
}.

Inductive ElementType : Type :=
| TPlant | TTerrain | TStructure | TRectangle | TCircle.

Record DrawingElement : Type := {
  el_id : number;
  el_type : ElementType;
  el_x : number;
  el_y : number;
  el_width : option number;
  el_height : option number;
  el_radius : option number;
  el_rotation : option number;
  el_plant : option Plant;
  el_terrain : option Terrain;
  el_structure : option Structure;
  el_realWorldWidth : option number;
  el_realWorldHeight : option number;
  el_brushType : option string;
  el_texture : option string;
  el_pathPoints : option (list (number * number));
  el_selectedBrushMode : option string;
  el_brushThickness : option number;
  el_selected : option bool
}.

Definition type_name (t : ElementType) : string :=
  match t with
  | TPlant => "plant"
  | TTerrain => "terrain"
  | TStructure => "structure"
  | TRectangle => "rectangle"
  | TCircle => "circle"
  end.

(** The run-time objects of typed data: an absent optional field is an
    absent property. *)
Fixpoint present (l : list (string * option value)) : object :=
  match l with
  | [] => []
  | (k, Some v) :: rest => (k, v) :: present rest
  | (_, None) :: rest => present rest
  end.

Definition js_of_size (s : Size) : value :=
  VObj [("width", VNum (sz_width s)); ("height", VNum (sz_height s))].

Definition js_of_plant (p : Plant) : value :=
  VObj [("id", VStr (plant_id p)); ("name", VStr (plant_name p));
        ("spacing", VStr (plant_spacing p)); ("category", VStr (plant_category p));
        ("color", VStr (plant_color p))].

Definition js_of_terrain (t : Terrain) : value :=
  VObj (present
    [("id", Some (VStr (terrain_id t))); ("name", Some (VStr (terrain_name t)));
     ("category", Some (VStr (terrain_category t)));
     ("color", Some (VStr (terrain_color t)));
     ("brushThickness", option_map VNum (terrain_brushThickness t))]).

Definition js_of_structure (s : Structure) : value :=
  VObj [("id", VStr (structure_id s)); ("name", VStr (structure_name s));
        ("category", VStr (structure_category s));
        ("color", VStr (structure_color s));
        ("size", js_of_size (structure_size s))].

Definition js_of_point (p : number * number) : value :=
  VObj [("x", VNum (fst p)); ("y", VNum (snd p))].

Definition element_fields (e : DrawingElement) : list (string * option value) :=
  [("id", Some (VNum (el_id e)));
   ("type", Some (VStr (type_name (el_type e))));
   ("x", Some (VNum (el_x e)));
   ("y", Some (VNum (el_y e)));
   ("width", option_map VNum (el_width e));
   ("height", option_map VNum (el_height e));
   ("radius", option_map VNum (el_radius e));
   ("rotation", option_map VNum (el_rotation e));
   ("plant", option_map js_of_plant (el_plant e));
   ("terrain", option_map js_of_terrain (el_terrain e));
   ("structure", option_map js_of_structure (el_structure e));
   ("realWorldWidth", option_map VNum (el_realWorldWidth e));
   ("realWorldHeight", option_map VNum (el_realWorldHeight e));
   ("brushType", option_map VStr (el_brushType e));
   ("texture", option_map VStr (el_texture e));
   ("pathPoints",
    option_map (fun ps => VArr (map js_of_point ps)) (el_pathPoints e));
   ("selectedBrushMode", option_map VStr (el_selectedBrushMode e));
   ("brushThickness", option_map VNum (el_brushThickness e));
   ("selected", option_map VBool (el_selected e))].

Definition js_of_element (e : DrawingElement) : value :=
  VObj (present (element_fields e)).

(** A typed optional field read as an expression: its value or
    [undefined]. *)
Definition opt {A} (f : A -> value) (o : option A) : value :=
  match o with Some a => f a | None => VUndefined end.

(** ** JSON

    [jsonify v] is the value denoted by the text [JSON.stringify(v)]: a
    property whose value is [undefined] is dropped, [undefined] inside an
    array and a number that is not finite become [null]. *)

Fixpoint jsonify (v : value) : value :=
  match v with
  | VUndefined => VNull
  | VNum n => if isFinite n then VNum n else VNull
  | VArr l => VArr (map jsonify l)
  | VObj o =>
      VObj ((fix props (o : list (string * value)) : list (string * value) :=
               match o with
               | [] => []
               | (k, x) :: rest =>
                   if is_undefined x then props rest else (k, jsonify x) :: props rest
               end) o)
  | _ => v
  end.

Fixpoint jsonify_props (o : object) : object :=
  match o with
  | [] => []
  | (k, x) :: rest =>
      if is_undefined x then jsonify_props rest else (k, jsonify x) :: jsonify_props rest
  end.

(** [JSON.stringify(v)] used as a string: of [undefined] it is the word
    itself, which is no JSON text. *)
Definition JSON_stringify (v : value) : text :=
  match v with
  | VUndefined => RawText "undefined"
  | _ => JsonText (jsonify v)
  end.

Definition JSON_parse (t : text) : result value :=
  match t with
  | JsonText v => Ok v
  | RawText _ => Throw SyntaxError
  end.

(** ** Export/import codec (src/frontend/src/utils/exportUtils.ts) *)

Definition type_eqb (a b : ElementType) : bool :=
  match a, b with
  | TPlant, TPlant | TTerrain, TTerrain | TStructure, TStructure
  | TRectangle, TRectangle | TCircle, TCircle => true
  | _, _ => false
  end.

(** A character given by its code unit. *)
Definition code (n : nat) : string := String (ascii_of_nat n) EmptyString.

(** [a || b] on an optional string. *)
Definition or_default (a : option string) (b : string) : string :=
  match a with
  | Some s => if s =? EmptyString then b else s
  | None => b
  end.

(** The object literal of [elements.map(el => ({ ... }))]: every property
    is written, absent fields as [undefined]. *)
Definition exportElement (el : DrawingElement) : value :=
  VObj [("id", VNum (el_id el));
        ("type", VStr (type_name (el_type el)));
        ("x", VNum (el_x el));
        ("y", VNum (el_y el));
        ("width", opt VNum (el_width el));
        ("height", opt VNum (el_height el));
        ("radius", opt VNum (el_radius el));
        ("rotation", opt VNum (el_rotation el));
        ("plant", opt js_of_plant (el_plant el));
        ("terrain", opt js_of_terrain (el_terrain el));
        ("structure", opt js_of_structure (el_structure el));
        ("realWorldWidth", opt VNum (el_realWorldWidth el));
        ("realWorldHeight", opt VNum (el_realWorldHeight el));
        ("brushType", opt VStr (el_brushType el));
        ("texture", opt VStr (el_texture el));
        ("pathPoints", opt (fun ps => VArr (map js_of_point ps)) (el_pathPoints el));
        ("selectedBrushMode", opt VStr (el_selectedBrushMode el));
        ("brushThickness", opt VNum (el_brushThickness el))].

Section Codec.

Variable env : Platform.

Definition createExportData (elements : list DrawingElement) (canvasSize : Size)
  (projectName : option string) : value :=
  let timestamp := Date_now env in
  let categories :=
    VObj [("plants",
           VNum (of_nat (List.length
             (filter (fun el => type_eqb (el_type el) TPlant) elements))));
          ("terrain",
           VNum (of_nat (List.length
             (filter (fun el => type_eqb (el_type el) TTerrain) elements))));
          ("structures",
           VNum (of_nat (List.length
             (filter (fun el => type_eqb (el_type el) TStructure) elements))));
          ("shapes",
           VNum (of_nat (List.length
             (filter (fun el => type_eqb (el_type el) TRectangle
                                || type_eqb (el_type el) TCircle) elements))))] in
  let exportElements := map exportElement elements in
  VObj [("version", VStr "1.0");
        ("timestamp", VNum timestamp);
        ("projectInfo",
         VObj [("name",
                VStr (or_default projectName
                        ("Projeto Agroecol" ++ code 243 ++ "gico " ++ today_ptBR env)));
               ("description",
                VStr ("Projeto com "
                      ++ Number_toString env (of_nat (List.length elements))
                      ++ " elementos em " ++ code 225 ++ "rea de "
                      ++ Number_toString env (sz_width canvasSize) ++ "x"
                      ++ Number_toString env (sz_height canvasSize) ++ " metros"));
               ("canvasSize", js_of_size canvasSize);
               ("totalElements", VNum (of_nat (List.length elements)));
               ("categories", categories)]);
        ("elements", VArr exportElements);
        ("metadata",
         VObj [("exportDate", VStr (Date_toISOString env));
               ("exportedBy", VStr "Agroecologia Desenhada v1.0");
               ("coordinates",
                VObj [("system", VStr "meters");
                      ("origin", VObj [("x", VNum (of_Z 0)); ("y", VNum (of_Z 0))])])])].

End Codec.

(** [for (const field of fields) if (!(field in v)) return false] *)
Fixpoint has_all (fields : list string) (v : value) : result bool :=
  match fields with
  | [] => Ok true
  | field :: rest =>
      there <- has_property field v ;;
      if negb there then Ok false else has_all rest v
  end.

Definition exportTypes : list string :=
  ["plant"; "terrain"; "structure"; "rectangle"; "circle"].

Definition validateExportElement (element : value) : result bool :=
  if missing "object" element then Ok false else
  required <- has_all ["id"; "type"; "x"; "y"] element ;;
  if negb required then Ok false else
  type <- get element "type" ;;
  if negb (includes exportTypes type) then Ok false else
  x <- get element "x" ;;
  y <- get element "y" ;;
  if not_a "number" x || not_a "number" y then Ok false else
  radius <- get element "radius" ;;
  if is_string type "circle" && negb (is_undefined radius)
     && (not_a "number" radius || lt_num radius (of_Z 0))
  then Ok false else
  width <- get element "width" ;;
  height <- get element "height" ;;
  if (is_string type "rectangle" || is_string type "terrain")
     && (negb (is_undefined width) || negb (is_undefined height))
     && (not_a "number" width || lt_num width (of_Z 0)
         || not_a "number" height || lt_num height (of_Z 0))
  then Ok false else
  Ok true.

(** [for (const element of data.elements) if (!validateExportElement(element)) return false] *)
Fixpoint all_export_elements (elements : list value) : result bool :=
  match elements with
  | [] => Ok true
  | element :: rest =>
      ok <- validateExportElement element ;;
      if negb ok then Ok false else all_export_elements rest
  end.

Definition validateExportData (data : value) : result bool :=
  if missing "object" data then Ok false else
  required <- has_all ["version"; "timestamp"; "projectInfo"; "elements"; "metadata"] data ;;
  if negb required then Ok false else
  projectInfo <- get data "projectInfo" ;;
  canvasSize <- get projectInfo "canvasSize" ;;
  if missing "object" canvasSize then Ok false else
  elements <- get data "elements" ;;
  match elements with
  | VArr l => all_export_elements l
  | _ => Ok false
  end.

(** [null] is [None].  Whatever is thrown inside the [try] is caught. *)
Definition importProjectFromJSON (jsonData : text) : option value :=
  match (data <- JSON_parse jsonData ;;
         ok <- validateExportData data ;;
         if negb ok then Ok None else Ok (Some data)) with
  | Ok r => r
  | Throw _ => None
  end.

(** [/(\d+(?:\.\d+)?)x(\d+(?:\.\d+)?)(cm|m)/], not anchored. *)
Definition statisticsPattern : regex :=
  Seq (Grp 1 re_decimal) (Seq (Chr "x") (Seq (Grp 2 re_decimal) (Grp 3 re_unit))).

Definition digit_value (a : ascii) : Z := Z.of_nat (nat_of_ascii a) - 48.

Fixpoint digits_value (acc : Z) (s : list ascii) : Z :=
  match s with
  | [] => acc
  | a :: rest => digits_value (10 * acc + digit_value a) rest
  end.

Fixpoint take_digits (s : list ascii) : list ascii * list ascii :=
  match s with
  | a :: rest =>
      if digit a then let (ds, tl) := take_digits rest in (a :: ds, tl) else ([], s)
  | [] => ([], [])
  end.

(** [parseFloat] on what the groups of the pattern capture: digits with an
    optional fraction.  Without a leading digit the result is NaN. *)
Definition parseFloat (s : list ascii) : number :=
  let (int_part, rest) := take_digits s in
  match int_part with
  | [] => NaN
  | _ =>
      let frac :=
        match rest with
        | dot :: after =>
            if Ascii.eqb dot "." then fst (take_digits after) else []
        | [] => []
        end in
      Fin (inject_Z (digits_value 0 int_part)
           + inject_Z (digits_value 0 frac) / inject_Z (10 ^ Z.of_nat (List.length frac)))
  end.

Record Statistics : Type := {
  total : nat;
  plants : nat;
  terrain : nat;
  structures : nat;
  shapes : nat;
  selected : nat;
  totalArea : number;
  averageSpacing : number
}.

Definition number_truthy (o : option number) : bool :=
  match o with Some n => num_truthy n | None => false end.

(** The body of [if (element.plant?.spacing) { ... }]: what one element adds
    to [stats.averageSpacing]. *)
Definition spacing_term (element : DrawingElement) : option number :=
  match el_plant element with
  | Some plant =>
      if plant_spacing plant =? EmptyString then None else
      match search statisticsPattern (list_ascii_of_string (plant_spacing plant)) with
      | Some spacingMatch =>
          match group 1 spacingMatch, group 2 spacingMatch with
          | Some g1, Some g2 =>
              let width := parseFloat g1 in
              let height := parseFloat g2 in
              let unit :=
                match group 3 spacingMatch with
                | Some g3 => if string_of_list_ascii g3 =? EmptyString then "m"
                             else string_of_list_ascii g3
                | None => "m"
                end in
              let metersWidth :=
                if unit =? "cm" then num_div width (of_Z 100) else width in
              let metersHeight :=
                if unit =? "cm" then num_div height (of_Z 100) else height in
              Some (num_div (num_add metersWidth metersHeight) (of_Z 2))
          | _, _ => None
          end
      | None => None
      end
  | None => None
  end.

(** One turn of [for (const element of elements)]. *)
Definition statistics_step (stats : Statistics) (element : DrawingElement) : Statistics :=
  let t := el_type element in
  {| total := total stats;
     plants := if type_eqb t TPlant then S (plants stats) else plants stats;
     terrain := if type_eqb t TTerrain then S (terrain stats) else terrain stats;
     structures := if type_eqb t TStructure then S (structures stats) else structures stats;
     shapes := if type_eqb t TRectangle || type_eqb t TCircle
               then S (shapes stats) else shapes stats;
     selected := match el_selected element with
                 | Some true => S (selected stats)
                 | _ => selected stats
                 end;
     totalArea :=
       if type_eqb t TTerrain
          && number_truthy (el_realWorldWidth element)
          && number_truthy (el_realWorldHeight element)
       then match el_realWorldWidth element, el_realWorldHeight element with
            | Some w, Some h => num_add (totalArea stats) (num_mul w h)
            | _, _ => totalArea stats
            end
       else totalArea stats;
     averageSpacing :=
       match spacing_term element with
       | Some term => num_add (averageSpacing stats) term
       | None => averageSpacing stats
       end |}.

Definition calculateProjectStatistics (elements : list DrawingElement) : Statistics :=
  let stats :=
    fold_left statistics_step elements
      {| total := List.length elements; plants := 0; terrain := 0; structures := 0;
         shapes := 0; selected := 0; totalArea := of_Z 0; averageSpacing := of_Z 0 |} in
  {| total := total stats;
     plants := plants stats;
     terrain := terrain stats;
     structures := structures stats;
     shapes := shapes stats;
     selected := selected stats;
     totalArea := totalArea stats;
     averageSpacing :=
       if Nat.ltb 0 (plants stats)
       then num_div (averageSpacing stats) (of_nat (plants stats))
       else averageSpacing stats |}.

(** ** Persistence store (src/frontend/src/utils/dataPersistence.ts)

    A call runs against the contents of [localStorage] and the object its
    caller passed by reference; both survive a [throw]. *)

Record World : Type := {
  localStorage : items;
  argument : value
}.

Definition M (A : Type) : Type := World -> result A * World.

Definition ret {A} (a : A) : M A := fun w => (Ok a, w).

Definition bind {A B} (m : M A) (f : A -> M B) : M B :=
  fun w =>
    match m w with
    | (Ok a, w') => f a w'
    | (Throw e, w') => (Throw e, w')
    end.

Definition lift {A} (r : result A) : M A := fun w => (r, w).

(** [try { m } catch (error) { h }] *)
Definition try_catch {A} (m : M A) (h : M A) : M A :=
  fun w =>
    match m w with
    | (Ok a, w') => (Ok a, w')
    | (Throw _, w') => h w'
    end.

Declare Scope store_scope.
Delimit Scope store_scope with store.
Notation "x <- m ;; k" := (bind m (fun x => k))
  (at level 61, m at next level, right associativity) : store_scope.
Notation "m ;; k" := (bind m (fun _ => k))
  (at level 61, right associativity) : store_scope.

Module STORAGE_KEYS.
Definition CURRENT_PROJECT : string := "agroecologia-current-project".
Definition PROJECT_HISTORY : string := "agroecolia-project-history".
Definition USER_PREFERENCES : string := "agroecolia-user-preferences".
Definition LAST_SAVE : string := "agroecologia-last-save".
Definition APP_VERSION : string := "agroecolia-app-version".
End STORAGE_KEYS.

Definition getItem (key : string) : M (option text) :=
  fun w => (Ok (localStorage w key), w).

Definition write (key : string) (t : text) (s : items) : items :=
  fun k => if k =? key then Some t else s k.

(** The project object the caller passed. *)
Definition the_project : M value := fun w => (Ok (argument w), w).

Definition update_project (p : value) : M unit :=
  fun w => (Ok tt, {| localStorage := localStorage w; argument := p |}).

(** The object [target] after [target.k = v].  Strict code: the assignment
    throws on [undefined], [null] and primitives.  A named property given
    to an array stays outside its elements and its JSON text. *)
Definition put (target : value) (k : string) (v : value) : result value :=
  match target with
  | VObj o => Ok (VObj (assign k v o))
  | VArr l => Ok (VArr l)
  | _ => Throw TypeError
  end.

(** A non-empty string is truthy. *)
Definition text_truthy (t : option text) : bool :=
  match t with
  | Some (JsonText _) => true
  | Some (RawText s) => negb (s =? EmptyString)
  | None => false
  end.

(** [n.toString()] of an integer time stamp is the JSON text of [n]. *)
Definition number_text (n : number) : text := JsonText (VNum n).

Definition to_int32 (z : Z) : Z := ((z + 2 ^ 31) mod 2 ^ 32 - 2 ^ 31)%Z.

(** One turn of the hash loop:
    [hash = ((hash << 5) - hash) + char; hash = hash & hash]. *)
Definition hash_step (hash char : Z) : Z :=
  to_int32 (to_int32 (Z.shiftl hash 5) - hash + char)%Z.

Definition base36_digit (d : Z) : ascii :=
  if (d <? 10)%Z then ascii_of_nat (Z.to_nat (48 + d)) else ascii_of_nat (Z.to_nat (87 + d)).

Fixpoint to_base36 (fuel : nat) (z : Z) (acc : string) : string :=
  match fuel with
  | O => acc
  | S fuel' =>
      let acc' := String (base36_digit (z mod 36)%Z) acc in
      if (z / 36 =? 0)%Z then acc' else to_base36 fuel' (z / 36)%Z acc'
  end.

(** [n.toString(36)] for [0 <= n <= 2^31]: at most seven digits. *)
Definition toString36 (z : Z) : string := to_base36 7 z EmptyString.

Definition validateProjectData (project : value) : result bool :=
  (if missing "object" project then Ok false else
   required <- has_all ["version"; "timestamp"; "canvasSize"; "elements"; "selectedTool"]
                 project ;;
   if negb required then Ok false else
   canvasSize <- get project "canvasSize" ;;
   if missing "object" canvasSize then Ok false else
   width <- get canvasSize "width" ;;
   height <- get canvasSize "height" ;;
   if not_a "number" width || not_a "number" height then Ok false else
   elements <- get project "elements" ;;
   if negb (Array_isArray elements) then Ok false else
   timestamp <- get project "timestamp" ;;
   if not_a "number" timestamp || le_num timestamp (of_Z 0) then Ok false else
   Ok true)%js.

Section Persistence.

Variable env : Platform.

Local Open Scope store_scope.

(** [localStorage.setItem(key, t)] *)
Definition setItem (key : string) (t : text) : M unit :=
  fun w =>
    if storage_accepts env (localStorage w) key t
    then (Ok tt, {| localStorage := write key t (localStorage w);
                    argument := argument w |})
    else (Throw QuotaExceededError, w).

Definition generateProjectId (project : value) : result string :=
  (timestamp <- get project "timestamp" ;;
   canvasSize <- get project "canvasSize" ;;
   elements <- get project "elements" ;;
   elementsCount <- get elements "length" ;;
   let dataString :=
     JSON_code_units env
       (VObj [("timestamp", timestamp); ("canvasSize", canvasSize);
              ("elementsCount", elementsCount)]) in
   let hash := fold_left hash_step dataString 0%Z in
   Ok (toString36 (Z.abs hash)))%js.

Definition generateProjectName (project : value) : result string :=
  (timestamp <- get project "timestamp" ;;
   let dateStr := toLocaleDateString env timestamp in
   let timeStr := toLocaleTimeString env timestamp in
   Ok ("Projeto " ++ dateStr ++ " " ++ timeStr))%js.

Definition getProjectHistory : M value :=
  try_catch
    (historyJson <- getItem STORAGE_KEYS.PROJECT_HISTORY ;;
     match historyJson with
     | Some t => if text_truthy historyJson then lift (JSON_parse t) else ret (VArr [])
     | None => ret (VArr [])
     end)
    (ret (VArr [])).

(** [history.unshift(entry); if (history.length > 50) history.splice(50)]
    on the parsed history; a value without [unshift] throws. *)
Definition unshift_capped (entry history : value) : result value :=
  match history with
  | VArr l =>
      let l' := entry :: l in
      Ok (VArr (if Nat.ltb 50 (List.length l') then firstn 50 l' else l'))
  | _ => Throw TypeError
  end.

(** The call in the source is [generateProjectId()], without an argument:
    the parameter [project] of [generateProjectId] is [undefined]. *)
Definition addToProjectHistory (project : value) : M unit :=
  try_catch
    (history <- getProjectHistory ;;
     id <- lift (generateProjectId VUndefined) ;;
     name <- lift (generateProjectName project) ;;
     timestamp <- lift (get project "timestamp") ;;
     lastModified <- lift (get project "lastModified") ;;
     canvasSize <- lift (get project "canvasSize") ;;
     elements <- lift (get project "elements") ;;
     elementsCount <- lift (get elements "length") ;;
     metadata <- lift (get project "metadata") ;;
     tags <- lift (get metadata "tags") ;;
     let historyEntry :=
       VObj [("id", VStr id); ("name", VStr name); ("timestamp", timestamp);
             ("lastModified", lastModified); ("canvasSize", canvasSize);
             ("elementsCount", elementsCount); ("tags", tags)] in
     history' <- lift (unshift_capped historyEntry history) ;;
     setItem STORAGE_KEYS.PROJECT_HISTORY (JSON_stringify history'))
    (ret tt).

Definition saveCurrentProject : M bool :=
  try_catch
    (project <- the_project ;;
     ok <- lift (validateProjectData project) ;;
     if negb ok then ret false else
     (* project.lastModified = new Date().toISOString() *)
     project <- lift (put project "lastModified" (VStr (Date_toISOString env))) ;;
     update_project project ;;
     (* project.metadata.elementsCount = project.elements.length *)
     metadata <- lift (get project "metadata") ;;
     elements <- lift (get project "elements") ;;
     length <- lift (get elements "length") ;;
     metadata <- lift (put metadata "elementsCount" length) ;;
     project <- lift (put project "metadata" metadata) ;;
     update_project project ;;
     setItem STORAGE_KEYS.CURRENT_PROJECT (JSON_stringify project) ;;
     setItem STORAGE_KEYS.LAST_SAVE (number_text (Date_now env)) ;;
     addToProjectHistory project ;;
     ret true)
    (ret false).

(** [history.filter(entry => entry.id !== projectId)] *)
Fixpoint filter_other_ids (projectId : string) (history : list value)
  : result (list value) :=
  match history with
  | [] => Ok []
  | entry :: rest =>
      (id <- get entry "id" ;;
       kept <- filter_other_ids projectId rest ;;
       Ok (if negb (is_string id projectId) then entry :: kept else kept))%js
  end.

Definition deleteProjectFromHistory (projectId : string) : M bool :=
  try_catch
    (history <- getProjectHistory ;;
     match history with
     | VArr l =>
         filteredHistory <- lift (filter_other_ids projectId l) ;;
         if Nat.eqb (List.length filteredHistory) (List.length l) then ret false else
         setItem STORAGE_KEYS.PROJECT_HISTORY (JSON_stringify (VArr filteredHistory)) ;;
         ret true
     | _ => lift (Throw TypeError)
     end)
    (ret false).

Definition getCurrentProject : M (option value) :=
  try_catch
    (projectJson <- getItem STORAGE_KEYS.CURRENT_PROJECT ;;
     match projectJson with
     | Some t =>
         if negb (text_truthy projectJson) then ret None else
         project <- lift (JSON_parse t) ;;
         ok <- lift (validateProjectData project) ;;
         if negb ok then ret None else ret (Some project)
     | None => ret None
     end)
    (ret None).

End Persistence.

(** ** Notions used to state the properties *)

(** The value at the end of a path of property reads. *)
Fixpoint field (v : value) (path : list string) : result value :=
  match path with
  | [] => Ok v
  | k :: rest => (x <- get v k ;; field x rest)%js
  end.

(** The storage takes every write. *)
Definition storage_available (env : Platform) : Prop :=
  forall s k t, storage_accepts env s k t = true.

(** The caller's project after a save that got past the metadata update. *)
Definition saved_project (env : Platform) (props meta : object) (es : list value)
  : object :=
  assign "metadata"
    (VObj (assign "elementsCount" (VNum (of_nat (List.length es))) meta))
    (assign "lastModified" (VStr (Date_toISOString env)) props).

(** A host for the concrete runs below: a fixed clock, integers printed in
    decimal, a storage without quota. *)
Definition sample_host : Platform := {|
  Date_now := of_Z 1700000000000;
  Date_toISOString := "2023-11-14T22:13:20.000Z";
  today_ptBR := "14/11/2023";
  toLocaleDateString := fun _ => "14/11/2023";
  toLocaleTimeString := fun _ => "19:13";
  Number_toString := fun n =>
    match n with
    | Fin q => DecimalString.NilZero.string_of_int (Z.to_int (Qnum q / Zpos (Qden q))%Z)
    | NaN => "NaN"
    | PInf => "Infinity"
    | NInf => "-Infinity"
    end;
  JSON_code_units := fun _ => [];
  storage_accepts := fun _ _ _ => true
|}.

Definition empty_storage : items := fun _ => None.

(** A project with [n] as time stamp, no element, and a stale count. *)
Definition sample_project (n : Z) : value :=
  VObj [("version", VStr "1.0");
        ("timestamp", VNum (of_Z n));
        ("lastModified", VStr "2023-01-01T00:00:00.000Z");
        ("canvasSize", VObj [("width", VNum (of_Z 50)); ("height", VNum (of_Z 30))]);
        ("elements", VArr []);
        ("selectedTool", VStr "select");
        ("metadata", VObj [("elementsCount", VNum (of_Z 7)); ("tags", VArr [])])].

(** Saving the projects of a list one after the other. *)
Fixpoint save_all (env : Platform) (projects : list value) (s : items)
  : list (result bool) * items :=
  match projects with
  | [] => ([], s)
  | p :: rest =>
      let (r, w) := saveCurrentProject env {| localStorage := s; argument := p |} in
      let (rs, s') := save_all env rest (localStorage w) in
      (r :: rs, s')
  end.

(** Induction on values, through the arrays and objects they nest. *)
Section value_induction.
  Variable P : value -> Prop.
  Hypothesis P_undefined : P VUndefined.
  Hypothesis P_null : P VNull.
  Hypothesis P_bool : forall b, P (VBool b).
  Hypothesis P_num : forall n, P (VNum n).
  Hypothesis P_str : forall s, P (VStr s).
  Hypothesis P_arr : forall l, Forall P l -> P (VArr l).
  Hypothesis P_obj : forall o, Forall (fun kv => P (snd kv)) o -> P (VObj o).

Fixpoint value_induction (v : value) : P v :=
  match v with
  | VUndefined => P_undefined
  | VNull => P_null
  | VBool b => P_bool b
  | VNum n => P_num n
  | VStr s => P_str s
  | VArr l =>
      P_arr l ((fix all (l : list value) : Forall P l :=
                  match l with
                  | [] => Forall_nil P
                  | x :: rest => Forall_cons x (value_induction x) (all rest)
                  end) l)
  | VObj o =>
      P_obj o ((fix all (o : list (string * value))
                  : Forall (fun kv => P (snd kv)) o :=
                  match o with
                  | [] => Forall_nil _
                  | kv :: rest =>
                      Forall_cons kv (value_induction (snd kv)) (all rest)
                  end) o)
  end.

End value_induction.

(** The values a JSON text denotes: no [undefined], no number that is not
    finite. *)
Fixpoint json_value (v : value) : bool :=
  match v with
  | VUndefined => false
  | VNum n => isFinite n
  | VArr l => forallb json_value l
  | VObj o => forallb (fun kv => json_value (snd kv)) o
  | _ => true
  end.

(** [entry.id === projectId] *)
Definition entry_has_id (projectId : string) (entry : value) : bool :=
  match get entry "id" with
  | Ok id => is_string id projectId
  | Throw _ => false
  end.

(** An entry of a stored history: an object read back from JSON. *)
Definition history_entry (entry : value) : Prop :=
  (exists o, entry = VObj o) /\ json_value entry = true.

Definition history_item (id : string) (n : Z) : value :=
  VObj [("id", VStr id); ("name", VStr "Projeto 14/11/2023 19:13");
        ("timestamp", VNum (of_Z n)); ("elementsCount", VNum (of_Z 0))].

(** A history in which two entries carry the same id. *)
Definition sample_history : list value :=
  [history_item "a" 3; history_item "a" 2; history_item "b" 1].

Definition storage_with_history (l : list value) : items :=
  write STORAGE_KEYS.PROJECT_HISTORY (JsonText (VArr l)) empty_storage.

(** Fifty-one distinct projects that pass the structural check. *)
Definition fifty_one_projects : list value :=
  map (fun n => sample_project (Z.of_nat n)) (seq 1 51).

(** No two properties of an object literal share a name. *)
Fixpoint unique_keys (o : object) : bool :=
  match o with
  | [] => true
  | (k, _) :: rest => negb (existsb (fun kv => fst kv =? k) rest) && unique_keys rest
  end.

(** A dimension that JSON keeps and the import accepts: finite and not
    negative. *)
Definition dimension_ok (n : number) : bool := isFinite n && negb (num_lt n (of_Z 0)).

(** The elements whose exported form passes the import: finite
    coordinates; for a circle a radius that is absent or a dimension; for a
    rectangle or a terrain a width and a height that are both absent or both
    dimensions. *)
Definition survives_import (e : DrawingElement) : bool :=
  isFinite (el_x e) && isFinite (el_y e)
  && match el_type e with
     | TCircle =>
         match el_radius e with
         | None => true
         | Some r => dimension_ok r
         end
     | TRectangle | TTerrain =>
         match el_width e, el_height e with
         | None, None => true
         | Some w, Some h => dimension_ok w && dimension_ok h
         | _, _ => false
         end
     | TPlant | TStructure => true
     end.

(** The direct tally of a list of elements: how many have a type in [p]. *)
Fixpoint tally (p : ElementType -> bool) (E : list DrawingElement) : nat :=
  match E with
  | [] => 0
  | e :: rest => (if p (el_type e) then 1 else 0) + tally p rest
  end.

Definition is_shape (t : ElementType) : bool :=
  match t with TRectangle | TCircle => true | _ => false end.

Definition sample_plant (spacing : string) : Plant := {|
  plant_id := "alface"; plant_name := "Alface"; plant_spacing := spacing;
  plant_category := "hortalicas"; plant_color := "#90EE90"
|}.

Definition sample_structure : Structure := {|
  structure_id := "galinheiro"; structure_name := "Galinheiro";
  structure_category := "animais"; structure_color := "#696969";
  structure_size := {| sz_width := of_Z 3; sz_height := of_Z 2 |}
|}.

(** An element at (10, 20) with the given id, type, dimensions and
    catalogue data, and nothing else. *)
Definition sample_element (id : Z) (t : ElementType) (w h r : option number)
  (p : option Plant) (s : option Structure) : DrawingElement := {|
  el_id := of_Z id; el_type := t; el_x := of_Z 10; el_y := of_Z 20;
  el_width := w; el_height := h; el_radius := r; el_rotation := None;
  el_plant := p; el_terrain := None; el_structure := s;
  el_realWorldWidth := None; el_realWorldHeight := None; el_brushType := None;
  el_texture := None; el_pathPoints := None; el_selectedBrushMode := None;
  el_brushThickness := None; el_selected := None
|}.

Definition sample_canvas : Size := {| sz_width := of_Z 50; sz_height := of_Z 30 |}.

(** A rectangle that has a width and no height. *)
Definition wide_rectangle : DrawingElement :=
  sample_element 1 TRectangle (Some (of_Z 5)) None None None None.

Definition sample_elements : list DrawingElement :=
  [sample_element 1 TPlant None None None (Some (sample_plant "30x30cm")) None;
   sample_element 2 TCircle None None (Some (of_Z 4)) None None;
   sample_element 3 TStructure None None None None (Some sample_structure);
   sample_element 4 TRectangle (Some (of_Z 5)) (Some (of_Z 2)) None None None].

(** Lookup in a list of named entries. *)
Fixpoint assoc {A} (k : string) (l : list (string * A)) : option A :=
  match l with
  | [] => None
  | (k', a) :: rest => if k' =? k then Some a else assoc k rest
  end.

Fixpoint unique_names (names : list string) : bool :=
  match names with
  | [] => true
  | k :: rest => negb (existsb (String.eqb k) rest) && unique_names rest
  end.

(** A validator call that returned a failure with a message. *)
Definition rejected (r : result ValidationResult) : Prop :=
  exists msg, msg <> EmptyString /\ r = Ok (invalid msg).

(** A validator call that returned: success, or a failure with a message. *)
Definition reports (r : result ValidationResult) : Prop :=
  r = Ok valid \/ rejected r.













(** An option the canvas bounds can be read from after the defaults are
    spread under it: absent, or a size. *)
Definition usable {A} (o : optional A) : bool :=
  match o with
  | Absent | Given _ => true
  | Undefined | Null => false
  end.

Definition bounds_usable (options : CanvasValidationOptions) : Prop :=
  usable (minCanvasSize options) = true /\ usable (maxCanvasSize options) = true.


Definition structure_element : DrawingElement :=
  sample_element 1 TStructure None None None None (Some sample_structure).

Definition type_error : string :=
  "Element type must be one of: plant, terrain, rectangle, circle".

Definition id_error : string := "Element ID is required and must be a number".

(** Equality of numbers as [===] has it. *)
Definition num_eqb (a b : number) : bool :=
  match a, b with
  | Fin x, Fin y => Qeq_bool x y
  | PInf, PInf | NInf, NInf => true
  | _, _ => false
  end.

(** The planting distance a spacing string encodes, in meters, read with the
    validator's pattern: [<num>m], [<num>cm], and for [<num>x<num>] the mean
    of the two sides. *)
Definition spacing_meters (s : string) : option number :=
  match rmatch spacingPattern (list_ascii_of_string s) [] at_end with
  | Some c =>
      match group 1 c, group 3 c with
      | Some a, Some u =>
          let meters n :=
            if string_of_list_ascii u =? "cm" then num_div n (of_Z 100) else n in
          match group 2 c with
          | Some b =>
              Some (num_div (num_add (meters (parseFloat a)) (meters (parseFloat b)))
                      (of_Z 2))
          | None => Some (meters (parseFloat a))
          end
      | _, _ => None
      end
  | None => None
  end.

Definition element_distance (e : DrawingElement) : list number :=
  match el_plant e with
  | Some p =>
      match spacing_meters (plant_spacing p) with
      | Some d => [d]
      | None => []
      end
  | None => []
  end.

(** The mean the specification describes: over exactly the elements that
    have a plant with a parseable spacing. *)
Definition mean_spacing (E : list DrawingElement) : number :=
  let ds := flat_map element_distance E in
  match ds with
  | [] => of_Z 0
  | _ => num_div (fold_left num_add ds (of_Z 0)) (of_nat (List.length ds))
  end.

Definition plant_element (spacing : string) : DrawingElement :=
  sample_element 1 TPlant None None None (Some (sample_plant spacing)) None.

Definition plant_marker : DrawingElement :=
  sample_element 2 TPlant None None None None None.

Section PatternLanguage.

Local Open Scope list_scope.

(** The words a pattern denotes. *)
Inductive matches : regex -> list ascii -> Prop :=
| matches_chr c : matches (Chr c) [c]
| matches_seq r1 r2 w1 w2 :
    matches r1 w1 -> matches r2 w2 -> matches (Seq r1 r2) (w1 ++ w2)
| matches_alt_left r1 r2 w : matches r1 w -> matches (Alt r1 r2) w
| matches_alt_right r1 r2 w : matches r2 w -> matches (Alt r1 r2) w
| matches_opt_none r : matches (Opt r) []
| matches_opt_some r w : matches r w -> matches (Opt r) w
| matches_plus p w : w <> [] -> forallb p w = true -> matches (Plus p) w
| matches_rep n p w :
    List.length w = n -> forallb p w = true -> matches (Rep n p) w
| matches_grp i r w : matches r w -> matches (Grp i r) w.

(** One or more decimal digits. *)
Definition digits (w : list ascii) : Prop := w <> [] /\ forallb digit w = true.

(** [<num>]: digits with an optional fraction. *)
Definition decimal (w : list ascii) : Prop :=
  exists i, digits i /\ (w = i \/ exists f, digits f /\ w = i ++ "."%char :: f).

Definition unit_suffix (w : list ascii) : Prop :=
  w = ["c"; "m"]%char \/ w = ["m"]%char.

(** The four spacing formats: [<num>m], [<num>cm], [<num>x<num>m],
    [<num>x<num>cm]. *)
Definition spacing_format (w : list ascii) : Prop :=
  exists a u, decimal a /\ unit_suffix u
              /\ (w = a ++ u \/ exists b, decimal b /\ w = a ++ "x"%char :: b ++ u).

(** [#] and six hexadecimal digits. *)
Definition hex_color (w : list ascii) : Prop :=
  exists h, w = "#"%char :: h /\ List.length h = 6%nat /\ forallb hex_digit h = true.

End PatternLanguage.

Definition name_ok (s : string) : Prop :=
  s <> EmptyString /\ (String.length s <= 100)%nat.

(** The Plant invariants as the validator enforces them. *)
Definition plant_ok (p : Plant) : Prop :=
  plant_id p <> EmptyString
  /\ name_ok (plant_name p)
  /\ spacing_format (list_ascii_of_string (plant_spacing p))
  /\ plant_category p <> EmptyString
  /\ hex_color (list_ascii_of_string (plant_color p)).

(** A number the range tests let through: between the bounds, or NaN (on
    which both comparisons are false). *)
Definition within (lo hi : Q) (n : number) : Prop :=
  n = NaN \/ exists q, n = Fin q /\ (lo <= q)%Q /\ (q <= hi)%Q.

Definition terrain_ok (t : Terrain) : Prop :=
  terrain_id t <> EmptyString
  /\ name_ok (terrain_name t)
  /\ terrain_category t <> EmptyString
  /\ hex_color (list_ascii_of_string (terrain_color t))
  /\ match terrain_brushThickness t with
     | None => True
     | Some n => within 1 100 n
     end.

Definition structure_ok (s : Structure) : Prop :=
  structure_id s <> EmptyString
  /\ name_ok (structure_name s)
  /\ structure_category s <> EmptyString
  /\ within (1 # 10) 100 (sz_width (structure_size s))
  /\ within (1 # 10) 100 (sz_height (structure_size s))
  /\ hex_color (list_ascii_of_string (structure_color s)).

(** A finite coordinate within the bound of the validator. *)
Definition coordinate_ok (n : number) : Prop :=
  exists q, n = Fin q /\ (Qabs q <= 100000)%Q.

(** An optional dimension: absent, or finite and not negative. *)
Definition dimension_absent_or_ok (o : option number) : Prop :=
  match o with
  | None => True
  | Some n => exists q, n = Fin q /\ (0 <= q)%Q
  end.

Definition rotation_absent_or_finite (o : option number) : Prop :=
  match o with
  | None => True
  | Some n => isFinite n = true
  end.

(** What [validateDrawingElement] requires of a typed element. *)
Definition element_ok (e : DrawingElement) : Prop :=
  num_truthy (el_id e) = true
  /\ el_type e <> TStructure
  /\ coordinate_ok (el_x e)
  /\ coordinate_ok (el_y e)
  /\ (el_type e = TPlant -> forall p, el_plant e = Some p -> plant_ok p)
  /\ (el_type e = TTerrain -> forall t, el_terrain e = Some t -> terrain_ok t)
  /\ (el_type e <> TPlant ->
      dimension_absent_or_ok (el_width e)
      /\ dimension_absent_or_ok (el_height e)
      /\ dimension_absent_or_ok (el_radius e))
  /\ rotation_absent_or_finite (el_rotation e).

(** A typed optional field as the value its property read gives. *)
Definition undefined_or {A} (f : A -> value) (o : option A) : value :=
  match option_map f o with Some v => v | None => VUndefined end.

(** The element limit in force, as the number the length is compared
    with: the option when it is a number, 1000 when it is absent, 0 when it
    is [null], and NaN when it is present as [undefined]; no length is
    greater than NaN, so there is no limit then. *)
Definition effective_max (options : CanvasValidationOptions) : number :=
  match maxElements options with
  | Given m => m
  | Absent => of_Z 1000
  | Null => of_Z 0
  | Undefined => NaN
  end.

Definition element_valid (e : value) : Prop := validateDrawingElement e = Ok valid.


(** ** Persistence store: preferences, clearing, recall, file import *)

(** The canonical numeral of an array index [n < 2^32 - 1], when [k] is
    one. *)
Definition index_of (k : string) : option Z :=
  let n := digits_value 0 (list_ascii_of_string k) in
  if (DecimalString.NilZero.string_of_uint (N.to_uint (Z.to_N n)) =? k)
     && (0 <=? n)%Z && (n <? 2 ^ 32 - 1)%Z
  then Some n else None.

(** A new index property goes among the index properties, in ascending
    order, before every other property. *)
Fixpoint insert_index (n : Z) (k : string) (v : value) (o : object) : object :=
  match o with
  | [] => [(k, v)]
  | (k', v') :: rest =>
      match index_of k' with
      | Some m =>
          if (n <? m)%Z then (k, v) :: o else (k', v') :: insert_index n k v rest
      | None => (k, v) :: o
      end
  end.

(** Writing a property while an object is built: an existing property keeps
    its place, a new index property is inserted in order, any other new
    property goes last. *)
Definition define (k : string) (v : value) (o : object) : object :=
  match lookup k o with
  | Some _ => assign k v o
  | None =>
      match index_of k with
      | Some n => insert_index n k v o
      | None => assign k v o
      end
  end.

Fixpoint indexed (i : nat) (l : list value) : object :=
  match l with
  | [] => []
  | x :: rest =>
      (DecimalString.NilZero.string_of_uint (Nat.to_uint i), x) :: indexed (S i) rest
  end.

(** The own enumerable properties a spread copies. *)
Definition own_properties (v : value) : object :=
  match v with
  | VObj o => o
  | VArr l => indexed 0 l
  | VStr s =>
      indexed 0 (map (fun c => VStr (String c EmptyString)) (list_ascii_of_string s))
  | _ => []
  end.

(** [{ ...target, ...v }] *)
Definition spread_into (target : object) (v : value) : object :=
  fold_left (fun acc kv => define (fst kv) (snd kv) acc) (own_properties v) target.

Definition DEFAULT_PREFERENCES : object :=
  [("theme", VStr "light");
   ("gridSize", VBool true);
   ("autoSave", VBool true);
   ("autoSaveInterval", VNum (of_Z 5));
   ("defaultCanvasSize", VObj [("width", VNum (of_Z 50)); ("height", VNum (of_Z 30))]);
   ("showTooltips", VBool true);
   ("enableSounds", VBool false);
   ("language", VStr "pt-BR")].

(** [localStorage.removeItem(key)] *)
Definition removeItem (key : string) : M unit :=
  fun w => (Ok tt, {| localStorage := fun k => if k =? key then None else localStorage w k;
                      argument := argument w |}).

Definition all_storage_keys : list string :=
  [STORAGE_KEYS.CURRENT_PROJECT; STORAGE_KEYS.PROJECT_HISTORY;
   STORAGE_KEYS.USER_PREFERENCES; STORAGE_KEYS.LAST_SAVE; STORAGE_KEYS.APP_VERSION].

(** [keys.forEach(key => localStorage.removeItem(key))] *)
Fixpoint remove_each (keys : list string) : M unit :=
  match keys with
  | [] => ret tt
  | key :: rest => bind (removeItem key) (fun _ => remove_each rest)
  end.

Definition clearAllData : M bool :=
  try_catch (bind (remove_each all_storage_keys) (fun _ => ret true)) (ret false).

Definition getUserPreferences : M value :=
  try_catch
    (bind (getItem STORAGE_KEYS.USER_PREFERENCES) (fun prefsJson =>
     match prefsJson with
     | Some t =>
         if negb (text_truthy prefsJson) then ret (VObj DEFAULT_PREFERENCES) else
         bind (lift (JSON_parse t)) (fun prefs =>
         ret (VObj (spread_into (spread_into [] (VObj DEFAULT_PREFERENCES)) prefs)))
     | None => ret (VObj DEFAULT_PREFERENCES)
     end))
    (ret (VObj DEFAULT_PREFERENCES)).

Definition isAutoSaveEnabled : M value :=
  bind getUserPreferences (fun prefs => lift (get prefs "autoSave")).

Definition getAutoSaveInterval : M value :=
  bind getUserPreferences (fun prefs => lift (get prefs "autoSaveInterval")).

Section Preferences.

Variable env : Platform.

Definition saveUserPreferences (preferences : value) : M bool :=
  try_catch
    (bind getUserPreferences (fun currentPrefs =>
     let updatedPrefs := VObj (spread_into (spread_into [] currentPrefs) preferences) in
     bind (setItem env STORAGE_KEYS.USER_PREFERENCES (JSON_stringify updatedPrefs))
       (fun _ => ret true)))
    (ret false).

Definition loadProjectFromHistory (projectId : string) : M (option value) :=
  try_catch
    (bind getCurrentProject (fun currentProject =>
     match currentProject with
     | Some project =>
         bind (lift (generateProjectId env project)) (fun id =>
         if id =? projectId then ret (Some project) else ret None)
     | None => ret None
     end))
    (ret None).

(** [importProjectFromJson(file)] on the text [file.text()] resolves to; a
    rejected read is a text that does not parse. *)
Definition importProjectFromJson (fileText : text) : option value :=
  match (data <- JSON_parse fileText ;;
         ok <- validateProjectData data ;;
         if negb ok then Ok None else
         data <- put data "timestamp" (VNum (Date_now env)) ;;
         data <- put data "lastModified" (VStr (Date_toISOString env)) ;;
         Ok (Some data))%js with
  | Ok r => r
  | Throw _ => None
  end.

End Preferences.

(** ** Auto-save scheduler (class [AutoSave])

    The host keeps the live interval timers; [setInterval] returns a fresh
    identifier, which is greater than zero and therefore truthy, so the
    field [interval] is an option.  The tracked project is a reference: what
    a save writes to it is seen through [projectData]. *)

Record AutoSave : Type := {
  interval : option nat;
  projectData : value;
  intervalMinutes : number
}.

Record Scheduler : Type := {
  auto : AutoSave;
  timers : list (nat * number);
  next_timer : nat;
  store : items
}.

(** [new AutoSave(intervalMinutes)] in a host without live timers. *)
Definition new_AutoSave (minutes : number) (s : items) : Scheduler := {|
  auto := {| interval := None; projectData := VNull; intervalMinutes := minutes |};
  timers := [];
  next_timer := 1;
  store := s
|}.

Definition clearInterval (id : nat) (l : list (nat * number)) : list (nat * number) :=
  filter (fun t => negb (Nat.eqb (fst t) id)) l.

Definition AutoSave_start (project : value) (s : Scheduler) : Scheduler :=
  let live :=
    match interval (auto s) with
    | Some id => clearInterval id (timers s)
    | None => timers s
    end in
  let period :=
    num_mul (num_mul (intervalMinutes (auto s)) (of_Z 60)) (of_Z 1000) in
  {| auto := {| interval := Some (next_timer s); projectData := project;
                intervalMinutes := intervalMinutes (auto s) |};
     timers := (next_timer s, period) :: live;
     next_timer := S (next_timer s);
     store := store s |}.

Definition AutoSave_stop (s : Scheduler) : Scheduler :=
  match interval (auto s) with
  | Some id =>
      {| auto := {| interval := None; projectData := projectData (auto s);
                    intervalMinutes := intervalMinutes (auto s) |};
         timers := clearInterval id (timers s);
         next_timer := next_timer s;
         store := store s |}
  | None => s
  end.

Definition AutoSave_updateProject (project : value) (s : Scheduler) : Scheduler :=
  {| auto := {| interval := interval (auto s); projectData := project;
                intervalMinutes := intervalMinutes (auto s) |};
     timers := timers s;
     next_timer := next_timer s;
     store := store s |}.

Section AutoSaveTicks.

Variable env : Platform.

(** The callback given to [setInterval]. *)
Definition AutoSave_callback (s : Scheduler) : Scheduler :=
  if truthy (projectData (auto s)) then
    let w := snd (saveCurrentProject env
                    {| localStorage := store s; argument := projectData (auto s) |}) in
    {| auto := {| interval := interval (auto s); projectData := argument w;
                  intervalMinutes := intervalMinutes (auto s) |};
       timers := timers s;
       next_timer := next_timer s;
       store := localStorage w |}
  else s.

(** The host fires every live timer once. *)
Definition tick (s : Scheduler) : Scheduler :=
  fold_left (fun acc _ => AutoSave_callback acc) (timers s) s.

Inductive operation : Type :=
| Start (project : value)
| Stop
| UpdateProject (project : value)
| Tick.

Definition perform (s : Scheduler) (op : operation) : Scheduler :=
  match op with
  | Start p => AutoSave_start p s
  | Stop => AutoSave_stop s
  | UpdateProject p => AutoSave_updateProject p s
  | Tick => tick s
  end.

End AutoSaveTicks.

(** [safeJsonParse(jsonString, validator)]: [data] is [null] on failure. *)
Record ParseResult : Type := {
  data : value;
  parse_error : option string
}.

Definition safeJsonParse (jsonString : text) (validator : option (value -> result bool))
  : ParseResult :=
  match (parsed <- JSON_parse jsonString ;;
         accepted <- match validator with
                     | Some f => f parsed
                     | None => Ok true
                     end ;;
         if negb accepted
         then Ok {| data := VNull; parse_error := Some "Invalid data structure" |}
         else Ok {| data := parsed; parse_error := None |})%js with
  | Ok r => r
  | Throw _ => {| data := VNull; parse_error := Some "Invalid JSON format" |}
  end.

Definition required_export_fields : list string :=
  ["version"; "timestamp"; "projectInfo"; "elements"; "metadata"].

(** What [validateProjectData] requires of a value. *)
Definition project_shape (v : value) : Prop :=
  exists o,
    v = VObj o
    /\ lookup "version" o <> None
    /\ lookup "selectedTool" o <> None
    /\ (exists c w h, lookup "canvasSize" o = Some (VObj c)
                      /\ lookup "width" c = Some (VNum w)
                      /\ lookup "height" c = Some (VNum h))
    /\ (exists es, lookup "elements" o = Some (VArr es))
    /\ (exists n, lookup "timestamp" o = Some (VNum n) /\ num_le n (of_Z 0) = false).

(** A project whose required fields survive JSON: [version] and
    [selectedTool] are not [undefined], the canvas size and the time stamp
    are finite. *)
Definition survives_json (o : object) : Prop :=
  (exists v, lookup "version" o = Some v /\ is_undefined v = false)
  /\ (exists v, lookup "selectedTool" o = Some v /\ is_undefined v = false)
  /\ (exists c w h, lookup "canvasSize" o = Some (VObj c)
                    /\ lookup "width" c = Some (VNum w)
                    /\ lookup "height" c = Some (VNum h)
                    /\ isFinite w = true /\ isFinite h = true)
  /\ (exists n, lookup "timestamp" o = Some (VNum n) /\ isFinite n = true).

(** What the preferences slot parses to; [null] when it is empty or does
    not parse. *)
Definition stored_preferences (w : World) : value :=
  match localStorage w STORAGE_KEYS.USER_PREFERENCES with
  | Some (JsonText v) => v
  | _ => VNull
  end.

Definition preference_keys : list string := map fst DEFAULT_PREFERENCES.

(** [a] with the properties of [b] laid over it, as a lookup. *)
Definition overlay (b a : object) (k : string) : option value :=
  match lookup k b with
  | Some x => Some x
  | None => lookup k a
  end.

(** A JSON object as [JSON.parse] gives it: distinct names, JSON values. *)
Definition json_object (v : value) : Prop :=
  exists o, v = VObj o /\ unique_keys o = true /\ json_value v = true.

(** The preferences slot is empty or holds the text of a JSON object. *)
Definition preferences_slot_ok (w : World) : Prop :=
  forall t, localStorage w STORAGE_KEYS.USER_PREFERENCES = Some t ->
            exists v, t = JsonText v /\ json_object v.

(** The period a scheduler gives its timer. *)
Definition period_of (a : AutoSave) : number :=
  num_mul (num_mul (intervalMinutes a) (of_Z 60)) (of_Z 1000).

(** The live timers are exactly the one the scheduler holds, if any. *)
Definition one_timer (s : Scheduler) : Prop :=
  timers s = match interval (auto s) with
             | Some id => [(id, period_of (auto s))]
             | None => []
             end.


(** A project that passes the structural check although its canvas width
    is not finite. *)
Definition unbounded_project : value :=
  VObj [("version", VStr "1.0");
        ("timestamp", VNum (of_Z 1));
        ("canvasSize", VObj [("width", VNum PInf); ("height", VNum (of_Z 30))]);
        ("elements", VArr []);
        ("selectedTool", VStr "select");
        ("metadata", VObj [])].

(** A partial preferences object. *)
Definition dark_theme : value := VObj [("theme", VStr "dark")].

Definition small_circle : value :=
  js_of_element (sample_element 2 TCircle None None (Some (of_Z 4)) None None).

(** * Properties *)

(** ** Reading values *)

Lemma missing_object_inv v :
  missing "object" v = false -> (exists l, v = VArr l) \/ (exists o, v = VObj o).
Proof.
  unfold missing, not_a.
  destruct v as [ | | b | n | s | l | o]; cbn; rewrite ?orb_true_r;
    try discriminate; eauto.
Qed.

Lemma missing_string_inv v :
  missing "string" v = false -> exists s, v = VStr s /\ s <> EmptyString.
Proof.
  unfold missing, not_a.
  destruct v as [ | | b | n | s | l | o]; cbn; rewrite ?orb_true_r;
    try discriminate.
  destruct (String.eqb_spec s EmptyString); try discriminate; eauto.
Qed.


Lemma get_object v k : missing "object" v = false -> exists x, get v k = Ok x.
Proof.
  intros H. apply missing_object_inv in H as [[l ->] | [o ->]]; cbn; eauto.
Qed.

Lemma lookup_assign_same k v o : lookup k (assign k v o) = Some v.
Proof.
  induction o as [| [k' v'] o IH]; cbn.
  - now rewrite String.eqb_refl.
  - destruct (k' =? k) eqn:E; cbn; now rewrite E.
Qed.

Lemma lookup_assign_other k k' v o :
  k' <> k -> lookup k' (assign k v o) = lookup k' o.
Proof.
  intros N. induction o as [| [k0 v0] o IH]; cbn.
  - destruct (String.eqb_spec k k'); congruence.
  - destruct (String.eqb_spec k0 k); cbn.
    + subst. destruct (String.eqb_spec k k'); congruence.
    + now rewrite IH.
Qed.

(** ** JSON texts *)

Lemma jsonify_object o : jsonify (VObj o) = VObj (jsonify_props o).
Proof.
  reflexivity.
Qed.

Lemma lookup_jsonify_props k o v :
  lookup k o = Some v -> is_undefined v = false ->
  lookup k (jsonify_props o) = Some (jsonify v).
Proof.
  induction o as [| [k' x] o IH]; cbn; [discriminate |].
  destruct (k' =? k) eqn:E.
  - intros [= ->] ->. cbn. now rewrite E.
  - intros H Hv. destruct (is_undefined x); cbn; rewrite ?E; auto.
Qed.

Lemma jsonify_json_value v : json_value v = true -> jsonify v = v.
Proof.
  induction v as [ | | b | n | s | l IH | o IH] using value_induction;
    cbn [json_value jsonify]; try congruence.
  - now intros ->.
  - intros H. f_equal. induction IH as [| x l Hx _ IHl]; cbn in *; [reflexivity |].
    apply andb_true_iff in H as [H1 H2]. now rewrite Hx, IHl.
  - intros H. f_equal. induction IH as [| [k x] o Hx _ IHo]; cbn in *; [reflexivity |].
    apply andb_true_iff in H as [H1 H2]. rewrite IHo by assumption.
    rewrite (Hx H1). destruct x; cbn in *; try reflexivity. discriminate.
Qed.

(** ** Persistence store *)

Lemma getProjectHistory_pure w : exists h, getProjectHistory w = (Ok h, w).
Proof.
  unfold getProjectHistory, try_catch, bind, getItem, lift, ret.
  destruct (localStorage w STORAGE_KEYS.PROJECT_HISTORY) as [t|]; eauto.
  destruct (text_truthy (Some t)); eauto.
  destruct t; cbn; eauto.
Qed.

(** [generateProjectId()] reads a property of [undefined]: the [try] of
    [addToProjectHistory] is left before any write. *)
Lemma addToProjectHistory_writes_nothing env project w :
  addToProjectHistory env project w = (Ok tt, w).
Proof.
  unfold addToProjectHistory, try_catch, bind.
  destruct (getProjectHistory_pure w) as [h ->].
  reflexivity.
Qed.

Lemma validateProjectData_true p :
  validateProjectData p = Ok true ->
  exists props es, p = VObj props /\ lookup "elements" props = Some (VArr es).
Proof.
  unfold validateProjectData.
  destruct (missing "object" p) eqn:E; [discriminate |].
  apply missing_object_inv in E as [[l ->] | [o ->]]; [discriminate |].
  cbn [has_all has_property rbind get].
  destruct (lookup "version" o); [| discriminate].
  destruct (lookup "timestamp" o); [| discriminate].
  destruct (lookup "canvasSize" o) as [cs|]; [| discriminate].
  destruct (lookup "elements" o) as [els|] eqn:He; [| discriminate].
  destruct (lookup "selectedTool" o); [| discriminate].
  cbn [negb].
  destruct (missing "object" cs) eqn:E; [discriminate |].
  apply missing_object_inv in E as [[l ->] | [c ->]]; cbn [rbind get].
  - discriminate.
  - destruct (_ || _); [discriminate |].
    destruct els; cbn [Array_isArray negb]; try discriminate. eauto.
Qed.

Lemma validateProjectData_total p : exists b, validateProjectData p = Ok b.
Proof.
  unfold validateProjectData.
  destruct (missing "object" p) eqn:E; [eauto |].
  apply missing_object_inv in E as [[l ->] | [o ->]]; [cbn; eauto |].
  cbn [has_all has_property rbind get].
  destruct (lookup "version" o); [| cbn; eauto].
  destruct (lookup "timestamp" o); [| cbn; eauto].
  destruct (lookup "canvasSize" o) as [cs|]; [| cbn; eauto].
  destruct (lookup "elements" o) as [els|]; [| cbn; eauto].
  destruct (lookup "selectedTool" o); [| cbn; eauto].
  cbn [negb rbind].
  destruct (missing "object" cs) eqn:E; [eauto |].
  apply missing_object_inv in E as [[l ->] | [c ->]]; cbn [rbind get].
  - cbn. eauto.
  - destruct (_ || _); [eauto |].
    destruct (negb _); [eauto |].
    destruct (_ || _); eauto.
Qed.

Lemma saveCurrentProject_rejected env w :
  validateProjectData (argument w) = Ok false ->
  saveCurrentProject env w = (Ok false, w).
Proof.
  intros H. unfold saveCurrentProject, try_catch, bind, the_project, lift.
  rewrite H. reflexivity.
Qed.

(** The run of a save on a project that passes the check and carries a
    [metadata] object: the two writes, in order, each of which the storage
    may refuse. *)
Lemma saveCurrentProject_run env w props meta es :
  argument w = VObj props ->
  validateProjectData (VObj props) = Ok true ->
  lookup "metadata" props = Some (VObj meta) ->
  lookup "elements" props = Some (VArr es) ->
  saveCurrentProject env w =
    let p' := VObj (saved_project env props meta es) in
    if storage_accepts env (localStorage w) STORAGE_KEYS.CURRENT_PROJECT (JSON_stringify p')
    then
      let s1 := write STORAGE_KEYS.CURRENT_PROJECT (JSON_stringify p') (localStorage w) in
      if storage_accepts env s1 STORAGE_KEYS.LAST_SAVE (number_text (Date_now env))
      then (Ok true,
            {| localStorage := write STORAGE_KEYS.LAST_SAVE (number_text (Date_now env)) s1;
               argument := p' |})
      else (Ok false, {| localStorage := s1; argument := p' |})
    else (Ok false, {| localStorage := localStorage w; argument := p' |}).
Proof.
  intros Hp Hv Hm He.
  unfold saveCurrentProject, try_catch, bind at 1, the_project.
  unfold bind at 1, lift. rewrite Hp, Hv. cbn [negb].
  unfold bind, put, update_project, lift, setItem, saved_project. cbn [get argument localStorage].
  rewrite !lookup_assign_other by discriminate. rewrite Hm, He.
  cbn [get String.eqb Ascii.eqb Bool.eqb put argument localStorage].
  destruct (storage_accepts env (localStorage w) _ _); [| reflexivity].
  cbn [argument localStorage].
  destruct (storage_accepts env _ STORAGE_KEYS.LAST_SAVE _); [| reflexivity].
  rewrite addToProjectHistory_writes_nothing. reflexivity.
Qed.

(** A save leaves the history slot as it found it. *)
Lemma saveCurrentProject_keeps_history env w props meta :
  argument w = VObj props ->
  lookup "metadata" props = Some (VObj meta) ->
  localStorage (snd (saveCurrentProject env w)) STORAGE_KEYS.PROJECT_HISTORY
  = localStorage w STORAGE_KEYS.PROJECT_HISTORY.
Proof.
  intros Hp Hm.
  destruct (validateProjectData_total (VObj props)) as [[|] Hv].
  - destruct (validateProjectData_true _ Hv) as (props' & es & [= <-] & He).
    rewrite (saveCurrentProject_run env w props meta es Hp Hv Hm He). cbn zeta.
    destruct (storage_accepts _ _ _ _); [| reflexivity].
    destruct (storage_accepts _ _ _ _); reflexivity.
  - rewrite saveCurrentProject_rejected by now rewrite Hp. reflexivity.
Qed.

(** C3.  For a project that fails the structural check [validateProjectData],
    [saveCurrentProject] returns [false] and writes nothing: every storage
    slot (current project, last-save time stamp, history and the others) and
    the caller's object are as before. *)
Theorem saveCurrentProject_invalid_no_write env w :
  validateProjectData (argument w) = Ok false ->
  fst (saveCurrentProject env w) = Ok false
  /\ (forall key, localStorage (snd (saveCurrentProject env w)) key = localStorage w key)
  /\ argument (snd (saveCurrentProject env w)) = argument w.
Proof.
  intros H. rewrite (saveCurrentProject_rejected env w H). cbn. auto.
Qed.

Lemma saveCurrentProject_invalid_no_write_witness :
  let w := {| localStorage := empty_storage; argument := VObj [("foo", VStr "bar")] |} in
  validateProjectData (argument w) = Ok false
  /\ fst (saveCurrentProject sample_host w) = Ok false
  /\ (forall key, localStorage (snd (saveCurrentProject sample_host w)) key = localStorage w key)
  /\ argument (snd (saveCurrentProject sample_host w)) = argument w.
Proof.
  split; [reflexivity |].
  apply (saveCurrentProject_invalid_no_write sample_host
           {| localStorage := empty_storage; argument := VObj [("foo", VStr "bar")] |}).
  reflexivity.
Defined.

(** C5.  For a project that passes the structural check and whose
    [metadata.elementsCount] differs from the number of its elements,
    [saveCurrentProject] returns [true] on a storage that takes the writes,
    and both the stored project and the caller's object have
    [metadata.elementsCount] equal to [elements.length]. *)
Theorem saveCurrentProject_recomputes_elementsCount env w props meta es :
  argument w = VObj props ->
  validateProjectData (VObj props) = Ok true ->
  lookup "metadata" props = Some (VObj meta) ->
  lookup "elements" props = Some (VArr es) ->
  lookup "elementsCount" meta <> Some (VNum (of_nat (List.length es))) ->
  storage_available env ->
  exists w' stored,
    saveCurrentProject env w = (Ok true, w')
    /\ localStorage w' STORAGE_KEYS.CURRENT_PROJECT = Some (JsonText stored)
    /\ field stored ["metadata"; "elementsCount"] = Ok (VNum (of_nat (List.length es)))
    /\ field (argument w') ["metadata"; "elementsCount"]
       = Ok (VNum (of_nat (List.length es))).
Proof.
  intros Hp Hv Hm He _ Ha.
  rewrite (saveCurrentProject_run env w props meta es Hp Hv Hm He). cbn zeta.
  rewrite !Ha.
  eexists _, _. split; [reflexivity |]. cbn [localStorage argument].
  split; [reflexivity |].
  assert (Hl : lookup "metadata" (saved_project env props meta es)
               = Some (VObj (assign "elementsCount" (VNum (of_nat (List.length es))) meta)))
    by apply lookup_assign_same.
  split.
  - rewrite jsonify_object. cbn [field get rbind].
    rewrite (lookup_jsonify_props _ _ _ Hl eq_refl), jsonify_object. cbn [get rbind].
    rewrite (lookup_jsonify_props "elementsCount" _ (VNum (of_nat (List.length es))));
      [reflexivity | apply lookup_assign_same | reflexivity].
  - cbn [field get rbind]. rewrite Hl. cbn [get rbind].
    now rewrite lookup_assign_same.
Qed.

Lemma saveCurrentProject_recomputes_elementsCount_witness :
  exists w' stored,
    saveCurrentProject sample_host
      {| localStorage := empty_storage; argument := sample_project 1 |} = (Ok true, w')
    /\ localStorage w' STORAGE_KEYS.CURRENT_PROJECT = Some (JsonText stored)
    /\ field stored ["metadata"; "elementsCount"] = Ok (VNum (of_nat 0))
    /\ field (argument w') ["metadata"; "elementsCount"] = Ok (VNum (of_nat 0)).
Proof.
  refine (saveCurrentProject_recomputes_elementsCount sample_host
            {| localStorage := empty_storage; argument := sample_project 1 |}
            _ _ [] eq_refl eq_refl eq_refl eq_refl _ _).
  - cbn. discriminate.
  - intros s k t. reflexivity.
Defined.

(** C9.  When [saveCurrentProject] returns [true], the caller's project
    object has been changed in place: [lastModified] holds the save-time ISO
    string, [metadata.elementsCount] holds [elements.length], and every other
    property of the project and of its metadata is as before. *)
Theorem saveCurrentProject_mutates_argument env w w' props meta :
  argument w = VObj props ->
  lookup "metadata" props = Some (VObj meta) ->
  saveCurrentProject env w = (Ok true, w') ->
  exists props' meta' es,
    argument w' = VObj props'
    /\ lookup "elements" props = Some (VArr es)
    /\ lookup "lastModified" props' = Some (VStr (Date_toISOString env))
    /\ lookup "metadata" props' = Some (VObj meta')
    /\ lookup "elementsCount" meta' = Some (VNum (of_nat (List.length es)))
    /\ (forall k, k <> "lastModified" -> k <> "metadata" ->
                  lookup k props' = lookup k props)
    /\ (forall k, k <> "elementsCount" -> lookup k meta' = lookup k meta).
Proof.
  intros Hp Hm Hs.
  destruct (validateProjectData_total (VObj props)) as [[|] Hv].
  2:{ rewrite saveCurrentProject_rejected in Hs by now rewrite Hp. discriminate. }
  destruct (validateProjectData_true _ Hv) as (props0 & es & [= <-] & He).
  rewrite (saveCurrentProject_run env w props meta es Hp Hv Hm He) in Hs. cbn zeta in Hs.
  destruct (storage_accepts _ _ _ _); [| discriminate].
  destruct (storage_accepts _ _ _ _); [| discriminate].
  injection Hs as <-. cbn [argument].
  exists (saved_project env props meta es),
         (assign "elementsCount" (VNum (of_nat (List.length es))) meta), es.
  unfold saved_project.
  repeat split; auto.
  - rewrite lookup_assign_other by discriminate. apply lookup_assign_same.
  - apply lookup_assign_same.
  - apply lookup_assign_same.
  - intros k H1 H2. now rewrite !lookup_assign_other.
  - intros k H1. now rewrite lookup_assign_other.
Qed.

Lemma filter_other_ids_objects projectId l :
  Forall (fun e => exists o, e = VObj o) l ->
  filter_other_ids projectId l
  = Ok (filter (fun e => negb (entry_has_id projectId e)) l).
Proof.
  induction 1 as [| e l [o ->] _ IH]; cbn [filter_other_ids filter]; [reflexivity |].
  rewrite IH. unfold entry_has_id. cbn [get rbind]. 
  destruct (negb _); reflexivity.
Qed.

Lemma filter_keeps_all {A} (f : A -> bool) l :
  List.length (filter f l) = List.length l <-> forall x, In x l -> f x = true.
Proof.
  induction l as [| a l IH]; cbn; [tauto |].
  pose proof (filter_length_le f l) as Hle.
  destruct (f a) eqn:E; cbn.
  - split.
    + intros [= H] x [<- | Hx]; [assumption | now apply IH].
    + intros H. f_equal. apply IH. auto.
  - split; [lia |]. intros H. rewrite H in E by auto. discriminate.
Qed.

Lemma getProjectHistory_stored w v :
  localStorage w STORAGE_KEYS.PROJECT_HISTORY = Some (JsonText v) ->
  getProjectHistory w = (Ok v, w).
Proof.
  intros H. unfold getProjectHistory, try_catch, bind, getItem. rewrite H. reflexivity.
Qed.

(** C6 (amended).  On a stored history of entry objects and a storage that
    takes the write, [deleteProjectFromHistory(id)] returns [false] exactly
    when no entry has that id, and then changes nothing; otherwise it returns
    [true] and stores the history without every entry of that id (at least
    one), the other entries unchanged and in order, the other slots
    untouched. *)
Theorem deleteProjectFromHistory_removes_matching env w projectId l :
  localStorage w STORAGE_KEYS.PROJECT_HISTORY = Some (JsonText (VArr l)) ->
  Forall history_entry l ->
  storage_available env ->
  let kept := filter (fun e => negb (entry_has_id projectId e)) l in
  let run := deleteProjectFromHistory env projectId w in
  (fst run = Ok false <-> forall e, In e l -> entry_has_id projectId e = false)
  /\ (fst run = Ok false -> snd run = w)
  /\ (fst run <> Ok false ->
      fst run = Ok true
      /\ localStorage (snd run) STORAGE_KEYS.PROJECT_HISTORY = Some (JsonText (VArr kept))
      /\ (forall k, k <> STORAGE_KEYS.PROJECT_HISTORY ->
                    localStorage (snd run) k = localStorage w k)
      /\ (List.length kept < List.length l)%nat).
Proof.
  intros Hs Hl Ha kept run.
  assert (Hobj : Forall (fun e => exists o, e = VObj o) l)
    by (eapply Forall_impl; [| exact Hl]; now intros e [H _]).
  assert (Hrun : run = if Nat.eqb (List.length kept) (List.length l)
                       then (Ok false, w)
                       else (Ok true,
                             {| localStorage :=
                                  write STORAGE_KEYS.PROJECT_HISTORY
                                    (JsonText (VArr kept)) (localStorage w);
                                argument := argument w |})).
  { subst run. unfold deleteProjectFromHistory, try_catch, bind at 1.
    rewrite (getProjectHistory_stored w _ Hs).
    unfold bind at 1, lift. rewrite (filter_other_ids_objects _ _ Hobj). fold kept.
    destruct (Nat.eqb _ _); [reflexivity |].
    unfold bind, setItem, ret. rewrite Ha.
    assert (Hk : JSON_stringify (VArr kept) = JsonText (VArr kept)).
    { unfold JSON_stringify. rewrite jsonify_json_value; [reflexivity |].
      cbn. apply forallb_forall. intros e He.
      apply filter_In in He as [He _].
      rewrite Forall_forall in Hl. now apply Hl. }
    now rewrite Hk. }
  pose proof (filter_keeps_all (fun e => negb (entry_has_id projectId e)) l) as Hall.
  fold kept in Hall.
  pose proof (filter_length_le (fun e => negb (entry_has_id projectId e)) l) as Hle.
  fold kept in Hle.
  rewrite Hrun. destruct (Nat.eqb_spec (List.length kept) (List.length l)) as [E | E]; cbn.
  - split; [| split].
    + split; [| reflexivity]. intros _ e He. apply negb_true_iff. now apply Hall.
    + reflexivity.
    + congruence.
  - split; [| split].
    + split; [discriminate |]. intros H. exfalso. apply E, Hall.
      intros e He. apply negb_true_iff; auto.
    + discriminate.
    + intros _. split; [reflexivity |]. split; [reflexivity |]. split; [| lia].
      intros k Hk. unfold write.
      destruct (String.eqb_spec k STORAGE_KEYS.PROJECT_HISTORY); congruence.
Qed.

Lemma saveCurrentProject_mutates_argument_witness :
  let w := {| localStorage := empty_storage; argument := sample_project 1 |} in
  exists props' meta' es,
    argument (snd (saveCurrentProject sample_host w)) = VObj props'
    /\ Some (VArr []) = Some (VArr es)
    /\ lookup "lastModified" props' = Some (VStr "2023-11-14T22:13:20.000Z")
    /\ lookup "metadata" props' = Some (VObj meta')
    /\ lookup "elementsCount" meta' = Some (VNum (of_nat (List.length es)))
    /\ (forall k, k <> "lastModified" -> k <> "metadata" ->
                  lookup k props' = lookup k
                    [("version", VStr "1.0");
                     ("timestamp", VNum (of_Z 1));
                     ("lastModified", VStr "2023-01-01T00:00:00.000Z");
                     ("canvasSize",
                      VObj [("width", VNum (of_Z 50)); ("height", VNum (of_Z 30))]);
                     ("elements", VArr []);
                     ("selectedTool", VStr "select");
                     ("metadata",
                      VObj [("elementsCount", VNum (of_Z 7)); ("tags", VArr [])])])
    /\ (forall k, k <> "elementsCount" ->
                  lookup k meta'
                  = lookup k [("elementsCount", VNum (of_Z 7)); ("tags", VArr [])]).
Proof.
  exact (saveCurrentProject_mutates_argument sample_host
           {| localStorage := empty_storage; argument := sample_project 1 |}
           (snd (saveCurrentProject sample_host
                   {| localStorage := empty_storage; argument := sample_project 1 |}))
           _ _ eq_refl eq_refl eq_refl).
Defined.

Lemma deleteProjectFromHistory_removes_matching_witness :
  let w := {| localStorage := storage_with_history sample_history;
              argument := VUndefined |} in
  let run := deleteProjectFromHistory sample_host "b" w in
  (fst run = Ok false <-> forall e, In e sample_history -> entry_has_id "b" e = false)
  /\ (fst run = Ok false -> snd run = w)
  /\ (fst run <> Ok false ->
      fst run = Ok true
      /\ localStorage (snd run) STORAGE_KEYS.PROJECT_HISTORY
         = Some (JsonText (VArr [history_item "a" 3; history_item "a" 2]))
      /\ (forall k, k <> STORAGE_KEYS.PROJECT_HISTORY ->
                    localStorage (snd run) k = localStorage w k)
      /\ (2 < 3)%nat).
Proof.
  apply (deleteProjectFromHistory_removes_matching sample_host
           {| localStorage := storage_with_history sample_history;
              argument := VUndefined |} "b" sample_history).
  - reflexivity.
  - repeat constructor; eexists; reflexivity.
  - intros s k t. reflexivity.
Defined.

Lemma deleteProjectFromHistory_removes_two :
  let w := {| localStorage := storage_with_history sample_history;
              argument := VUndefined |} in
  let run := deleteProjectFromHistory sample_host "a" w in
  fst run = Ok true
  /\ exists after,
       localStorage (snd run) STORAGE_KEYS.PROJECT_HISTORY = Some (JsonText (VArr after))
       /\ after = [history_item "b" 1]
       /\ (List.length after + 1 <> List.length sample_history)%nat.
Proof.
  split; [reflexivity |]. eexists. split; [reflexivity |]. split; [reflexivity |].
  cbn. lia.
Qed.

(** C4 (the code departs from the claim).  Saving fifty-one distinct valid
    projects one after the other succeeds each time and stores the last of
    them as current project, yet the history is still empty: the call
    [generateProjectId()] inside [addToProjectHistory] passes no project,
    throws, and the history is never written. *)
Theorem saving_51_projects_leaves_history_empty :
  let run := save_all sample_host fifty_one_projects empty_storage in
  fst run = repeat (Ok true) 51
  /\ snd run STORAGE_KEYS.PROJECT_HISTORY = None
  /\ fst (getProjectHistory {| localStorage := snd run; argument := VUndefined |})
     = Ok (VArr [])
  /\ exists last, snd run STORAGE_KEYS.CURRENT_PROJECT = Some (JsonText last)
                  /\ field last ["timestamp"] = Ok (VNum (of_Z 51)).
Proof.
  vm_compute. repeat split. eexists. split; reflexivity.
Qed.

(** ** Export/import codec *)

Lemma lookup_jsonify_absent k o :
  existsb (fun kv => fst kv =? k) o = false -> lookup k (jsonify_props o) = None.
Proof.
  induction o as [| [k' x] o IH]; cbn; [reflexivity |].
  intros H. apply orb_false_iff in H as [H1 H2].
  destruct (is_undefined x); cbn; rewrite ?H1; auto.
Qed.

Lemma lookup_jsonify_unique k o :
  unique_keys o = true ->
  lookup k (jsonify_props o)
  = match lookup k o with
    | Some v => if is_undefined v then None else Some (jsonify v)
    | None => None
    end.
Proof.
  induction o as [| [k' x] o IH]; cbn; [reflexivity |].
  intros H. apply andb_true_iff in H as [H1 H2]. apply negb_true_iff in H1.
  destruct (k' =? k) eqn:E.
  - apply String.eqb_eq in E as ->.
    destruct (is_undefined x); cbn.
    + now apply lookup_jsonify_absent.
    + now rewrite String.eqb_refl.
  - destruct (is_undefined x); cbn; rewrite ?E; auto.
Qed.

Lemma tally_filter p E :
  List.length (filter (fun el => p (el_type el)) E) = tally p E.
Proof.
  induction E as [| e E IH]; cbn; [reflexivity |].
  destruct (p (el_type e)); cbn; now rewrite IH.
Qed.

Lemma validateExportElement_exported e :
  validateExportElement (jsonify (exportElement e)) = Ok (survives_import e).
Proof.
  unfold exportElement.
  match goal with |- context [VObj ?l] => set (o := l) end.
  assert (Hu : unique_keys o = true) by reflexivity.
  rewrite jsonify_object. unfold validateExportElement.
  change (missing "object" (VObj (jsonify_props o))) with false.
  cbn [has_all has_property get rbind].
  rewrite !(lookup_jsonify_unique _ o Hu).
  subst o. cbn [lookup String.eqb Ascii.eqb Bool.eqb].
  unfold survives_import.
  destruct e as [id t x y w h r rot pl te st rw rh bt tx pp sm bth sel].
  cbn [el_id el_type el_x el_y el_width el_height el_radius].
  cbn [is_undefined negb jsonify].
  destruct x as [qx | | |]; [| destruct t; reflexivity ..].
  destruct y as [qy | | |]; [| destruct t; reflexivity ..].
  destruct t, w as [[ | | | ] |], h as [[ | | | ] |], r as [[ | | | ] |]; cbn;
    rewrite ?andb_true_r, ?andb_false_r, ?orb_false_r; try reflexivity.
  all: unfold dimension_ok; cbn; try reflexivity.
  all: repeat match goal with |- context [Qlt_bool ?a ?b] => destruct (Qlt_bool a b) end;
       reflexivity.
Qed.

Lemma all_export_elements_exported E :
  all_export_elements (map jsonify (map exportElement E))
  = Ok (forallb survives_import E).
Proof.
  induction E as [| e E IH]; cbn [map all_export_elements forallb]; [reflexivity |].
  rewrite validateExportElement_exported. cbn [rbind].
  destruct (survives_import e); cbn [negb andb]; [exact IH | reflexivity].
Qed.

Lemma importProjectFromJSON_exported env E C name :
  importProjectFromJSON (JSON_stringify (createExportData env E C name))
  = if forallb survives_import E
    then Some (jsonify (createExportData env E C name))
    else None.
Proof.
  unfold importProjectFromJSON, createExportData.
  cbn [JSON_stringify JSON_parse rbind].
  unfold validateExportData.
  match goal with
  | |- context [missing "object" ?v] => change (missing "object" v) with false
  end.
  cbn -[all_export_elements exportElement].
  destruct (isFinite (sz_width C)), (isFinite (sz_height C));
    cbn -[all_export_elements exportElement];
    rewrite all_export_elements_exported; destruct (forallb survives_import E);
    reflexivity.
Qed.

(** C2 (amended).  When every element of [E] has finite coordinates, a
    circle's radius is absent or finite and not negative, and a rectangle's
    or terrain's width and height are both absent or both finite and not
    negative, [importProjectFromJSON] of the serialization of
    [createExportData(E, C)] returns a document whose
    [projectInfo.totalElements] is the length of [E] and whose category
    counts are the direct tally of [E] by type. *)
Theorem import_recovers_exported_counts env E C name :
  forallb survives_import E = true ->
  exists d,
    importProjectFromJSON (JSON_stringify (createExportData env E C name)) = Some d
    /\ field d ["projectInfo"; "totalElements"] = Ok (VNum (of_nat (List.length E)))
    /\ field d ["projectInfo"; "categories"; "plants"]
       = Ok (VNum (of_nat (tally (fun t => type_eqb t TPlant) E)))
    /\ field d ["projectInfo"; "categories"; "terrain"]
       = Ok (VNum (of_nat (tally (fun t => type_eqb t TTerrain) E)))
    /\ field d ["projectInfo"; "categories"; "structures"]
       = Ok (VNum (of_nat (tally (fun t => type_eqb t TStructure) E)))
    /\ field d ["projectInfo"; "categories"; "shapes"]
       = Ok (VNum (of_nat (tally is_shape E))).
Proof.
  intros H. rewrite importProjectFromJSON_exported, H.
  eexists. split; [reflexivity |].
  rewrite <- !tally_filter.
  assert (Hs : forall t, is_shape t = type_eqb t TRectangle || type_eqb t TCircle)
    by (now intros []).
  rewrite (filter_ext _ _ (fun el => Hs (el_type el))).
  unfold createExportData.
  destruct (isFinite (sz_width C)), (isFinite (sz_height C)); repeat split; reflexivity.
Qed.

Lemma import_recovers_exported_counts_witness :
  exists d,
    importProjectFromJSON
      (JSON_stringify (createExportData sample_host sample_elements sample_canvas None))
    = Some d
    /\ field d ["projectInfo"; "totalElements"] = Ok (VNum (of_nat 4))
    /\ field d ["projectInfo"; "categories"; "plants"] = Ok (VNum (of_nat 1))
    /\ field d ["projectInfo"; "categories"; "terrain"] = Ok (VNum (of_nat 0))
    /\ field d ["projectInfo"; "categories"; "structures"] = Ok (VNum (of_nat 1))
    /\ field d ["projectInfo"; "categories"; "shapes"] = Ok (VNum (of_nat 2)).
Proof.
  apply (import_recovers_exported_counts sample_host sample_elements sample_canvas None).
  reflexivity.
Defined.

Lemma import_rejects_exported_rectangle :
  importProjectFromJSON
    (JSON_stringify (createExportData sample_host [wide_rectangle] sample_canvas None))
  = None.
Proof. reflexivity. Qed.

(** ** Validator *)

Lemma lookup_present_absent k l :
  existsb (String.eqb k) (map fst l) = false -> lookup k (present l) = None.
Proof.
  induction l as [| [k' [v|]] l IH]; cbn; auto.
  - intros H. apply orb_false_iff in H as [H1 H2].
    rewrite String.eqb_sym, H1. auto.
  - intros H. apply orb_false_iff in H as [H1 H2]. auto.
Qed.

Lemma lookup_present k l :
  unique_names (map fst l) = true ->
  lookup k (present l) = match assoc k l with Some o => o | None => None end.
Proof.
  induction l as [| [k' o] l IH]; cbn; [reflexivity |].
  intros H. apply andb_true_iff in H as [H1 H2]. apply negb_true_iff in H1.
  destruct (k' =? k) eqn:E.
  - apply String.eqb_eq in E as ->.
    destruct o as [v|]; cbn.
    + now rewrite String.eqb_refl.
    + now apply lookup_present_absent.
  - destruct o as [v|]; cbn; rewrite ?E; auto.
Qed.

Lemma get_js_of_element e k :
  get (js_of_element e) k
  = Ok (match assoc k (element_fields e) with
        | Some (Some v) => v
        | _ => VUndefined
        end).
Proof.
  unfold js_of_element. cbn [get].
  rewrite lookup_present by reflexivity.
  destruct (assoc k (element_fields e)) as [[v|]|]; reflexivity.
Qed.

Lemma num_truthy_zero q : (q == 0)%Q -> num_truthy (Fin q) = false.
Proof.
  intros H. cbn. apply negb_false_iff. now apply Qeq_bool_iff.
Qed.

(** C10.  An element whose [id] is the number 0 is rejected by
    [validateDrawingElement] with the message about the id: the truthiness
    test on [id] comes before the type test. *)
Theorem validateDrawingElement_rejects_zero_id element q :
  get element "id" = Ok (VNum (Fin q)) ->
  (q == 0)%Q ->
  validateDrawingElement element = Ok (invalid id_error).
Proof.
  intros Hid Hq. unfold validateDrawingElement.
  destruct (missing "object" element) eqn:E.
  - destruct element as [ | | b | n | s | l | o]; cbn in Hid; discriminate.
  - rewrite Hid. cbn [rbind]. unfold missing at 1. cbn [truthy].
    now rewrite (num_truthy_zero q Hq).
Qed.

Lemma validateDrawingElement_rejects_zero_id_witness :
  validateDrawingElement
    (js_of_element (sample_element 0 TPlant None None None None None))
  = Ok (invalid id_error).
Proof.
  apply (validateDrawingElement_rejects_zero_id _ 0); reflexivity.
Defined.

(** C1 (the code departs from the claim).  An element of type [structure]
    with a non-zero id is rejected by [validateDrawingElement], whatever its
    coordinates and data: [validTypes] lists plant, terrain, rectangle and
    circle only, while [validateExportElement] and the codec's counters know
    [structure]. *)
Theorem validateDrawingElement_rejects_structure e :
  el_type e = TStructure ->
  num_truthy (el_id e) = true ->
  validateDrawingElement (js_of_element e) = Ok (invalid type_error).
Proof.
  intros Ht Hid. unfold validateDrawingElement.
  change (missing "object" (js_of_element e)) with false. cbv iota.
  rewrite !get_js_of_element. unfold element_fields.
  cbn [assoc String.eqb Ascii.eqb Bool.eqb rbind].
  unfold missing at 1. cbn [truthy]. rewrite Hid, Ht. reflexivity.
Qed.

Lemma validateDrawingElement_rejects_structure_witness :
  validateDrawingElement (js_of_element structure_element) = Ok (invalid type_error)
  /\ validateStructure (js_of_structure sample_structure) = Ok valid
  /\ validateExportElement (jsonify (exportElement structure_element)) = Ok true.
Proof.
  split; [| split; reflexivity].
  apply (validateDrawingElement_rejects_structure structure_element); reflexivity.
Defined.

Ltac reject_now :=
  solve [right; eexists; split; [| reflexivity]; cbn; discriminate].

Ltac check :=
  lazymatch goal with
  | |- reports (if ?c then _ else _) =>
      let E := fresh "E" in destruct c eqn:E; [reject_now |]
  end.

Ltac read v k :=
  let x := fresh "x" in
  let Hx := fresh "Hx" in
  lazymatch goal with
  | H : missing "object" v = false |- _ =>
      destruct (get_object v k H) as [x Hx]; rewrite Hx; cbn [rbind]
  end.

Ltac read_length :=
  lazymatch goal with
  | H : missing "string" ?x = false |- _ =>
      let s := fresh "s" in
      apply missing_string_inv in H as (s & -> & _);
      cbn [get rbind String.eqb Ascii.eqb Bool.eqb]
  end.

Lemma validatePlant_reports v : reports (validatePlant v).
Proof.
  unfold validatePlant.
  check. read v "id". check. read v "name". check. read_length.
  check. read v "spacing". do 2 check. read v "category". check.
  read v "color". do 2 check. now left.
Qed.

Lemma validateTerrain_reports v : reports (validateTerrain v).
Proof.
  unfold validateTerrain.
  check. read v "id". check. read v "name". check. read_length.
  check. read v "category". check. read v "color". do 2 check.
  read v "brushThickness". check. now left.
Qed.


Lemma reports_nested (r : result ValidationResult) (k : result ValidationResult) :
  reports r -> reports k ->
  reports (pv <- r ;; if negb (isValid pv) then Ok pv else k)%js.
Proof.
  intros [-> | (msg & Hm & ->)] Hk; cbn; [exact Hk |].
  right. now exists msg.
Qed.

Lemma validateDrawingElement_reports v : reports (validateDrawingElement v).
Proof.
  unfold validateDrawingElement.
  check. read v "id". check. read v "type". do 2 check.
  read v "x". check. read v "y". do 2 check.
  read v "plant". apply reports_nested.
  { destruct (_ && _); [apply validatePlant_reports | now left]. }
  read v "terrain". apply reports_nested.
  { destruct (_ && _); [apply validateTerrain_reports | now left]. }
  read v "width". read v "height". read v "radius". cbv zeta.
  do 3 check. read v "rotation". check. now left.
Qed.

Lemma usable_given {A} (d : A) (o : optional A) :
  usable o = true -> exists a, over (Given d) o = Given a.
Proof. destruct o; cbn; intros H; try discriminate H; eauto. Qed.

Lemma validateCanvasSize_reports env v options :
  bounds_usable options -> reports (validateCanvasSize env v options).
Proof.
  intros [Hmin Hmax]. unfold validateCanvasSize. cbv zeta.
  check. read v "width". check. read v "height". check.
  cbn [spread DEFAULT_VALIDATION_OPTIONS minCanvasSize maxCanvasSize].
  destruct (usable_given {| sz_width := of_Z 1; sz_height := of_Z 1 |} _ Hmin) as [lo ->].
  destruct (usable_given {| sz_width := of_Z 200; sz_height := of_Z 200 |} _ Hmax) as [hi ->].
  cbn [non_null rbind].
  do 2 check. now left.
Qed.

Lemma validate_each_reports env l : forall i, reports (validate_each env i l).
Proof.
  induction l as [| e l IH]; intros i; cbn [validate_each]; [now left |].
  destruct (validateDrawingElement_reports e) as [-> | (msg & Hm & ->)]; cbn [rbind].
  - cbn. apply IH.
  - cbn. reject_now.
Qed.

Lemma validateElementsArray_reports env v options :
  reports (validateElementsArray env v options).
Proof.
  unfold validateElementsArray. cbv zeta.
  destruct v; try reject_now.
  check. apply validate_each_reports.
Qed.











Lemma validateElementsArray_valid env v options :
  validateElementsArray env v options = Ok valid -> Array_isArray v = true.
Proof.
  unfold validateElementsArray. destruct v; try discriminate. reflexivity.
Qed.










Lemma validateCanvasSize_throws env o w h options :
  lookup "width" o = Some (VNum (Fin w)) ->
  lookup "height" o = Some (VNum (Fin h)) ->
  usable (minCanvasSize options) && usable (maxCanvasSize options) = false ->
  validateCanvasSize env (VObj o) options = Throw TypeError.
Proof.
  intros Hw Hh Hu. unfold validateCanvasSize. cbv zeta.
  change (missing "object" (VObj o)) with false. cbv iota.
  cbn [get rbind]. rewrite Hw, Hh.
  cbn [not_a typeof is_finite isFinite negb orb String.eqb Ascii.eqb Bool.eqb].
  cbn [spread DEFAULT_VALIDATION_OPTIONS minCanvasSize maxCanvasSize].
  destruct (minCanvasSize options), (maxCanvasSize options);
    try discriminate Hu; reflexivity.
Qed.


(** ** Statistics *)

(** C7 (the code departs from the claim).  For one plant with spacing [2m]
    [calculateProjectStatistics] returns an average spacing of 0 where the
    mean planting distance is 2: its pattern requires the [x] form.  For a
    plant with spacing [1x1m] and a plant-typed element without plant data
    it returns 1/2 where the mean over the elements with a parseable spacing
    is 1: it divides by the number of plant-typed elements. *)
Theorem calculateProjectStatistics_misses_single_distance :
  num_eqb (averageSpacing (calculateProjectStatistics [plant_element "2m"])) (of_Z 0)
  = true
  /\ num_eqb (mean_spacing [plant_element "2m"]) (of_Z 2) = true
  /\ num_eqb (averageSpacing
                (calculateProjectStatistics [plant_element "1x1m"; plant_marker]))
       (Fin (1 # 2)) = true
  /\ num_eqb (mean_spacing [plant_element "1x1m"; plant_marker]) (of_Z 1) = true.
Proof. repeat split. Qed.

Section PatternTheory.

Local Open Scope list_scope.

(** ** Regular expressions *)

Lemma or_else_some {A} (a b : option A) :
  or_else a b <> None <-> a <> None \/ b <> None.
Proof.
  destruct a; cbn; [| tauto].
  split; intros _; [left |]; discriminate.
Qed.

Lemma plus_class_complete p w rest k :
  w <> [] -> forallb p w = true ->
  (forall c, k rest c <> None) ->
  forall c, plus_class p (w ++ rest) c k <> None.
Proof.
  intros Hw Hp Hk. induction w as [| a w IH]; [congruence |].
  intros c. cbn in *. apply andb_true_iff in Hp as [Ha Hp]. rewrite Ha.
  apply or_else_some. destruct w as [| b w].
  - right. apply Hk.
  - left. apply IH; [discriminate | assumption].
Qed.

Lemma rep_class_complete p w rest k :
  forallb p w = true ->
  (forall c, k rest c <> None) ->
  forall c, rep_class (List.length w) p (w ++ rest) c k <> None.
Proof.
  intros Hp Hk. induction w as [| a w IH]; intros c; cbn in *; [apply Hk |].
  apply andb_true_iff in Hp as [Ha Hp]. rewrite Ha. now apply IH.
Qed.

(** The matcher accepts every word of the pattern, whatever follows,
    provided the continuation accepts what follows. *)
Lemma rmatch_complete r w :
  matches r w ->
  forall rest k, (forall c, k rest c <> None) ->
  forall c, rmatch r (w ++ rest) c k <> None.
Proof.
  induction 1 as [a | r1 r2 w1 w2 _ IH1 _ IH2 | r1 r2 w _ IH | r1 r2 w _ IH
                  | r | r w _ IH | p w Hw Hp | n p w Hn Hp | i r w _ IH];
    intros rest k Hk c; cbn [rmatch].
  - cbn. rewrite Ascii.eqb_refl. apply Hk.
  - rewrite <- app_assoc. apply IH1. intros c'. now apply IH2.
  - apply or_else_some. left. now apply IH.
  - apply or_else_some. right. now apply IH.
  - apply or_else_some. right. apply Hk.
  - apply or_else_some. left. now apply IH.
  - now apply plus_class_complete.
  - subst n. now apply rep_class_complete.
  - apply IH. intros c'. apply Hk.
Qed.

Lemma or_else_inv {A} (a b : option A) x :
  or_else a b = Some x -> a = Some x \/ b = Some x.
Proof. destruct a; cbn; intros H; [left | right]; assumption. Qed.

Lemma plus_class_sound p s c k x :
  plus_class p s c k = Some x ->
  exists w rest, s = w ++ rest /\ w <> [] /\ forallb p w = true /\ k rest c = Some x.
Proof.
  revert c. induction s as [| a s IH]; intros c; cbn; [discriminate |].
  destruct (p a) eqn:Ha; [| discriminate].
  intros H. apply or_else_inv in H as [H | H].
  - apply IH in H as (w & rest & -> & Hw & Hp & Hk).
    exists (a :: w), rest. cbn. rewrite Ha, Hp. repeat split; auto. discriminate.
  - exists [a], s. cbn. rewrite Ha. repeat split; auto. discriminate.
Qed.

Lemma rep_class_sound n p : forall s c k x,
  rep_class n p s c k = Some x ->
  exists w rest, s = w ++ rest /\ List.length w = n /\ forallb p w = true
                 /\ k rest c = Some x.
Proof.
  induction n as [| n IH]; intros s c k x; cbn.
  - intros H. exists [], s. auto.
  - destruct s as [| a s]; [discriminate |].
    destruct (p a) eqn:Ha; [| discriminate].
    intros H. apply IH in H as (w & rest & -> & Hw & Hp & Hk).
    exists (a :: w), rest. cbn. rewrite Ha, Hp, Hw. auto.
Qed.

(** What the matcher accepts starts with a word of the pattern, and the
    continuation accepted the rest. *)
Lemma rmatch_sound r : forall s c k x,
  rmatch r s c k = Some x ->
  exists w rest c', s = w ++ rest /\ matches r w /\ k rest c' = Some x.
Proof.
  induction r as [a | r1 IH1 r2 IH2 | r1 IH1 r2 IH2 | r IH | p | n p | i r IH];
    intros s c k x; cbn [rmatch].
  - destruct s as [| b s]; [discriminate |].
    destruct (Ascii.eqb_spec a b) as [<- |]; [| discriminate].
    intros H. exists [a], s, c. repeat split; auto. constructor.
  - intros H. apply IH1 in H as (w1 & rest1 & c1 & -> & H1 & H).
    apply IH2 in H as (w2 & rest & c2 & -> & H2 & H).
    exists (w1 ++ w2), rest, c2. rewrite app_assoc. repeat split; auto.
    now constructor.
  - intros H. apply or_else_inv in H as [H | H].
    + apply IH1 in H as (w & rest & c' & -> & Hm & H).
      exists w, rest, c'. repeat split; auto. now apply matches_alt_left.
    + apply IH2 in H as (w & rest & c' & -> & Hm & H).
      exists w, rest, c'. repeat split; auto. now apply matches_alt_right.
  - intros H. apply or_else_inv in H as [H | H].
    + apply IH in H as (w & rest & c' & -> & Hm & H).
      exists w, rest, c'. repeat split; auto. now apply matches_opt_some.
    + exists [], s, c. repeat split; auto. constructor.
  - intros H. apply plus_class_sound in H as (w & rest & -> & Hw & Hp & H).
    exists w, rest, c. repeat split; auto. now constructor.
  - intros H. apply rep_class_sound in H as (w & rest & -> & Hw & Hp & H).
    exists w, rest, c. repeat split; auto. now constructor.
  - intros H. apply IH in H as (w & rest & c' & -> & Hm & H).
    eexists w, rest, _. repeat split; eauto. now constructor.
Qed.

Lemma test_matches r s :
  test r s = true <-> matches r (list_ascii_of_string s).
Proof.
  unfold test. split.
  - destruct (rmatch r _ [] at_end) as [x|] eqn:H; [| discriminate].
    intros _. apply rmatch_sound in H as (w & rest & c' & Hs & Hm & H).
    destruct rest; [| discriminate]. rewrite app_nil_r in Hs. now rewrite Hs.
  - intros H.
    pose proof (rmatch_complete r _ H [] at_end) as Hc.
    rewrite app_nil_r in Hc.
    assert (Hk : forall c : captures, at_end [] c <> None) by (intros c; discriminate).
    specialize (Hc Hk []).
    destruct (rmatch r _ [] at_end); [reflexivity | congruence].
Qed.

Ltac invert_matches :=
  repeat match goal with
    | H : matches (Chr _) _ |- _ => inversion H; subst; clear H
    | H : matches (Seq _ _) _ |- _ => inversion H; subst; clear H
    | H : matches (Alt _ _) _ |- _ => inversion H; subst; clear H
    | H : matches (Opt _) _ |- _ => inversion H; subst; clear H
    | H : matches (Plus _) _ |- _ => inversion H; subst; clear H
    | H : matches (Rep _ _) _ |- _ => inversion H; subst; clear H
    | H : matches (Grp _ _) _ |- _ => inversion H; subst; clear H
    end.

Lemma matches_re_decimal w : matches re_decimal w <-> decimal w.
Proof.
  unfold re_decimal, decimal, digits. split.
  - intros H. invert_matches.
    + exists w1. rewrite app_nil_r. auto.
    + exists w1. split; [auto |]. right. eexists. split; [| reflexivity]. auto.
  - intros (i & [Hi Hp] & [-> | (f & [Hf Hq] & ->)]).
    + rewrite <- (app_nil_r i). constructor; constructor; auto.
    + constructor; [now constructor |]. constructor.
      change ("."%char :: f) with (["."%char] ++ f).
      constructor; constructor; auto.
Qed.

Lemma matches_re_unit w : matches re_unit w <-> unit_suffix w.
Proof.
  unfold re_unit, unit_suffix. split.
  - intros H. invert_matches; [now left | now right].
  - intros [-> | ->].
    + apply matches_alt_left. change ["c"; "m"]%char with (["c"] ++ ["m"])%char.
      constructor; constructor.
    + apply matches_alt_right. constructor.
Qed.

Lemma matches_spacingPattern w : matches spacingPattern w <-> spacing_format w.
Proof.
  unfold spacingPattern, spacing_format. split.
  - intros H. invert_matches;
      repeat match goal with
        | H : matches re_decimal _ |- _ => apply matches_re_decimal in H
        | H : matches re_unit _ |- _ => apply matches_re_unit in H
        end.
    + match goal with
      | |- exists a u, _ /\ _ /\ (?a0 ++ [] ++ ?u0 = _ \/ _) => exists a0, u0
      end. auto.
    + match goal with
      | |- exists a u, _ /\ _ /\ (?a0 ++ (_ ++ ?b0) ++ ?u0 = _ \/ _) =>
          exists a0, u0; split; [assumption |]; split; [assumption |];
          right; exists b0
      end. auto.
  - intros (a & u & Ha & Hu & [-> | (b & Hb & ->)]);
      apply matches_re_decimal in Ha; apply matches_re_unit in Hu.
    + constructor; [now constructor |].
      change u with ([] ++ u). constructor; [constructor | now constructor].
    + constructor; [now constructor |].
      change ("x"%char :: b ++ u) with (("x"%char :: b) ++ u).
      constructor; [| now constructor].
      constructor. change ("x"%char :: b) with (["x"%char] ++ b).
      apply matches_re_decimal in Hb. constructor; constructor; auto.
Qed.

Lemma matches_colorPattern w : matches colorPattern w <-> hex_color w.
Proof.
  unfold colorPattern, hex_color. split.
  - intros H. invert_matches. eexists. split; [reflexivity | auto].
  - intros (h & -> & Hl & Hp). change ("#"%char :: h) with (["#"%char] ++ h).
    constructor; constructor; auto.
Qed.

Lemma test_spacingPattern s :
  test spacingPattern s = true <-> spacing_format (list_ascii_of_string s).
Proof. rewrite test_matches. apply matches_spacingPattern. Qed.

Lemma test_colorPattern s :
  test colorPattern s = true <-> hex_color (list_ascii_of_string s).
Proof. rewrite test_matches. apply matches_colorPattern. Qed.

End PatternTheory.

(** ** What the validators accept *)

Lemma missing_string_str s : missing "string" (VStr s) = (s =? EmptyString).
Proof.
  unfold missing, not_a. cbn. rewrite orb_false_r. apply negb_involutive.
Qed.

(** X1.  The spacing pattern of [validatePlant] accepts exactly the strings
    made of a decimal number (digits, optionally a point and more digits),
    optionally [x] and a second decimal number, and then the unit [cm] or
    [m]; nothing may come before or after. *)
Theorem spacingPattern_accepts_exactly_the_formats s :
  test spacingPattern s = true <-> spacing_format (list_ascii_of_string s).
Proof. rewrite test_matches. apply matches_spacingPattern. Qed.

(** X2.  The colour pattern of the catalogue validators accepts exactly the
    strings made of [#] and six hexadecimal digits, in either case. *)
Theorem colorPattern_accepts_exactly_hex_colors s :
  test colorPattern s = true <-> hex_color (list_ascii_of_string s).
Proof. rewrite test_matches. apply matches_colorPattern. Qed.

Lemma Qlt_bool_iff a b : Qlt_bool a b = true <-> (a < b)%Q.
Proof.
  unfold Qlt_bool. rewrite negb_true_iff. split.
  - intros H. apply Qnot_le_lt. intros Hle. apply Qle_bool_iff in Hle. congruence.
  - intros H. destruct (Qle_bool b a) eqn:E; [| reflexivity].
    apply Qle_bool_iff in E. exfalso. now apply (Qlt_not_le a b).
Qed.

Lemma length_gt_100 s :
  gt_num (VNum (of_nat (String.length s))) (of_Z 100) = true
  <-> (100 < String.length s)%nat.
Proof.
  cbn. rewrite Qlt_bool_iff. unfold Qlt. cbn. lia.
Qed.

Lemma length_check s :
  gt_num (VNum (of_nat (String.length s))) (of_Z 100) = false
  <-> (String.length s <= 100)%nat.
Proof.
  pose proof (length_gt_100 s) as H.
  destruct (gt_num _ _) eqn:E.
  - assert (100 < String.length s)%nat by now apply H. split; [discriminate | lia].
  - split; [intros _ | reflexivity].
    destruct (Nat.le_gt_cases (String.length s) 100) as [Hle | Hgt]; [assumption |].
    apply H in Hgt. discriminate.
Qed.

Lemma empty_string_spec s : (s =? EmptyString) = false <-> s <> EmptyString.
Proof. destruct (String.eqb_spec s EmptyString); split; congruence. Qed.

Lemma spacing_format_nonempty w : spacing_format w -> w <> [].
Proof.
  intros (a & u & (i & [Hi _] & Ha) & _ & H) ->.
  assert (a <> []).
  { destruct Ha as [-> | (f & _ & ->)]; [assumption |].
    destruct i; [congruence | discriminate]. }
  destruct H as [H | (b & _ & H)]; destruct a; try congruence; discriminate.
Qed.

Lemma list_ascii_nonempty s : list_ascii_of_string s <> [] -> s <> EmptyString.
Proof. intros H ->. now apply H. Qed.

Lemma validatePlant_iff p :
  validatePlant (js_of_plant p) = Ok valid <-> plant_ok p.
Proof.
  unfold validatePlant, js_of_plant, plant_ok, name_ok.
  change (missing "object" (VObj ?o)) with false. cbv iota.
  cbn [get lookup rbind String.eqb Ascii.eqb Bool.eqb].
  rewrite !missing_string_str. cbn [test_value].
  rewrite <- test_spacingPattern,
          <- test_colorPattern.
  rewrite <- !empty_string_spec, <- length_check.
  destruct (plant_id p =? EmptyString); [split; [discriminate | intuition discriminate] |].
  destruct (plant_name p =? EmptyString); [split; [discriminate | intuition discriminate] |].
  destruct (gt_num _ _); [split; [discriminate | intuition discriminate] |].
  destruct (plant_spacing p =? EmptyString) eqn:Es.
  { split; [discriminate |]. intros (_ & _ & H & _). exfalso.
    apply String.eqb_eq in Es. rewrite Es in H. discriminate H. }
  destruct (test spacingPattern _); cbn [negb];
    [| split; [discriminate | intuition discriminate]].
  destruct (plant_category p =? EmptyString); [split; [discriminate | intuition discriminate] |].
  destruct (plant_color p =? EmptyString) eqn:Ec.
  { split; [discriminate |]. intros (_ & _ & _ & _ & H). exfalso.
    apply String.eqb_eq in Ec. rewrite Ec in H. discriminate H. }
  destruct (test colorPattern _); cbn [negb];
    [| split; [discriminate | intuition discriminate]].
  intuition.
Qed.

(** X3.  [validatePlant] accepts a plant exactly when its id and category
    are not empty, its name is not empty and has at most 100 characters,
    its spacing is in one of the spacing formats and its colour is a hex
    colour. *)
Theorem validatePlant_accepts_exactly p :
  validatePlant (js_of_plant p) = Ok valid <-> plant_ok p.
Proof. destruct (validatePlant_iff p) as [H1 H2]. split; assumption. Qed.

Lemma range_check lo hi n :
  lt_num (VNum n) (Fin lo) || gt_num (VNum n) (Fin hi) = false <-> within lo hi n.
Proof.
  unfold within. destruct n as [q | | |]; cbn.
  - rewrite orb_false_iff. unfold Qlt_bool. rewrite !negb_false_iff, !Qle_bool_iff.
    split.
    + intros [H1 H2]. right. eauto.
    + intros [H | (q' & [= <-] & H1 & H2)]; [discriminate | auto].
  - split; auto.
  - split; [discriminate |]. intros [H | (q & H & _)]; discriminate.
  - split; [discriminate |]. intros [H | (q & H & _)]; discriminate.
Qed.

Lemma hex_color_nonempty s :
  hex_color (list_ascii_of_string s) -> (s =? EmptyString) = false.
Proof.
  intros (h & H & _). destruct s; [discriminate | reflexivity].
Qed.

Ltac refuse :=
  split; [discriminate | intuition discriminate].

Lemma validateTerrain_iff t :
  validateTerrain (js_of_terrain t) = Ok valid <-> terrain_ok t.
Proof.
  unfold validateTerrain, js_of_terrain, terrain_ok, name_ok.
  destruct t as [id name cat color bt]. cbn [terrain_id terrain_name terrain_category
    terrain_color terrain_brushThickness present].
  change (missing "object" (VObj ?o)) with false. cbv iota.
  cbn [get lookup rbind String.eqb Ascii.eqb Bool.eqb].
  rewrite !missing_string_str. cbn [test_value].
  rewrite <- test_colorPattern.
  rewrite <- !empty_string_spec, <- length_check.
  destruct (id =? EmptyString); [refuse |].
  destruct (name =? EmptyString); [refuse |].
  destruct (gt_num _ _); [refuse |].
  destruct (cat =? EmptyString); [refuse |].
  destruct (test colorPattern color) eqn:Ec.
  2:{ destruct (color =? EmptyString); refuse. }
  rewrite (hex_color_nonempty color)
    by now apply test_colorPattern.
  cbn [negb]. destruct bt as [n |]; cbn [option_map lookup String.eqb Ascii.eqb Bool.eqb].
  - cbn [is_undefined negb andb not_a typeof String.eqb Ascii.eqb Bool.eqb orb].
    change (of_Z 1) with (Fin 1). change (of_Z 100) with (Fin 100).
    rewrite <- range_check.
    destruct (_ || _); [refuse | intuition].
  - cbn. intuition.
Qed.

(** X4.  [validateTerrain] accepts a terrain exactly when its id and
    category are not empty, its name is not empty and has at most 100
    characters, its colour is a hex colour, and its brush thickness, when
    given, is between 1 and 100 or is NaN. *)
Theorem validateTerrain_accepts_exactly t :
  validateTerrain (js_of_terrain t) = Ok valid <-> terrain_ok t.
Proof. destruct (validateTerrain_iff t) as [H1 H2]. split; assumption. Qed.

(** X5.  [validateStructure] accepts a structure exactly when its id and
    category are not empty, its name is not empty and has at most 100
    characters, its width and height are each between 0.1 and 100 (both
    ends included) or NaN, and its colour is a hex colour. *)
Theorem validateStructure_accepts_exactly s :
  validateStructure (js_of_structure s) = Ok valid <-> structure_ok s.
Proof.
  unfold validateStructure, js_of_structure, js_of_size, structure_ok, name_ok.
  destruct s as [id name cat color [w h]]. cbn [structure_id structure_name
    structure_category structure_color structure_size sz_width sz_height].
  change (missing "object" (VObj ?o)) with false. cbv iota.
  cbn [get lookup rbind String.eqb Ascii.eqb Bool.eqb].
  change (missing "object" (VObj ?o)) with false. cbv iota.
  cbn [get lookup rbind String.eqb Ascii.eqb Bool.eqb].
  rewrite !missing_string_str. cbn [test_value].
  rewrite <- test_colorPattern.
  rewrite <- !empty_string_spec, <- length_check.
  change (of_Z 100) with (Fin 100). rewrite <- !range_check.
  cbn [not_a typeof String.eqb Ascii.eqb Bool.eqb negb orb].
  destruct (id =? EmptyString); [refuse |].
  destruct (name =? EmptyString); [refuse |].
  destruct (gt_num _ _); [refuse |].
  destruct (cat =? EmptyString); [refuse |].
  destruct (lt_num (VNum w) _ || _); [refuse |].
  destruct (lt_num (VNum h) _ || _); [refuse |].
  destruct (test colorPattern color) eqn:Ec.
  2:{ destruct (color =? EmptyString); refuse. }
  rewrite (hex_color_nonempty color)
    by now apply test_colorPattern.
  cbn. intuition.
Qed.

Lemma abs_check q :
  abs_gt (VNum (Fin q)) (of_Z 100000) = false <-> (Qabs q <= 100000)%Q.
Proof.
  cbn. unfold Qlt_bool. now rewrite negb_false_iff, Qle_bool_iff.
Qed.

Lemma bad_dimension_spec o :
  bad_dimension (match option_map VNum o with Some v => v | None => VUndefined end)
  = false
  <-> dimension_absent_or_ok o.
Proof.
  destruct o as [[q | | |] |]; cbn.
  - unfold Qlt_bool. rewrite orb_false_r, negb_false_iff, Qle_bool_iff.
    split; [eauto |]. now intros (q' & [= <-] & H).
  - split; [discriminate | intros (q & H & _); discriminate].
  - split; [discriminate | intros (q & H & _); discriminate].
  - split; [discriminate | intros (q & H & _); discriminate].
  - tauto.
Qed.

Lemma rejected_not_valid r : rejected r -> r <> Ok valid.
Proof. intros (msg & _ & ->). discriminate. Qed.

Lemma nested_valid (r k : result ValidationResult) :
  reports r ->
  ((pv <- r ;; if negb (isValid pv) then Ok pv else k)%js = Ok valid
   <-> r = Ok valid /\ k = Ok valid).
Proof.
  intros [-> | (msg & _ & ->)]; cbn; [tauto |].
  split; [discriminate | intros [H _]; discriminate].
Qed.

Lemma plant_part t pl :
  (if is_string (VStr (type_name t)) "plant" && truthy (undefined_or js_of_plant pl)
   then validatePlant (undefined_or js_of_plant pl) else Ok valid) = Ok valid
  <-> (t = TPlant -> forall p, pl = Some p -> plant_ok p).
Proof.
  destruct t, pl as [p |]; cbn -[validatePlant js_of_plant]; unfold undefined_or;
    cbn [option_map]; try (split; [intros _ H; discriminate H | reflexivity]).
  - change (truthy (js_of_plant p)) with true. cbv iota.
    rewrite validatePlant_iff. split.
    + now intros H _ p' [= <-].
    + intros H. now apply H.
  - split; [| reflexivity]. intros _ _ p H. discriminate H.
Qed.

Lemma terrain_part t te :
  (if is_string (VStr (type_name t)) "terrain" && truthy (undefined_or js_of_terrain te)
   then validateTerrain (undefined_or js_of_terrain te) else Ok valid) = Ok valid
  <-> (t = TTerrain -> forall p, te = Some p -> terrain_ok p).
Proof.
  destruct t, te as [p |]; cbn -[validateTerrain js_of_terrain]; unfold undefined_or;
    cbn [option_map]; try (split; [intros _ H; discriminate H | reflexivity]).
  - change (truthy (js_of_terrain p)) with true. cbv iota.
    rewrite validateTerrain_iff. split.
    + now intros H _ p' [= <-].
    + intros H. now apply H.
  - split; [| reflexivity]. intros _ _ p H. discriminate H.
Qed.

Lemma bad_dimension_spec' o :
  bad_dimension (undefined_or VNum o) = false <-> dimension_absent_or_ok o.
Proof. apply bad_dimension_spec. Qed.

Lemma rotation_check rot :
  negb (is_undefined (undefined_or VNum rot))
  && (not_a "number" (undefined_or VNum rot) || negb (is_finite (undefined_or VNum rot)))
  = false <-> rotation_absent_or_finite rot.
Proof.
  destruct rot as [[q | | |] |]; cbn; split; auto; discriminate.
Qed.

Lemma shape_part t w h r rot :
  t <> TStructure ->
  ((let shaped :=
      is_string (VStr (type_name t)) "rectangle"
      || is_string (VStr (type_name t)) "circle"
      || is_string (VStr (type_name t)) "terrain" in
    reject shaped && bad_dimension (undefined_or VNum w)
      saying "Element width must be a valid positive number" ;;
    reject shaped && bad_dimension (undefined_or VNum h)
      saying "Element height must be a valid positive number" ;;
    reject shaped && bad_dimension (undefined_or VNum r)
      saying "Element radius must be a valid positive number" ;;
    reject negb (is_undefined (undefined_or VNum rot))
           && (not_a "number" (undefined_or VNum rot)
               || negb (is_finite (undefined_or VNum rot)))
      saying "Element rotation must be a valid number" ;;
    Ok valid)%js = Ok valid
   <-> (t <> TPlant ->
        dimension_absent_or_ok w /\ dimension_absent_or_ok h
        /\ dimension_absent_or_ok r)
       /\ rotation_absent_or_finite rot).
Proof.
  intros Hns. cbv zeta.
  rewrite <- !bad_dimension_spec', <- rotation_check.
  destruct t; try congruence;
    cbn [is_string type_name String.eqb Ascii.eqb Bool.eqb orb andb].
  - destruct (negb _ && _); [refuse |]. split; [| reflexivity].
    intros _. split; [congruence | reflexivity].
  - destruct (bad_dimension _);
      [split; [discriminate | intros [H _]; destruct H as (H & _); [| discriminate H];
                              discriminate] |].
    destruct (bad_dimension _);
      [split; [discriminate | intros [H _]; destruct H as (_ & H & _); [| discriminate H];
                              discriminate] |].
    destruct (bad_dimension _);
      [split; [discriminate | intros [H _]; destruct H as (_ & _ & H); [| discriminate H];
                              discriminate] |].
    destruct (negb _ && _); [refuse |]. split; [| reflexivity]. auto.
  - destruct (bad_dimension _);
      [split; [discriminate | intros [H _]; destruct H as (H & _); [| discriminate H];
                              discriminate] |].
    destruct (bad_dimension _);
      [split; [discriminate | intros [H _]; destruct H as (_ & H & _); [| discriminate H];
                              discriminate] |].
    destruct (bad_dimension _);
      [split; [discriminate | intros [H _]; destruct H as (_ & _ & H); [| discriminate H];
                              discriminate] |].
    destruct (negb _ && _); [refuse |]. split; [| reflexivity]. auto.
  - destruct (bad_dimension _);
      [split; [discriminate | intros [H _]; destruct H as (H & _); [| discriminate H];
                              discriminate] |].
    destruct (bad_dimension _);
      [split; [discriminate | intros [H _]; destruct H as (_ & H & _); [| discriminate H];
                              discriminate] |].
    destruct (bad_dimension _);
      [split; [discriminate | intros [H _]; destruct H as (_ & _ & H); [| discriminate H];
                              discriminate] |].
    destruct (negb _ && _); [refuse |]. split; [| reflexivity]. auto.
Qed.

(** X6.  [validateDrawingElement] accepts a typed element exactly when its
    id is neither 0 nor NaN, its type is not [structure], its coordinates
    are finite and at most 100000 in absolute value, its plant (for a plant
    element) or terrain (for a terrain element) passes its own validator,
    its width, height and radius, for every type but plant, are absent or
    finite and not negative, and its rotation is absent or finite. *)
Theorem validateDrawingElement_accepts_exactly e :
  validateDrawingElement (js_of_element e) = Ok valid <-> element_ok e.
Proof.
  unfold validateDrawingElement.
  change (missing "object" (js_of_element e)) with false. cbv iota.
  rewrite !get_js_of_element. unfold element_fields, element_ok.
  cbn [assoc String.eqb Ascii.eqb Bool.eqb rbind].
  destruct e as [id t x y w h r rot pl te st rw rh bt tx pp sm bth sel].
  cbn [el_id el_type el_x el_y el_width el_height el_radius el_rotation el_plant
       el_terrain].
  fold (undefined_or VNum w) (undefined_or VNum h) (undefined_or VNum r)
       (undefined_or VNum rot) (undefined_or js_of_plant pl)
       (undefined_or js_of_terrain te).
  unfold missing at 1. cbn [truthy not_a typeof String.eqb Ascii.eqb Bool.eqb negb orb].
  rewrite orb_false_r.
  destruct (num_truthy id); cbn [negb]; [| refuse].
  assert (Ht : missing "string" (VStr (type_name t)) = false) by now destruct t.
  rewrite Ht.
  destruct (includes validTypes (VStr (type_name t))) eqn:Ety; cbn [negb].
  2:{ destruct t; try discriminate Ety. split; [discriminate |]. intuition congruence. }
  assert (Hns : t <> TStructure) by (intros ->; discriminate Ety).
  unfold coordinate_ok.
  destruct x as [qx | | |]; cbn [is_finite isFinite negb];
    try (split; [discriminate | intros (_ & _ & (q & H & _) & _); discriminate]).
  destruct y as [qy | | |]; cbn [is_finite isFinite negb];
    try (split; [discriminate | intros (_ & _ & _ & (q & H & _) & _); discriminate]).
  pose proof (abs_check qx) as Hx. pose proof (abs_check qy) as Hy.
  destruct (abs_gt (VNum (Fin qx)) _).
  { split; [discriminate |]. intros (_ & _ & (q & [= <-] & H) & _).
    apply Hx in H. discriminate. }
  destruct (abs_gt (VNum (Fin qy)) _).
  { split; [discriminate |]. intros (_ & _ & _ & (q & [= <-] & H) & _).
    apply Hy in H. discriminate. }
  cbn [orb].
  assert (Cx : exists q, Fin qx = Fin q /\ (Qabs q <= 100000)%Q)
    by (exists qx; split; [reflexivity | now apply Hx]).
  assert (Cy : exists q, Fin qy = Fin q /\ (Qabs q <= 100000)%Q)
    by (exists qy; split; [reflexivity | now apply Hy]).
  rewrite nested_valid.
  2:{ destruct (_ && _); [apply validatePlant_reports | now left]. }
  rewrite nested_valid.
  2:{ destruct (_ && _); [apply validateTerrain_reports | now left]. }
  rewrite plant_part, terrain_part, (shape_part t w h r rot Hns).
  tauto.
Qed.

Lemma validateCanvasSize_iff env v :
  validateCanvasSize env v no_options = Ok valid
  <-> exists o qw qh,
        v = VObj o
        /\ lookup "width" o = Some (VNum (Fin qw))
        /\ lookup "height" o = Some (VNum (Fin qh))
        /\ (1 <= qw)%Q /\ (qw <= 200)%Q /\ (1 <= qh)%Q /\ (qh <= 200)%Q.
Proof.
  unfold validateCanvasSize. cbv zeta.
  cbn [spread DEFAULT_VALIDATION_OPTIONS no_options minCanvasSize maxCanvasSize over
       non_null rbind sz_width sz_height].
  split.
  - destruct (missing "object" v) eqn:E; [discriminate |].
    apply missing_object_inv in E as [[l ->] | [o ->]]; [intros H; cbv in H; discriminate H |].
    cbn [get rbind].
    destruct (lookup "width" o) as [[ | | | [qw | | |] | | | ] |] eqn:Lw;
      try (intros H; cbv in H; discriminate H).
    destruct (lookup "height" o) as [[ | | | [qh | | |] | | | ] |] eqn:Lh;
      try (intros H; cbv in H; discriminate H).
    cbn [not_a typeof String.eqb Ascii.eqb Bool.eqb negb orb is_finite isFinite].
    pose proof (range_check 1 200 (Fin qw)) as Hw.
    pose proof (range_check 1 200 (Fin qh)) as Hh.
    change (of_Z 1) with (Fin 1). change (of_Z 200) with (Fin 200).
    destruct (lt_num (VNum (Fin qw)) _ || _); [discriminate |].
    destruct (lt_num (VNum (Fin qh)) _ || _); [discriminate |].
    intros _. exists o, qw, qh.
    destruct (proj1 Hw eq_refl) as [H | (q & [= <-] & H1 & H2)]; [discriminate |].
    destruct (proj1 Hh eq_refl) as [H | (q & [= <-] & H3 & H4)]; [discriminate |].
    repeat split; auto.
  - intros (o & qw & qh & -> & Hw & Hh & H1 & H2 & H3 & H4).
    change (missing "object" (VObj o)) with false. cbv iota.
    cbn [get rbind]. rewrite Hw, Hh.
    cbn [not_a typeof String.eqb Ascii.eqb Bool.eqb negb orb is_finite isFinite].
    change (of_Z 1) with (Fin 1). change (of_Z 200) with (Fin 200).
    rewrite (proj2 (range_check 1 200 (Fin qw))) by (right; eauto).
    rewrite (proj2 (range_check 1 200 (Fin qh))) by (right; eauto).
    reflexivity.
Qed.

(** X7.  With the default options [validateCanvasSize] accepts exactly the
    objects whose width and height are finite numbers between 1 and 200,
    both ends included. *)
Theorem validateCanvasSize_default_bounds env v :
  validateCanvasSize env v no_options = Ok valid
  <-> exists o qw qh,
        v = VObj o
        /\ lookup "width" o = Some (VNum (Fin qw))
        /\ lookup "height" o = Some (VNum (Fin qh))
        /\ (1 <= qw)%Q /\ (qw <= 200)%Q /\ (1 <= qh)%Q /\ (qh <= 200)%Q.
Proof. destruct (validateCanvasSize_iff env v) as [H1 H2]. split; assumption. Qed.

Lemma validate_each_valid env l : forall i,
  validate_each env i l = Ok valid <-> Forall element_valid l.
Proof.
  induction l as [| e l IH]; intros i; cbn [validate_each].
  - split; [constructor | reflexivity].
  - unfold element_valid at 1.
    destruct (validateDrawingElement_reports e) as [H | (msg & Hm & H)]; rewrite H;
      cbn [rbind isValid valid invalid negb].
    + rewrite IH. split; [now constructor | now inversion 1].
    + split; [discriminate |]. inversion 1 as [| ? ? He]. unfold element_valid in He.
      rewrite H in He. discriminate He.
Qed.

(** The loop stops at the first element that fails and reports its index
    and its error. *)
Lemma validate_each_first_failure env l1 e l2 msg : forall i,
  Forall element_valid l1 ->
  validateDrawingElement e = Ok (invalid msg) ->
  validate_each env i (l1 ++ e :: l2)
  = Ok (invalid ("Element at index "
                 ++ Number_toString env (of_nat (i + List.length l1)) ++ ": " ++ msg)).
Proof.
  induction l1 as [| a l1 IH]; intros i Hl He; cbn [app validate_each List.length].
  - rewrite He. cbn. now rewrite Nat.add_0_r.
  - inversion Hl as [| ? ? Ha Hl']; subst. rewrite Ha. cbn [rbind isValid valid negb].
    rewrite IH by assumption. now rewrite Nat.add_succ_r.
Qed.

Lemma max_elements_spread options :
  to_number (maxElements (spread DEFAULT_VALIDATION_OPTIONS options))
  = effective_max options.
Proof. unfold effective_max. cbn. now destruct (maxElements options). Qed.

Lemma validateElementsArray_iff env v options :
  validateElementsArray env v options = Ok valid
  <-> exists l, v = VArr l
                /\ num_gt (of_nat (List.length l)) (effective_max options) = false
                /\ Forall element_valid l.
Proof.
  unfold validateElementsArray. cbv zeta. rewrite max_elements_spread.
  destruct v as [ | | b | n | s | l | o];
    try (split; [discriminate | intros (l' & H & _); discriminate]).
  destruct (num_gt _ _) eqn:E.
  - split; [discriminate |]. intros (l' & [= <-] & H & _). congruence.
  - rewrite validate_each_valid. split; [eauto |]. now intros (l' & [= <-] & _ & H).
Qed.

(** X8.  [validateElementsArray] accepts exactly the arrays whose length
    is not greater than the element limit in force and whose elements all
    pass [validateDrawingElement].  The limit is [options.maxElements] when
    that is a number and 1000 when the option is absent; when the option is
    present as [undefined] the comparison is with NaN and no array is too
    long; when it is [null] the comparison is with 0. *)
Theorem validateElementsArray_accepts_exactly env v options :
  validateElementsArray env v options = Ok valid
  <-> exists l, v = VArr l
                /\ num_gt (of_nat (List.length l)) (effective_max options) = false
                /\ Forall element_valid l.
Proof. destruct (validateElementsArray_iff env v options) as [H1 H2]. split; assumption. Qed.

Lemma validateElementsArray_without_limit env v options :
  maxElements options = Undefined ->
  validateElementsArray env v options = Ok valid
  <-> exists l, v = VArr l /\ Forall element_valid l.
Proof.
  intros Hu. rewrite validateElementsArray_iff. unfold effective_max. rewrite Hu.
  split.
  - intros (l & -> & _ & Hl). eauto.
  - intros (l & -> & Hl). exists l. split; [reflexivity |]. split; [| exact Hl].
    reflexivity.
Qed.

(** X9.  For an array within the element limit, [validateElementsArray]
    reports the first element that fails [validateDrawingElement]: the
    error is that element's error, prefixed by its index. *)
Theorem validateElementsArray_reports_first_failure env options l1 e l2 msg :
  num_gt (of_nat (List.length (l1 ++ e :: l2))) (effective_max options) = false ->
  Forall element_valid l1 ->
  validateDrawingElement e = Ok (invalid msg) ->
  validateElementsArray env (VArr (l1 ++ e :: l2)) options
  = Ok (invalid ("Element at index "
                 ++ Number_toString env (of_nat (List.length l1)) ++ ": " ++ msg)).
Proof.
  intros Hn Hl He. unfold validateElementsArray. cbv zeta.
  rewrite max_elements_spread, Hn.
  now rewrite (validate_each_first_failure env l1 e l2 msg 0 Hl He).
Qed.

Lemma validateElementsArray_reports_first_failure_witness :
  Forall element_valid [small_circle]
  /\ validateDrawingElement VNull = Ok (invalid "Invalid element data")
  /\ validateElementsArray sample_host (VArr [small_circle; VNull]) no_options
     = Ok (invalid "Element at index 1: Invalid element data").
Proof.
  assert (H : Forall element_valid [small_circle]) by (repeat constructor).
  split; [exact H |]. split; [reflexivity |].
  exact (validateElementsArray_reports_first_failure sample_host no_options
           [small_circle] VNull [] "Invalid element data" eq_refl H eq_refl).
Defined.

Lemma validateElementsArray_too_many env options l :
  num_gt (of_nat (List.length l)) (effective_max options) = true ->
  validateElementsArray env (VArr l) options
  = Ok (invalid ("Maximum "
                 ++ limit_text env (maxElements (spread DEFAULT_VALIDATION_OPTIONS options))
                 ++ " elements allowed")).
Proof.
  intros Hn. unfold validateElementsArray. cbv zeta.
  now rewrite max_elements_spread, Hn.
Qed.

Lemma no_options_usable : bounds_usable no_options.
Proof. split; reflexivity. Qed.

Lemma validateCanvasState_run env elements canvasSize options :
  bounds_usable options ->
  exists sizeValidation,
    validateCanvasSize env canvasSize options = Ok sizeValidation
    /\ validateCanvasState env elements canvasSize options
       = if isValid sizeValidation
         then validateElementsArray env elements options
         else Ok sizeValidation.
Proof.
  intros Hb. unfold validateCanvasState.
  destruct (validateCanvasSize_reports env canvasSize options Hb) as [H | (msg & _ & H)];
    rewrite H; eexists; (split; [reflexivity |]); cbn; [| reflexivity].
  destruct (validateElementsArray_reports env elements options) as [H' | (msg & _ & H')];
    rewrite H'; reflexivity.
Qed.

(** X10.  With the default options [validateCanvasState] accepts exactly
    when [validateCanvasSize] accepts the canvas size and the elements are
    an array of at most 1000 elements that all pass
    [validateDrawingElement]. *)
Theorem validateCanvasState_accepts_exactly env elements canvasSize :
  validateCanvasState env elements canvasSize no_options = Ok valid
  <-> validateCanvasSize env canvasSize no_options = Ok valid
      /\ exists l, elements = VArr l
                   /\ (List.length l <= 1000)%nat
                   /\ Forall element_valid l.
Proof.
  destruct (validateCanvasState_run env elements canvasSize no_options
              no_options_usable)
    as (sv & Hs & Hc).
  rewrite Hc, Hs.
  assert (Hn : forall l : list value,
             num_gt (of_nat (List.length l)) (effective_max no_options) = false
             <-> (List.length l <= 1000)%nat).
  { intros l. cbn. unfold Qlt_bool. rewrite negb_false_iff, Qle_bool_iff.
    unfold Qle. cbn. lia. }
  destruct sv as [[|] e]; cbn [isValid].
  - rewrite validateElementsArray_iff. split.
    + intros (l & -> & Hl & Hf). split.
      * destruct (validateCanvasSize_reports env canvasSize no_options
                    no_options_usable)
          as [H | (msg & _ & H)]; rewrite H in Hs; [now symmetry | discriminate Hs].
      * exists l. rewrite <- Hn. auto.
    + intros (_ & l & -> & Hl & Hf). exists l. rewrite Hn. auto.
  - split; [discriminate |]. intros (H & _). discriminate H.
Qed.

(** ** The structural check and the current project *)

Lemma validateProjectData_iff v :
  validateProjectData v = Ok true <-> project_shape v.
Proof.
  unfold validateProjectData, project_shape. split.
  - destruct (missing "object" v) eqn:E; [discriminate |].
    apply missing_object_inv in E as [[l ->] | [o ->]]; [discriminate |].
    cbn [has_all has_property rbind get].
    destruct (lookup "version" o) eqn:Lv; [| discriminate].
    destruct (lookup "timestamp" o) as [ts |] eqn:Lt; [| discriminate].
    destruct (lookup "canvasSize" o) as [cs |] eqn:Lc; [| discriminate].
    destruct (lookup "elements" o) as [els |] eqn:Le; [| discriminate].
    destruct (lookup "selectedTool" o) eqn:Ls; [| discriminate].
    cbn [negb rbind].
    destruct (missing "object" cs) eqn:E; [discriminate |].
    apply missing_object_inv in E as [[l ->] | [c ->]]; cbn [rbind get]; [discriminate |].
    destruct (lookup "width" c) as [[ | | | w | | | ] |] eqn:Lw; try discriminate.
    destruct (lookup "height" c) as [[ | | | h | | | ] |] eqn:Lh; try discriminate.
    cbn [not_a typeof String.eqb Ascii.eqb Bool.eqb negb orb].
    destruct els; try discriminate. cbn [Array_isArray negb].
    destruct ts as [ | | | n | | | ]; try discriminate.
    cbn [not_a typeof String.eqb Ascii.eqb Bool.eqb negb orb le_num].
    destruct (num_le n (of_Z 0)) eqn:En; [discriminate |].
    intros _. exists o. split; [reflexivity |]. split; [congruence |].
    split; [congruence |]. split; [exists c, w, h; auto |].
    split; [eexists; exact Le |]. exists n. auto.
  - intros (o & -> & Hv & Hs & (c & w & h & Hc & Hw & Hh) & (es & He) & (n & Ht & Hn)).
    change (missing "object" (VObj o)) with false. cbv iota.
    cbn [has_all has_property rbind get].
    destruct (lookup "version" o); [| congruence].
    destruct (lookup "selectedTool" o); [| congruence].
    rewrite Ht, Hc, He. cbn [negb rbind].
    change (missing "object" (VObj c)) with false. cbv iota.
    cbn [get rbind]. rewrite Hw, Hh. cbn. now rewrite Hn.
Qed.

Ltac shape :=
  repeat first [discriminate | reflexivity | split | eexists].

(** X11.  [validateProjectData] returns [true] exactly on the objects that
    have the properties [version] and [selectedTool], an object
    [canvasSize] whose [width] and [height] are numbers, an array
    [elements] and a number [timestamp] that is not [<= 0]; it looks at
    nothing else, [metadata] included, and lets NaN and infinite numbers
    through. *)
Theorem validateProjectData_accepts_exactly v :
  validateProjectData v = Ok true <-> project_shape v.
Proof. destruct (validateProjectData_iff v) as [H1 H2]. split; assumption. Qed.

Lemma getCurrentProject_checked w :
  exists r,
    getCurrentProject w = (Ok r, w)
    /\ forall p, r = Some p
                 <-> localStorage w STORAGE_KEYS.CURRENT_PROJECT = Some (JsonText p)
                     /\ project_shape p.
Proof.
  unfold getCurrentProject, try_catch, bind, getItem, lift, ret.
  destruct (localStorage w STORAGE_KEYS.CURRENT_PROJECT) as [[v | s] |].
  - cbn [text_truthy negb JSON_parse].
    destruct (validateProjectData_total v) as [[|] Hv]; rewrite Hv; cbn [negb].
    + eexists. split; [reflexivity |]. intros p. split.
      * intros [= <-]. split; [reflexivity |]. now apply validateProjectData_iff.
      * now intros [[= <-] _].
    + eexists. split; [reflexivity |]. intros p. split; [discriminate |].
      intros [[= <-] H]. apply validateProjectData_iff in H. congruence.
  - cbn [text_truthy JSON_parse]. destruct (negb _); eexists; (split; [reflexivity |]);
      intros p; (split; [discriminate | intros [H _]; discriminate H]).
  - eexists. split; [reflexivity |]. intros p. split; [discriminate | intros [H _]; discriminate H].
Qed.

(** X12.  [getCurrentProject] never throws and never writes; it returns a
    project exactly when the current-project slot holds JSON text whose
    value passes the structural check, and then it returns that value. *)
Theorem getCurrentProject_returns_checked_projects w :
  exists r,
    getCurrentProject w = (Ok r, w)
    /\ forall p, r = Some p
                 <-> localStorage w STORAGE_KEYS.CURRENT_PROJECT = Some (JsonText p)
                     /\ project_shape p.
Proof. destruct (getCurrentProject_checked w) as (r & H); now exists r. Qed.

Lemma write_read key t s : write key t s key = Some t.
Proof. unfold write. now rewrite String.eqb_refl. Qed.

Lemma write_read_other k key t s : k <> key -> write key t s k = s k.
Proof. unfold write. intros H. now destruct (String.eqb_spec k key). Qed.

Ltac distinct_keys := let H := fresh in intros H; cbv in H; discriminate H.

Lemma saveCurrentProject_succeeds env w props meta :
  argument w = VObj props ->
  project_shape (VObj props) ->
  lookup "metadata" props = Some (VObj meta) ->
  storage_available env ->
  exists es,
    lookup "elements" props = Some (VArr es)
    /\ saveCurrentProject env w
       = (Ok true,
          {| localStorage :=
               write STORAGE_KEYS.LAST_SAVE (number_text (Date_now env))
                 (write STORAGE_KEYS.CURRENT_PROJECT
                    (JsonText (jsonify (VObj (saved_project env props meta es))))
                    (localStorage w));
             argument := VObj (saved_project env props meta es) |}).
Proof.
  intros Hp Hs Hm Ha.
  pose proof (proj2 (validateProjectData_iff _) Hs) as Hv.
  destruct (validateProjectData_true _ Hv) as (props' & es & [= <-] & He).
  exists es. split; [assumption |].
  rewrite (saveCurrentProject_run env w props meta es Hp Hv Hm He). cbv zeta.
  now rewrite !Ha.
Qed.

Lemma lookup_saved env props meta es k :
  k <> "lastModified" -> k <> "metadata" ->
  lookup k (saved_project env props meta es) = lookup k props.
Proof.
  intros H1 H2. unfold saved_project. now rewrite !lookup_assign_other.
Qed.

(** X13.  On a storage that takes the writes, saving a project that passes
    the structural check, has a [metadata] object, and whose required
    fields survive JSON (version and tool not [undefined], canvas size and
    time stamp finite) returns [true], and [getCurrentProject] then returns
    the JSON image of the caller's object as the save left it. *)
Theorem save_then_getCurrentProject env w props meta :
  argument w = VObj props ->
  project_shape (VObj props) ->
  lookup "metadata" props = Some (VObj meta) ->
  survives_json props ->
  storage_available env ->
  fst (saveCurrentProject env w) = Ok true
  /\ getCurrentProject (snd (saveCurrentProject env w))
     = (Ok (Some (jsonify (argument (snd (saveCurrentProject env w))))),
        snd (saveCurrentProject env w)).
Proof.
  intros Hp Hs Hm Hj Ha.
  destruct (saveCurrentProject_succeeds env w props meta Hp Hs Hm Ha) as (es & He & ->).
  cbn [fst snd argument]. split; [reflexivity |].
  unfold getCurrentProject, try_catch, bind, getItem, lift. cbn [localStorage].
  rewrite write_read_other by distinct_keys. rewrite write_read.
  cbn [text_truthy negb JSON_parse].
  assert (Hv : validateProjectData (jsonify (VObj (saved_project env props meta es)))
               = Ok true).
  { apply validateProjectData_iff.
    destruct Hj as ((v1 & L1 & U1) & (v2 & L2 & U2) & (c & cw & ch & Lc & Lw & Lh & Fw & Fh)
                    & (n & Lt & Fn)).
    destruct Hs as (o & [= <-] & _ & _ & _ & _ & (n' & Lt' & Hn)).
    rewrite Lt in Lt'. injection Lt' as <-.
    exists (jsonify_props (saved_project env props meta es)).
    split; [reflexivity |].
    rewrite (lookup_jsonify_props "version" _ v1), (lookup_jsonify_props "selectedTool" _ v2),
      (lookup_jsonify_props "canvasSize" _ (VObj c)),
      (lookup_jsonify_props "elements" _ (VArr es)),
      (lookup_jsonify_props "timestamp" _ (VNum n));
      try reflexivity; try assumption;
      try (rewrite lookup_saved by discriminate; assumption).
    split; [discriminate |]. split; [discriminate |].
    split.
    { exists (jsonify_props c), cw, ch. split; [reflexivity |].
      rewrite (lookup_jsonify_props "width" _ (VNum cw)),
        (lookup_jsonify_props "height" _ (VNum ch)); try reflexivity; try assumption.
      cbn. now rewrite Fw, Fh. }
    split; [eexists; reflexivity |].
    exists n. cbn. now rewrite Fn. }
  rewrite Hv. reflexivity.
Qed.

Lemma save_then_getCurrentProject_witness :
  let w := {| localStorage := empty_storage; argument := sample_project 1 |} in
  let w' := snd (saveCurrentProject sample_host w) in
  fst (saveCurrentProject sample_host w) = Ok true
  /\ getCurrentProject w' = (Ok (Some (jsonify (argument w'))), w').
Proof.
  refine (save_then_getCurrentProject sample_host
            {| localStorage := empty_storage; argument := sample_project 1 |}
            _ _ eq_refl _ eq_refl _ _).
  - shape.
  - shape.
  - intros s k t. reflexivity.
Defined.

(** X14.  A project that passes the structural check with a canvas width
    that is not finite (NaN or an infinity) is saved, [saveCurrentProject]
    returning [true], but [getCurrentProject] then returns [null]: JSON
    turns the width into [null] and the stored project fails the check. *)
Theorem save_of_unbounded_canvas_cannot_be_loaded env w props meta c n :
  argument w = VObj props ->
  project_shape (VObj props) ->
  lookup "metadata" props = Some (VObj meta) ->
  lookup "canvasSize" props = Some (VObj c) ->
  lookup "width" c = Some (VNum n) ->
  isFinite n = false ->
  storage_available env ->
  fst (saveCurrentProject env w) = Ok true
  /\ fst (getCurrentProject (snd (saveCurrentProject env w))) = Ok None.
Proof.
  intros Hp Hs Hm Hc Hw Hn Ha.
  destruct (saveCurrentProject_succeeds env w props meta Hp Hs Hm Ha) as (es & He & ->).
  cbn [fst snd]. split; [reflexivity |].
  match goal with |- fst (getCurrentProject ?w') = _ =>
    destruct (getCurrentProject_checked w') as (r & -> & Hr)
  end.
  cbn [fst]. destruct r as [p |]; [| reflexivity]. exfalso.
  destruct (proj1 (Hr p) eq_refl) as [Hst Hsh]. cbn [localStorage] in Hst.
  rewrite write_read_other in Hst by distinct_keys. rewrite write_read in Hst.
  injection Hst as <-.
  destruct Hsh as (o & [= <-] & _ & _ & (c' & w' & h' & Lc & Lw & _) & _).
  rewrite (lookup_jsonify_props "canvasSize" _ (VObj c)) in Lc;
    [| rewrite lookup_saved by discriminate; assumption | reflexivity].
  injection Lc as <-.
  rewrite (lookup_jsonify_props "width" _ (VNum n)) in Lw; [| assumption | reflexivity].
  cbn in Lw. rewrite Hn in Lw. discriminate.
Qed.

Lemma save_of_unbounded_canvas_cannot_be_loaded_witness :
  let w := {| localStorage := empty_storage; argument := unbounded_project |} in
  validateProjectData unbounded_project = Ok true
  /\ fst (saveCurrentProject sample_host w) = Ok true
  /\ fst (getCurrentProject (snd (saveCurrentProject sample_host w))) = Ok None.
Proof.
  split; [reflexivity |].
  refine (save_of_unbounded_canvas_cannot_be_loaded sample_host
            {| localStorage := empty_storage; argument := unbounded_project |}
            _ _ _ PInf eq_refl _ eq_refl eq_refl eq_refl eq_refl _).
  - shape.
  - intros s k t. reflexivity.
Defined.

(** ** Preferences *)

Lemma lookup_cons_other k k' v o : k <> k' -> lookup k' ((k, v) :: o) = lookup k' o.
Proof. intros H. cbn. now destruct (String.eqb_spec k k'). Qed.

Lemma lookup_insert_index n k v o k' :
  lookup k o = None ->
  lookup k' (insert_index n k v o) = if k =? k' then Some v else lookup k' o.
Proof.
  induction o as [| [k0 v0] o IH]; cbn [insert_index lookup]; [reflexivity |].
  destruct (String.eqb_spec k0 k) as [-> | Hk]; [discriminate |]. intros Hn.
  destruct (index_of k0) as [m |]; [destruct (n <? m)%Z |]; try reflexivity.
  cbn [lookup]. rewrite (IH Hn).
  destruct (String.eqb_spec k0 k'); [| reflexivity].
  destruct (String.eqb_spec k k'); congruence.
Qed.

Lemma lookup_define k v o k' :
  lookup k' (define k v o) = if k =? k' then Some v else lookup k' o.
Proof.
  unfold define. destruct (String.eqb_spec k k') as [<- | Hk].
  - destruct (lookup k o) eqn:E; [apply lookup_assign_same |].
    destruct (index_of k); [| apply lookup_assign_same].
    rewrite lookup_insert_index by assumption. now rewrite String.eqb_refl.
  - destruct (lookup k o) eqn:E; [now apply lookup_assign_other; auto |].
    destruct (index_of k); [| now apply lookup_assign_other; auto].
    rewrite lookup_insert_index by assumption.
    now destruct (String.eqb_spec k k').
Qed.

Lemma lookup_spread_list src : forall target k,
  unique_keys src = true ->
  lookup k (fold_left (fun acc kv => define (fst kv) (snd kv) acc) src target)
  = overlay src target k.
Proof.
  unfold overlay.
  induction src as [| [k0 v0] src IH]; intros target k Hu; cbn [fold_left lookup fst snd];
    [reflexivity |].
  cbn in Hu. apply andb_true_iff in Hu as [H0 Hu]. apply negb_true_iff in H0.
  rewrite (IH _ _ Hu), lookup_define.
  destruct (String.eqb_spec k0 k) as [<- | Hk]; [| reflexivity].
  assert (Hn : lookup k0 src = None).
  { clear -H0. induction src as [| [k1 v1] src IH]; [reflexivity |].
    cbn in *. apply orb_false_iff in H0 as [H1 H2]. rewrite H1. auto. }
  now rewrite Hn.
Qed.

Lemma spread_keeps_keys src : forall target k,
  lookup k target <> None ->
  lookup k (fold_left (fun acc kv => define (fst kv) (snd kv) acc) src target) <> None.
Proof.
  induction src as [| [k0 v0] src IH]; intros target k H; cbn [fold_left fst snd];
    [assumption |].
  apply IH. rewrite lookup_define. destruct (k0 =? k); [discriminate | assumption].
Qed.

Lemma getUserPreferences_run w :
  getUserPreferences w
  = (Ok (VObj (spread_into DEFAULT_PREFERENCES (stored_preferences w))), w).
Proof.
  unfold getUserPreferences, stored_preferences, try_catch, bind, getItem, lift, ret.
  destruct (localStorage w STORAGE_KEYS.USER_PREFERENCES) as [[v | s] |];
    cbn [text_truthy negb JSON_parse]; try reflexivity.
  now destruct (negb _).
Qed.

(** X15.  [getUserPreferences] never throws and never writes, and its
    result has every preference of [DEFAULT_PREFERENCES], whatever the
    storage holds. *)
Theorem getUserPreferences_is_complete w :
  exists o,
    getUserPreferences w = (Ok (VObj o), w)
    /\ forall k, In k preference_keys -> lookup k o <> None.
Proof.
  rewrite getUserPreferences_run.
  eexists. split; [reflexivity |]. intros k Hk.
  apply spread_keeps_keys.
  cbn in Hk. repeat (destruct Hk as [<- | Hk]; [discriminate |]). contradiction.
Qed.

(** X16.  When the preferences slot holds a JSON object,
    [getUserPreferences] returns the defaults with the stored properties
    laid over them: a stored property wins, every other one is the
    default. *)
Theorem getUserPreferences_merges_over_defaults w stored :
  localStorage w STORAGE_KEYS.USER_PREFERENCES = Some (JsonText (VObj stored)) ->
  unique_keys stored = true ->
  exists o,
    getUserPreferences w = (Ok (VObj o), w)
    /\ forall k, lookup k o = overlay stored DEFAULT_PREFERENCES k.
Proof.
  intros Hs Hu. rewrite getUserPreferences_run. unfold stored_preferences. rewrite Hs.
  eexists. split; [reflexivity |]. intros k.
  now apply lookup_spread_list.
Qed.

Lemma getUserPreferences_merges_over_defaults_witness :
  let w := {| localStorage := write STORAGE_KEYS.USER_PREFERENCES (JsonText dark_theme)
                                empty_storage;
              argument := VUndefined |} in
  exists o,
    getUserPreferences w = (Ok (VObj o), w)
    /\ forall k, lookup k o = overlay [("theme", VStr "dark")] DEFAULT_PREFERENCES k.
Proof.
  exact (getUserPreferences_merges_over_defaults
           {| localStorage := write STORAGE_KEYS.USER_PREFERENCES (JsonText dark_theme)
                                empty_storage;
              argument := VUndefined |}
           [("theme", VStr "dark")] eq_refl eq_refl).
Defined.

Lemma lookup_none_keys k o : lookup k o = None <-> ~ In k (map fst o).
Proof.
  induction o as [| [k0 v0] o IH]; cbn; [tauto |].
  destruct (String.eqb_spec k0 k); [split; [discriminate | tauto] |].
  rewrite IH. tauto.
Qed.

Lemma unique_keys_NoDup o : unique_keys o = true <-> NoDup (map fst o).
Proof.
  induction o as [| [k0 v0] o IH]; cbn; [split; [constructor | reflexivity] |].
  rewrite andb_true_iff, negb_true_iff, IH. split.
  - intros [H1 H2]. constructor; [| assumption].
    intros Hin. apply in_map_iff in Hin as ([k1 v1] & <- & Hin).
    assert (existsb (fun kv => fst kv =? k1) o = true).
    { apply existsb_exists. exists (k1, v1). split; [assumption | apply String.eqb_refl]. }
    cbn in *. congruence.
  - inversion 1 as [| ? ? Hn Hd]; subst. split; [| assumption].
    destruct (existsb _ o) eqn:E; [| reflexivity].
    apply existsb_exists in E as ([k1 v1] & Hin & Hk). cbn in Hk.
    apply String.eqb_eq in Hk as ->. exfalso. apply Hn.
    apply in_map_iff. now exists (k0, v1).
Qed.

Lemma keys_assign k v o :
  map fst (assign k v o)
  = match lookup k o with Some _ => map fst o | None => (map fst o ++ [k])%list end.
Proof.
  induction o as [| [k0 v0] o IH]; cbn; [reflexivity |].
  destruct (String.eqb_spec k0 k) as [-> | Hk]; cbn; [reflexivity |].
  rewrite IH. now destruct (lookup k o).
Qed.

Lemma keys_insert_index n k v o :
  Permutation (map fst (insert_index n k v o)) (k :: map fst o).
Proof.
  induction o as [| [k0 v0] o IH]; cbn [insert_index map fst]; [reflexivity |].
  destruct (index_of k0) as [m |]; [destruct (n <? m)%Z |]; try reflexivity.
  cbn [map fst]. rewrite IH. apply perm_swap.
Qed.

Lemma unique_define k v o : unique_keys o = true -> unique_keys (define k v o) = true.
Proof.
  rewrite !unique_keys_NoDup. intros Hd. unfold define.
  destruct (lookup k o) eqn:E.
  - now rewrite keys_assign, E.
  - assert (Hn : ~ In k (map fst o)) by now apply lookup_none_keys.
    destruct (index_of k).
    + eapply Permutation_NoDup;
        [symmetry; apply keys_insert_index | now constructor].
    + rewrite keys_assign, E.
      eapply Permutation_NoDup;
        [apply Permutation_cons_append | now constructor].
Qed.

Lemma json_define k v o :
  json_value v = true -> json_value (VObj o) = true ->
  json_value (VObj (define k v o)) = true.
Proof.
  cbn [json_value]. intros Hv. unfold define.
  assert (Ha : forallb (fun kv => json_value (snd kv)) o = true ->
               forallb (fun kv => json_value (snd kv)) (assign k v o) = true).
  { induction o as [| [k0 v0] o IH]; cbn; [now rewrite Hv |].
    intros H. apply andb_true_iff in H as [H1 H2].
    destruct (k0 =? k); cbn; [now rewrite Hv | now rewrite H1, IH]. }
  destruct (lookup k o); [assumption |]. destruct (index_of k) as [n |]; [| assumption].
  clear Ha. induction o as [| [k0 v0] o IH]; cbn; [now rewrite Hv |].
  intros H. pose proof H as H'. apply andb_true_iff in H as [H1 H2].
  destruct (index_of k0) as [m |]; [destruct (n <? m)%Z |]; cbn; rewrite ?Hv, ?H1; auto.
Qed.

Lemma spread_object_facts src : forall target,
  unique_keys src = true -> json_value (VObj src) = true ->
  unique_keys target = true -> json_value (VObj target) = true ->
  let r := fold_left (fun acc kv => define (fst kv) (snd kv) acc) src target in
  unique_keys r = true /\ json_value (VObj r) = true.
Proof.
  induction src as [| [k0 v0] src IH]; intros target Hu Hj Ht Hjt; cbn [fold_left fst snd];
    [auto |].
  cbn in Hu, Hj. apply andb_true_iff in Hu as [_ Hu]. apply andb_true_iff in Hj as [Hv Hj].
  apply IH; auto using unique_define, json_define.
Qed.

Lemma default_preferences_facts :
  unique_keys DEFAULT_PREFERENCES = true /\ json_value (VObj DEFAULT_PREFERENCES) = true.
Proof. split; reflexivity. Qed.

Section PreferencesTheory.

Variable env : Platform.

Lemma effective_preferences_facts w :
  preferences_slot_ok w ->
  let before := spread_into DEFAULT_PREFERENCES (stored_preferences w) in
  unique_keys before = true /\ json_value (VObj before) = true
  /\ forall k, lookup k DEFAULT_PREFERENCES <> None -> lookup k before <> None.
Proof.
  intros Hslot before. subst before. unfold stored_preferences, spread_into.
  destruct (localStorage w STORAGE_KEYS.USER_PREFERENCES) as [t |] eqn:Es.
  - destruct (Hslot t Es) as (v & -> & s & -> & Hsu & Hsj). cbn [own_properties].
    destruct (spread_object_facts s DEFAULT_PREFERENCES Hsu Hsj eq_refl eq_refl)
      as [H1 H2].
    split; [exact H1 |]. split; [exact H2 |]. intros k. apply spread_keeps_keys.
  - cbn [own_properties fold_left]. split; [reflexivity |]. split; [reflexivity |]. auto.
Qed.

(** X17.  On a storage that takes the writes and whose preferences slot is
    empty or holds a JSON object, saving a partial preferences object
    returns [true], and [getUserPreferences] then returns the preferences
    read before the save with the partial object laid over them. *)
Theorem saveUserPreferences_then_get w partial :
  preferences_slot_ok w ->
  json_object partial ->
  storage_available env ->
  exists before after,
    getUserPreferences w = (Ok (VObj before), w)
    /\ fst (saveUserPreferences env partial w) = Ok true
    /\ getUserPreferences (snd (saveUserPreferences env partial w))
       = (Ok (VObj after), snd (saveUserPreferences env partial w))
    /\ forall k, lookup k after = overlay (own_properties partial) before k.
Proof.
  intros Hslot (p & -> & Hpu & Hpj) Ha.
  destruct (effective_preferences_facts w Hslot) as (Hbu & Hbj & Hbk).
  set (before := spread_into DEFAULT_PREFERENCES (stored_preferences w)) in *.
  set (copy := spread_into [] (VObj before)).
  assert (Hc : unique_keys copy = true /\ json_value (VObj copy) = true)
    by exact (spread_object_facts before [] Hbu Hbj eq_refl eq_refl).
  destruct Hc as [Hcu Hcj].
  set (updated := spread_into copy (VObj p)).
  assert (Hu : unique_keys updated = true /\ json_value (VObj updated) = true)
    by exact (spread_object_facts p copy Hpu Hpj Hcu Hcj).
  destruct Hu as [Huu Huj].
  assert (Hlu : forall k, lookup k updated = overlay p before k).
  { intros k. unfold updated, spread_into. cbn [own_properties].
    rewrite lookup_spread_list by assumption. unfold overlay.
    destruct (lookup k p); [reflexivity |].
    unfold copy, spread_into. cbn [own_properties].
    rewrite lookup_spread_list by assumption. unfold overlay.
    now destruct (lookup k before). }
  assert (Hsave : saveUserPreferences env (VObj p) w
                  = (Ok true,
                     {| localStorage :=
                          write STORAGE_KEYS.USER_PREFERENCES (JsonText (VObj updated))
                            (localStorage w);
                        argument := argument w |})).
  { unfold saveUserPreferences, try_catch, bind at 1.
    rewrite getUserPreferences_run. fold before. fold copy. fold updated.
    unfold bind, setItem, ret. rewrite Ha.
    unfold JSON_stringify. now rewrite (jsonify_json_value _ Huj). }
  exists before, (spread_into DEFAULT_PREFERENCES (VObj updated)).
  split; [apply getUserPreferences_run |]. rewrite Hsave. cbn [fst snd].
  split; [reflexivity |].
  split.
  { rewrite getUserPreferences_run. unfold stored_preferences. cbn [localStorage].
    now rewrite write_read. }
  intros k. unfold spread_into. cbn [own_properties].
  rewrite lookup_spread_list by assumption. unfold overlay at 1. rewrite Hlu.
  unfold overlay. destruct (lookup k p); [reflexivity |].
  destruct (lookup k before) eqn:Eb; [reflexivity |].
  destruct (lookup k DEFAULT_PREFERENCES) eqn:Ed; [| reflexivity].
  exfalso. apply (Hbk k); [congruence | assumption].
Qed.

End PreferencesTheory.

Lemma saveUserPreferences_then_get_witness :
  let w := {| localStorage := empty_storage; argument := VUndefined |} in
  let w' := snd (saveUserPreferences sample_host dark_theme w) in
  exists before after,
    getUserPreferences w = (Ok (VObj before), w)
    /\ fst (saveUserPreferences sample_host dark_theme w) = Ok true
    /\ getUserPreferences w' = (Ok (VObj after), w')
    /\ forall k, lookup k after = overlay (own_properties dark_theme) before k.
Proof.
  refine (saveUserPreferences_then_get sample_host
            {| localStorage := empty_storage; argument := VUndefined |}
            dark_theme _ _ _).
  - intros t H. discriminate H.
  - eexists. repeat split; reflexivity.
  - intros s k t. reflexivity.
Defined.


(** ** Clearing, recall and file import *)

Lemma remove_each_run keys : forall w,
  fst (remove_each keys w) = Ok tt
  /\ argument (snd (remove_each keys w)) = argument w
  /\ forall k, localStorage (snd (remove_each keys w)) k
               = if existsb (String.eqb k) keys then None else localStorage w k.
Proof.
  induction keys as [| key keys IH]; intros w; cbn [remove_each existsb].
  - cbn. auto.
  - unfold bind. cbn [removeItem].
    set (w1 := {| localStorage := fun k => if k =? key then None else localStorage w k;
                  argument := argument w |}).
    destruct (IH w1) as (H1 & H2 & H3).
    destruct (remove_each keys w1) as [[[] | e] w2]; cbn in H1; [| discriminate].
    cbn [fst snd] in *. split; [reflexivity |]. split; [exact H2 |].
    intros k. rewrite H3. cbn [localStorage w1].
    destruct (k =? key); cbn [orb]; [now destruct (existsb _ keys) | reflexivity].
Qed.

(** X18.  [clearAllData] returns [true], empties the five slots of the
    application and leaves every other key of the storage alone; after it
    there is no current project, the history is empty and the preferences
    are the defaults. *)
Theorem clearAllData_empties_the_store w :
  fst (clearAllData w) = Ok true
  /\ (forall k, In k all_storage_keys -> localStorage (snd (clearAllData w)) k = None)
  /\ (forall k, ~ In k all_storage_keys ->
                localStorage (snd (clearAllData w)) k = localStorage w k)
  /\ fst (getCurrentProject (snd (clearAllData w))) = Ok None
  /\ fst (getProjectHistory (snd (clearAllData w))) = Ok (VArr [])
  /\ fst (getUserPreferences (snd (clearAllData w))) = Ok (VObj DEFAULT_PREFERENCES).
Proof.
  unfold clearAllData, try_catch, bind.
  destruct (remove_each_run all_storage_keys w) as (H1 & H2 & H3).
  destruct (remove_each all_storage_keys w) as [[[] | e] w']; cbn in H1; [| discriminate].
  cbn [fst snd ret] in *.
  assert (Hin : forall k, In k all_storage_keys -> localStorage w' k = None).
  { intros k Hk. rewrite H3.
    assert (existsb (String.eqb k) all_storage_keys = true) as ->; [| reflexivity].
    apply existsb_exists. exists k. split; [assumption | apply String.eqb_refl]. }
  split; [reflexivity |]. split; [exact Hin |]. split.
  { intros k Hk. rewrite H3.
    destruct (existsb (String.eqb k) all_storage_keys) eqn:E; [| reflexivity].
    apply existsb_exists in E as (k' & Hk' & E). apply String.eqb_eq in E as <-.
    contradiction. }
  split; [| split].
  - unfold getCurrentProject, try_catch, bind, getItem.
    rewrite Hin by (cbn; auto). reflexivity.
  - unfold getProjectHistory, try_catch, bind, getItem.
    rewrite Hin by (cbn; auto). reflexivity.
  - rewrite getUserPreferences_run. unfold stored_preferences.
    rewrite Hin by (cbn; auto). reflexivity.
Qed.

Section RecallTheory.

Variable env : Platform.

(** X19.  [loadProjectFromHistory] never throws and never writes; a
    project it returns is the stored current project, it passes the
    structural check and its generated id is the id asked for; the result
    does not depend on what the history slot holds. *)
Theorem loadProjectFromHistory_reads_only_the_current_project w projectId :
  exists r,
    loadProjectFromHistory env projectId w = (Ok r, w)
    /\ (forall p, r = Some p ->
          localStorage w STORAGE_KEYS.CURRENT_PROJECT = Some (JsonText p)
          /\ project_shape p
          /\ generateProjectId env p = Ok projectId)
    /\ forall history,
         fst (loadProjectFromHistory env projectId
                {| localStorage := write STORAGE_KEYS.PROJECT_HISTORY history (localStorage w);
                   argument := argument w |}) = Ok r.
Proof.
  assert (Hrun : forall w0,
    loadProjectFromHistory env projectId w0
    = (Ok (match fst (getCurrentProject w0) with
           | Ok (Some p) =>
               match generateProjectId env p with
               | Ok id => if id =? projectId then Some p else None
               | Throw _ => None
               end
           | _ => None
           end), w0)).
  { intros w0. unfold loadProjectFromHistory, try_catch, bind at 1.
    destruct (getCurrentProject_checked w0) as (r & -> & _).
    cbn [fst]. destruct r as [p |]; [| reflexivity].
    unfold bind, lift. destruct (generateProjectId env p) as [id | e]; [| reflexivity].
    now destruct (id =? projectId). }
  rewrite Hrun. eexists. split; [reflexivity |]. split.
  - intros p. destruct (getCurrentProject_checked w) as (r & -> & Hr).
    cbn [fst]. destruct r as [p0 |]; [| discriminate].
    destruct (generateProjectId env p0) as [id | e] eqn:Eid; [| discriminate].
    destruct (String.eqb_spec id projectId) as [-> |]; [| discriminate].
    intros [= <-]. destruct (proj1 (Hr p0) eq_refl). auto.
  - intros history. rewrite Hrun. cbn [fst]. f_equal.
    assert (Hsame : fst (getCurrentProject
                           {| localStorage :=
                                write STORAGE_KEYS.PROJECT_HISTORY history (localStorage w);
                              argument := argument w |})
                    = fst (getCurrentProject w)).
    { unfold getCurrentProject, try_catch, bind, getItem. cbn [localStorage].
      rewrite write_read_other by distinct_keys.
      destruct (localStorage w STORAGE_KEYS.CURRENT_PROJECT) as [t |]; [| reflexivity].
      destruct (negb _); [reflexivity |].
      unfold lift. destruct (JSON_parse t) as [v | e]; [| reflexivity].
      destruct (validateProjectData v) as [[|] | e]; reflexivity. }
    now rewrite Hsame.
Qed.

Lemma importProjectFromJson_iff fileText d :
  importProjectFromJson env fileText = Some d
  <-> exists o,
        fileText = JsonText (VObj o)
        /\ project_shape (VObj o)
        /\ d = VObj (assign "lastModified" (VStr (Date_toISOString env))
                       (assign "timestamp" (VNum (Date_now env)) o)).
Proof.
  unfold importProjectFromJson. split.
  - destruct fileText as [v | s]; cbn [JSON_parse rbind]; [| discriminate].
    destruct (validateProjectData_total v) as [[|] Hv]; rewrite Hv; cbn [rbind negb];
      [| discriminate].
    apply validateProjectData_iff in Hv.
    destruct Hv as (o & Hv). destruct Hv as (-> & Hrest).
    cbn [put rbind]. intros [= <-]. exists o. repeat split; auto.
    exists o. auto.
  - intros (o & -> & Hs & ->). cbn [JSON_parse rbind].
    rewrite (proj2 (validateProjectData_iff _) Hs). reflexivity.
Qed.

(** X20.  [importProjectFromJson] returns a project exactly when the file
    text is JSON for an object that passes the structural check; the result
    is that object with [timestamp] and [lastModified] replaced by the
    clock of the host. *)
Theorem importProjectFromJson_stamps_checked_projects fileText d :
  importProjectFromJson env fileText = Some d
  <-> exists o,
        fileText = JsonText (VObj o)
        /\ project_shape (VObj o)
        /\ d = VObj (assign "lastModified" (VStr (Date_toISOString env))
                       (assign "timestamp" (VNum (Date_now env)) o)).
Proof. destruct (importProjectFromJson_iff fileText d) as [H1 H2]. split; assumption. Qed.

End RecallTheory.

Section MoreStoreTheory.

Variable env : Platform.

Lemma deleteProjectFromHistory_run w projectId l :
  localStorage w STORAGE_KEYS.PROJECT_HISTORY = Some (JsonText (VArr l)) ->
  Forall history_entry l ->
  storage_available env ->
  let kept := filter (fun e => negb (entry_has_id projectId e)) l in
  deleteProjectFromHistory env projectId w
  = if Nat.eqb (List.length kept) (List.length l)
    then (Ok false, w)
    else (Ok true,
          {| localStorage :=
               write STORAGE_KEYS.PROJECT_HISTORY (JsonText (VArr kept)) (localStorage w);
             argument := argument w |}).
Proof.
  intros Hs Hl Ha kept.
  assert (Hobj : Forall (fun e => exists o, e = VObj o) l)
    by (eapply Forall_impl; [| exact Hl]; now intros e [H _]).
  unfold deleteProjectFromHistory, try_catch, bind at 1.
  rewrite (getProjectHistory_stored w _ Hs).
  unfold bind at 1, lift. rewrite (filter_other_ids_objects _ _ Hobj). fold kept.
  destruct (Nat.eqb _ _); [reflexivity |].
  unfold bind, setItem, ret. rewrite Ha.
  assert (Hk : JSON_stringify (VArr kept) = JsonText (VArr kept)).
  { unfold JSON_stringify. rewrite jsonify_json_value; [reflexivity |].
    cbn. apply forallb_forall. intros e He.
    apply filter_In in He as [He _].
    rewrite Forall_forall in Hl. now apply Hl. }
  now rewrite Hk.
Qed.

Lemma filter_twice {A} (f : A -> bool) l : filter f (filter f l) = filter f l.
Proof.
  induction l as [| a l IH]; cbn; [reflexivity |].
  destruct (f a) eqn:E; cbn; rewrite ?E, IH; reflexivity.
Qed.

(** X22.  On a storage that takes the writes and holds a history of JSON
    objects, deleting the same id a second time returns [false] and changes
    nothing, whatever the first call returned. *)
Theorem deleteProjectFromHistory_again_fails w projectId l :
  localStorage w STORAGE_KEYS.PROJECT_HISTORY = Some (JsonText (VArr l)) ->
  Forall history_entry l ->
  storage_available env ->
  let w1 := snd (deleteProjectFromHistory env projectId w) in
  deleteProjectFromHistory env projectId w1 = (Ok false, w1).
Proof.
  intros Hs Hl Ha. cbv zeta.
  rewrite (deleteProjectFromHistory_run w projectId l Hs Hl Ha).
  set (kept := filter (fun e => negb (entry_has_id projectId e)) l).
  destruct (Nat.eqb (List.length kept) (List.length l)) eqn:E; cbn [snd].
  - rewrite (deleteProjectFromHistory_run w projectId l Hs Hl Ha). fold kept.
    now rewrite E.
  - rewrite (deleteProjectFromHistory_run _ projectId kept).
    + unfold kept at 1 2. rewrite filter_twice. fold kept. now rewrite Nat.eqb_refl.
    + cbn [localStorage]. apply write_read.
    + apply Forall_forall. intros e He. apply filter_In in He as [He _].
      rewrite Forall_forall in Hl. now apply Hl.
    + assumption.
Qed.

(** X21.  When the clock of the host is after the epoch, a project returned
    by [importProjectFromJson] passes the structural check again, and its
    [timestamp] and [lastModified] are those of the clock. *)
Theorem importProjectFromJson_result_is_valid fileText d :
  importProjectFromJson env fileText = Some d ->
  num_le (Date_now env) (of_Z 0) = false ->
  validateProjectData d = Ok true
  /\ field d ["timestamp"] = Ok (VNum (Date_now env))
  /\ field d ["lastModified"] = Ok (VStr (Date_toISOString env)).
Proof.
  intros H Hnow.
  apply importProjectFromJson_iff in H as (o & -> & Hs & ->).
  destruct Hs as (o' & [= <-] & Hv & Ht & (c & cw & ch & Hc & Hw & Hh) & (es & He) & _).
  split; [| split].
  - apply validateProjectData_iff. eexists. split; [reflexivity |].
    rewrite !(lookup_assign_other "lastModified") by discriminate.
    rewrite !(lookup_assign_other "timestamp") by discriminate.
    rewrite lookup_assign_same.
    split; [assumption |]. split; [assumption |].
    split; [exists c, cw, ch; auto |]. split; [eauto |]. eauto.
  - cbn [field get rbind].
    rewrite (lookup_assign_other "lastModified") by discriminate.
    now rewrite lookup_assign_same.
  - cbn [field get rbind]. now rewrite lookup_assign_same.
Qed.

End MoreStoreTheory.

Lemma deleteProjectFromHistory_again_fails_witness :
  let w := {| localStorage := storage_with_history sample_history;
              argument := VUndefined |} in
  let w1 := snd (deleteProjectFromHistory sample_host "a" w) in
  fst (deleteProjectFromHistory sample_host "a" w) = Ok true
  /\ deleteProjectFromHistory sample_host "a" w1 = (Ok false, w1).
Proof.
  split; [reflexivity |].
  refine (deleteProjectFromHistory_again_fails sample_host
            {| localStorage := storage_with_history sample_history;
               argument := VUndefined |} "a" sample_history eq_refl _ _).
  - repeat constructor; eexists; reflexivity.
  - intros s k t. reflexivity.
Defined.

Lemma importProjectFromJson_result_is_valid_witness :
  let d := VObj (assign "lastModified" (VStr (Date_toISOString sample_host))
                   (assign "timestamp" (VNum (Date_now sample_host))
                      (own_properties (sample_project 1)))) in
  importProjectFromJson sample_host (JsonText (sample_project 1)) = Some d
  /\ validateProjectData d = Ok true
  /\ field d ["timestamp"] = Ok (VNum (Date_now sample_host))
  /\ field d ["lastModified"] = Ok (VStr (Date_toISOString sample_host)).
Proof.
  split; [reflexivity |].
  exact (importProjectFromJson_result_is_valid sample_host
           (JsonText (sample_project 1)) _ eq_refl eq_refl).
Defined.


(** ** Auto-save scheduler *)

Section AutoSaveTheory.

Variable env : Platform.

Lemma callback_frame s :
  interval (auto (AutoSave_callback env s)) = interval (auto s)
  /\ intervalMinutes (auto (AutoSave_callback env s)) = intervalMinutes (auto s)
  /\ timers (AutoSave_callback env s) = timers s
  /\ next_timer (AutoSave_callback env s) = next_timer s.
Proof.
  unfold AutoSave_callback. destruct (truthy _); cbn; auto.
Qed.

Lemma callbacks_frame (l : list (nat * number)) : forall s,
  let s' := fold_left (fun acc _ => AutoSave_callback env acc) l s in
  interval (auto s') = interval (auto s)
  /\ intervalMinutes (auto s') = intervalMinutes (auto s)
  /\ timers s' = timers s
  /\ next_timer s' = next_timer s.
Proof.
  induction l as [| t l IH]; intros s; cbn [fold_left]; [cbv zeta; auto |].
  destruct (IH (AutoSave_callback env s)) as (H1 & H2 & H3 & H4).
  destruct (callback_frame s) as (C1 & C2 & C3 & C4).
  cbv zeta. rewrite H1, H2, H3, H4. auto.
Qed.

Lemma tick_frame s :
  interval (auto (tick env s)) = interval (auto s)
  /\ intervalMinutes (auto (tick env s)) = intervalMinutes (auto s)
  /\ timers (tick env s) = timers s
  /\ next_timer (tick env s) = next_timer s.
Proof. apply callbacks_frame. Qed.

Lemma clearInterval_own id p : clearInterval id [(id, p)] = [].
Proof. unfold clearInterval. cbn. now rewrite Nat.eqb_refl. Qed.

Lemma perform_keeps_one_timer s op :
  one_timer s -> one_timer (perform env s op).
Proof.
  unfold one_timer. intros H. destruct op as [p | | p |]; cbn [perform].
  - unfold AutoSave_start. cbn [auto timers interval]. rewrite H.
    destruct (interval (auto s)); [rewrite clearInterval_own |]; reflexivity.
  - unfold AutoSave_stop. destruct (interval (auto s)) eqn:E.
    + cbn [auto timers interval]. rewrite H. apply clearInterval_own.
    + now rewrite E.
  - cbn [AutoSave_updateProject auto timers interval]. exact H.
  - destruct (tick_frame s) as (H1 & H2 & H3 & _). rewrite H3, H1, H.
    unfold period_of. now rewrite H2.
Qed.

Lemma operations_keep_one_timer minutes s0 ops :
  one_timer (fold_left (perform env) ops (new_AutoSave minutes s0)).
Proof.
  generalize (new_AutoSave minutes s0), (eq_refl : one_timer (new_AutoSave minutes s0)).
  induction ops as [| op ops IH]; intros s Hs; cbn [fold_left]; [exact Hs |].
  apply IH. now apply perform_keeps_one_timer.
Qed.

(** X23.  After any sequence of [start], [stop], [updateProject] and timer
    ticks on a new [AutoSave], at most one timer is alive; after [stop]
    none is, a second [stop] changes nothing, and a tick after [stop]
    leaves the storage as it is. *)
Theorem AutoSave_has_at_most_one_timer minutes s0 ops :
  let s := fold_left (perform env) ops (new_AutoSave minutes s0) in
  (List.length (timers s) <= 1)%nat
  /\ timers (AutoSave_stop s) = []
  /\ AutoSave_stop (AutoSave_stop s) = AutoSave_stop s
  /\ store (tick env (AutoSave_stop s)) = store s.
Proof.
  cbv zeta.
  pose proof (operations_keep_one_timer minutes s0 ops) as H.
  set (s := fold_left (perform env) ops (new_AutoSave minutes s0)) in *.
  assert (Hstop : timers (AutoSave_stop s) = []).
  { unfold AutoSave_stop. unfold one_timer in H.
    destruct (interval (auto s)); [cbn; rewrite H; apply clearInterval_own | exact H]. }
  split.
  { unfold one_timer in H. rewrite H. destruct (interval (auto s)); cbn; lia. }
  split; [exact Hstop |]. split.
  { assert (Hi : interval (auto (AutoSave_stop s)) = None)
      by (unfold AutoSave_stop; destruct (interval (auto s)) eqn:E; cbn; auto).
    unfold AutoSave_stop at 1. now rewrite Hi. }
  unfold tick. rewrite Hstop. cbn [fold_left].
  unfold AutoSave_stop. now destruct (interval (auto s)).
Qed.


End AutoSaveTheory.

(** ** Codec: counters, guards and the exported shape *)

Lemma tally_partition E :
  (tally (fun t => type_eqb t TPlant) E + tally (fun t => type_eqb t TTerrain) E
   + tally (fun t => type_eqb t TStructure) E + tally is_shape E
   = List.length E)%nat.
Proof.
  induction E as [| e E IH]; cbn [tally List.length]; [reflexivity |].
  destruct (el_type e); cbn; lia.
Qed.

(** X25.  In the data [createExportData] builds, the four category
    counters are natural numbers whose sum is both [totalElements] and the
    length of the exported [elements]. *)
Theorem createExportData_categories_partition env E C name :
  exists p t s h,
    field (createExportData env E C name) ["projectInfo"; "categories"; "plants"]
    = Ok (VNum (of_nat p))
    /\ field (createExportData env E C name) ["projectInfo"; "categories"; "terrain"]
       = Ok (VNum (of_nat t))
    /\ field (createExportData env E C name) ["projectInfo"; "categories"; "structures"]
       = Ok (VNum (of_nat s))
    /\ field (createExportData env E C name) ["projectInfo"; "categories"; "shapes"]
       = Ok (VNum (of_nat h))
    /\ field (createExportData env E C name) ["projectInfo"; "totalElements"]
       = Ok (VNum (of_nat (p + t + s + h)))
    /\ field (createExportData env E C name) ["elements"; "length"]
       = Ok (VNum (of_nat (p + t + s + h))).
Proof.
  exists (tally (fun t => type_eqb t TPlant) E), (tally (fun t => type_eqb t TTerrain) E),
         (tally (fun t => type_eqb t TStructure) E), (tally is_shape E).
  rewrite tally_partition. rewrite <- !tally_filter.
  assert (Hs : forall t, is_shape t = type_eqb t TRectangle || type_eqb t TCircle)
    by (now intros []).
  rewrite (filter_ext _ _ (fun el => Hs (el_type el))).
  unfold createExportData. cbn [field get lookup rbind String.eqb Ascii.eqb Bool.eqb].
  rewrite length_map. repeat split; reflexivity.
Qed.

Lemma statistics_fold E : forall acc,
  let stats := fold_left statistics_step E acc in
  total stats = total acc
  /\ plants stats = (plants acc + tally (fun t => type_eqb t TPlant) E)%nat
  /\ terrain stats = (terrain acc + tally (fun t => type_eqb t TTerrain) E)%nat
  /\ structures stats = (structures acc + tally (fun t => type_eqb t TStructure) E)%nat
  /\ shapes stats = (shapes acc + tally is_shape E)%nat
  /\ (selected stats <= selected acc + List.length E)%nat.
Proof.
  induction E as [| e E IH]; intros acc; cbn [fold_left tally List.length].
  - cbv zeta. repeat split; lia.
  - destruct (IH (statistics_step acc e)) as (H1 & H2 & H3 & H4 & H5 & H6).
    cbv zeta. rewrite H1, H2, H3, H4, H5.
    unfold statistics_step in *. cbn [total plants terrain structures shapes selected] in *.
    destruct (el_type e), (el_selected e) as [[|] |]; cbn in *; repeat split; lia.
Qed.

(** X26.  [calculateProjectStatistics] counts each element once by its
    type: the four counters are the numbers of plants, terrains,
    structures and shapes, they add up to [total], and [selected] is at
    most [total]. *)
Theorem calculateProjectStatistics_counts E :
  let stats := calculateProjectStatistics E in
  plants stats = tally (fun t => type_eqb t TPlant) E
  /\ terrain stats = tally (fun t => type_eqb t TTerrain) E
  /\ structures stats = tally (fun t => type_eqb t TStructure) E
  /\ shapes stats = tally is_shape E
  /\ total stats = List.length E
  /\ (plants stats + terrain stats + structures stats + shapes stats = total stats)%nat
  /\ (selected stats <= total stats)%nat.
Proof.
  cbv zeta. unfold calculateProjectStatistics.
  match goal with |- context [fold_left statistics_step E ?acc] =>
    destruct (statistics_fold E acc) as (H1 & H2 & H3 & H4 & H5 & H6)
  end.
  cbv zeta in *. cbn [total plants terrain structures shapes selected] in *.
  rewrite H1, H2, H3, H4, H5. cbn [Nat.add].
  pose proof (tally_partition E). repeat split; lia.
Qed.

Lemma validateExportElement_total v : exists b, validateExportElement v = Ok b.
Proof.
  unfold validateExportElement.
  destruct (missing "object" v) eqn:E; [eauto |].
  apply missing_object_inv in E as [[l ->] | [o ->]].
  - cbn. eauto.
  - cbn [has_all has_property rbind get].
    repeat match goal with
      | |- context [match lookup ?k o with Some _ => true | None => false end] =>
          destruct (lookup k o); cbn [negb rbind]; [| eauto]
      end.
    repeat match goal with
      | |- exists b, (if ?c then _ else _) = Ok b => destruct c; [eauto |]
      end.
    eauto.
Qed.

Lemma all_export_elements_total l : exists b, all_export_elements l = Ok b.
Proof.
  induction l as [| e l IH]; cbn [all_export_elements]; [eauto |].
  destruct (validateExportElement_total e) as [[|] ->]; cbn; eauto.
Qed.

(** X27.  [validateExportData] throws exactly on the objects that have the
    five required properties and whose [projectInfo] is [null] or
    [undefined]; on every other value it returns a boolean. *)
Theorem validateExportData_throws_exactly_on_null_projectInfo d :
  (exists e, validateExportData d = Throw e)
  <-> exists o,
        d = VObj o
        /\ (forall k, In k required_export_fields -> lookup k o <> None)
        /\ (lookup "projectInfo" o = Some VNull
            \/ lookup "projectInfo" o = Some VUndefined).
Proof.
  unfold validateExportData. split.
  - intros [e H]. destruct (missing "object" d) eqn:E; [discriminate |].
    apply missing_object_inv in E as [[l ->] | [o ->]]; [discriminate |].
    revert H. cbn [has_all has_property rbind get].
    destruct (lookup "version" o) eqn:L1; [| discriminate].
    destruct (lookup "timestamp" o) eqn:L2; [| discriminate].
    destruct (lookup "projectInfo" o) as [pinfo |] eqn:L3; [| discriminate].
    destruct (lookup "elements" o) as [els |] eqn:L4; [| discriminate].
    destruct (lookup "metadata" o) eqn:L5; [| discriminate].
    cbn [negb rbind]. intros H. exists o. split; [reflexivity |]. split.
    { intros k Hk. cbn in Hk.
      repeat (destruct Hk as [<- | Hk]; [congruence |]). contradiction. }
    destruct pinfo; cbn [get rbind] in H; auto.
    all: exfalso.
    all: destruct (missing "object" _); [discriminate |].
    all: destruct els; try discriminate.
    all: match goal with
         | H : all_export_elements ?l = Throw _ |- _ =>
             let b := fresh "b" in
             let Hb := fresh "Hb" in
             destruct (all_export_elements_total l) as [b Hb]; rewrite Hb in H;
             discriminate
         end.
  - intros (o & -> & Hall & Hp).
    change (missing "object" (VObj o)) with false. cbv iota.
    cbn [has_all has_property rbind get].
    destruct (lookup "version" o) eqn:L1;
      [| exfalso; apply (Hall "version"); [cbn; tauto | exact L1]].
    destruct (lookup "timestamp" o) eqn:L2;
      [| exfalso; apply (Hall "timestamp"); [cbn; tauto | exact L2]].
    destruct (lookup "elements" o) eqn:L4;
      [| exfalso; apply (Hall "elements"); [cbn; tauto | exact L4]].
    destruct (lookup "metadata" o) eqn:L5;
      [| exfalso; apply (Hall "metadata"); [cbn; tauto | exact L5]].
    destruct Hp as [Hp | Hp]; rewrite Hp; cbn [negb rbind get]; eauto.
Qed.

(** X28.  With [validateExportData] as validator, [safeJsonParse] yields
    the data that [importProjectFromJSON] returns on the same text, and
    [null] where the import returns [null]. *)
Theorem safeJsonParse_agrees_with_importProjectFromJSON jsonData :
  data (safeJsonParse jsonData (Some validateExportData))
  = match importProjectFromJSON jsonData with
    | Some d => d
    | None => VNull
    end.
Proof.
  unfold safeJsonParse, importProjectFromJSON.
  destruct (JSON_parse jsonData) as [v | e]; cbn [rbind]; [| reflexivity].
  destruct (validateExportData v) as [[|] | e]; reflexivity.
Qed.

(** X29.  [importProjectFromJSON] accepts the JSON text of
    [createExportData] exactly when every element survives the import
    check. *)
Theorem import_of_export_present_exactly env E C name :
  (exists d, importProjectFromJSON (JSON_stringify (createExportData env E C name)) = Some d)
  <-> forall e, In e E -> survives_import e = true.
Proof.
  rewrite importProjectFromJSON_exported, <- forallb_forall.
  destruct (forallb survives_import E); split; eauto; try discriminate.
  intros [d H]. discriminate.
Qed.

(** X30.  The export form of an element reads like the element on every
    property except [selected], which it does not have. *)
Theorem exportElement_drops_only_selected e k :
  get (exportElement e) k
  = if k =? "selected" then Ok VUndefined else get (js_of_element e) k.
Proof.
  rewrite get_js_of_element. unfold exportElement, element_fields.
  cbn [get lookup assoc].
  repeat match goal with
    | |- context [if ?key =? k then _ else _] =>
        let E := fresh "E" in
        destruct (String.eqb_spec key k) as [E | E];
        [ subst k; cbn [String.eqb Ascii.eqb Bool.eqb];
          repeat match goal with
            | |- context [opt _ ?o] => destruct o; cbn [opt option_map]
            end; reflexivity
        | ]
    end.
  now destruct (k =? "selected").
Qed.
